(** * confluence-sync: mirroring a wiki page tree into blob storage

    A shallow embedding of [confluence_sync.py] (class [ConfluenceSync]) and of
    the two HTTP entry points [HttpTrigger/__init__.py] and
    [ConfluenceSync/__init__.py], followed by the properties of the
    specification that were checked against it.

    Conventions of the embedding.
    - Python code that talks to the outside runs in the monad [Py]: it threads
      a [world] (the chronological list of calls that left the process, what
      was printed, what was logged, how often the clock was read) and ends in
      an [outcome]: a value, or a raised exception.  Only subclasses of
      [Exception] are modelled, which is what [except Exception] catches.
    - The wiki service, the blob store, the process environment and the clock
      are one record [upstream] of answer functions.  An answer may depend on
      everything that was sent before (the history), so a service may answer
      the same request differently on two occasions.
    - Answers of the wiki service are taken at the level of their schema
      ([document], [page_ref]).  A body that does not decode is an answer
      whose [json] raises; a body of any other shape is a [document] that
      says, for each subscript the program applies to it, the value found
      or the exception raised.
    - [os.path.join] is the POSIX one (the functions host runs Linux). *)

From stdpp Require Import base option list strings pretty gmap.
From Stdlib Require Import Ascii ZArith Lia.

Open Scope string_scope.
Open Scope Z_scope.
Open Scope list_scope.

(** ** Strings and paths *)

Module Path.

Definition sep : ascii := "/"%char.
Definition backslash : ascii := "\"%char.

(** [b.startswith('/')] *)
Definition startswith_sep (b : string) : bool :=
  match b with
  | String c _ => bool_decide (c = sep)
  | EmptyString => false
  end.

(** [a.endswith('/')] *)
Fixpoint endswith_sep (a : string) : bool :=
  match a with
  | EmptyString => false
  | String c EmptyString => bool_decide (c = sep)
  | String _ rest => endswith_sep rest
  end.

Definition is_empty (a : string) : bool :=
  match a with EmptyString => true | _ => false end.

(** [posixpath.join(a, b)]: an absolute [b] discards [a]; no separator is
    added after an empty [a] or one that already ends in a separator. *)
Definition join (a b : string) : string :=
  if startswith_sep b then b
  else if is_empty a || endswith_sep a then a +:+ b
  else a +:+ "/" +:+ b.

(** [s.replace("\\", "/")] *)
Fixpoint replace_backslash (s : string) : string :=
  match s with
  | EmptyString => EmptyString
  | String c rest =>
      String (if bool_decide (c = backslash) then sep else c)
                 (replace_backslash rest)
  end.

(** ['/'.join(titles)] *)
Definition slash_join (titles : list string) : string :=
  String.concat "/" titles.

Fixpoint mentions (c : ascii) (s : string) : bool :=
  match s with
  | EmptyString => false
  | String d rest => bool_decide (d = c) || mentions c rest
  end.

End Path.

(** ** Calendar dates, as [datetime] computes them *)

Module Calendar.

(** A date is its proleptic Gregorian ordinal ([date.toordinal()], day 1 is
    0001-01-01).  Time of day is left out: [strftime('%Y-%m-%d')] does not
    print it and subtracting [timedelta(1)] does not change it. *)
Definition days_before_month (month : Z) : Z :=
  match month with
  | 1 => 0 | 2 => 31 | 3 => 59 | 4 => 90 | 5 => 120 | 6 => 151
  | 7 => 181 | 8 => 212 | 9 => 243 | 10 => 273 | 11 => 304 | 12 => 334
  | _ => 0
  end.

Definition days_in_month (month : Z) : Z :=
  match month with
  | 2 => 28
  | 4 | 6 | 9 | 11 => 30
  | _ => 31
  end.

Definition b2z (b : bool) : Z := if b then 1 else 0.

(** [datetime._ord2ymd] *)
Definition ord2ymd (ordinal : Z) : Z * Z * Z :=
  let n := ordinal - 1 in
  let n400 := n / 146097 in
  let n := n mod 146097 in
  let n100 := n / 36524 in
  let n := n mod 36524 in
  let n4 := n / 1461 in
  let n := n mod 1461 in
  let n1 := n / 365 in
  let n := n mod 365 in
  let year := n400 * 400 + 1 + n100 * 100 + n4 * 4 + n1 in
  if (n1 =? 4) || (n100 =? 4) then (year - 1, 12, 31)
  else
    let leapyear := (n1 =? 3) && (negb (n4 =? 24) || (n100 =? 3)) in
    let month := Z.shiftr (n + 50) 5 in
    let preceding :=
      days_before_month month + b2z ((2 <? month) && leapyear) in
    if n <? preceding then
      let month := month - 1 in
      let preceding :=
        preceding - (days_in_month month + b2z ((month =? 2) && leapyear)) in
      (year, month, n - preceding + 1)
    else (year, month, n - preceding + 1).

Definition digit (d : Z) : ascii :=
  Ascii.ascii_of_nat (48 + Z.to_nat (d mod 10)).

(** The last [width] decimal digits of [n], zero padded. *)
Fixpoint zfill (width : nat) (n : Z) (acc : string) : string :=
  match width with
  | O => acc
  | S w => zfill w (n / 10) (String (digit n) acc)
  end.

(** [d.strftime('%Y-%m-%d')], for the years 1 to 9999 of [datetime]. *)
Definition strftime_ymd (ordinal : Z) : string :=
  let '(y, m, d) := ord2ymd ordinal in
  zfill 4 y EmptyString +:+ "-" +:+ zfill 2 m EmptyString +:+ "-"
  +:+ zfill 2 d EmptyString.

(** [d - timedelta(1)] *)
Definition minus_one_day (ordinal : Z) : Z := ordinal - 1.

End Calendar.

(** ** Python values, exceptions, outcomes *)

(** A value taken from a JSON body or a query string, as far as the program
    can observe it: it is a [str], or something else, of which the program
    only ever uses the truth value ([not v]) and the rendering ([str(v)] in
    an f-string); [==] with a [str] literal is [False] for it. *)
Inductive pyval :=
| PyStr (s : string)
| PyOther (truthy : bool) (shown : string).

Definition truthy (v : pyval) : bool :=
  match v with
  | PyStr s => negb (Path.is_empty s)
  | PyOther t _ => t
  end.

Definition py_str (v : pyval) : string :=
  match v with
  | PyStr s => s
  | PyOther _ shown => shown
  end.

(** [v == literal] for a [str] literal. *)
Definition eq_str (v : pyval) (literal : string) : bool :=
  match v with
  | PyStr s => bool_decide (s = literal)
  | PyOther _ _ => false
  end.

(** [str(x)] for an [Optional[str]] such as [os.getenv] gives. *)
Definition show_optional (x : option string) : string :=
  match x with
  | Some s => s
  | None => "None"
  end.

(** An exception: its class and [str(e)]. *)
Record exn := Exn { exn_class : string; exn_str : string }.

Inductive outcome (A : Type) :=
| Returns (a : A)
| Raises (e : exn).
Arguments Returns {A} a.
Arguments Raises {A} e.

Definition raised {A} (o : outcome A) : bool :=
  match o with Returns _ => false | Raises _ => true end.

(** ** What crosses the process boundary *)

(** An entry of a listing of pages (children, ancestors, search results,
    pages of a space): the keys ['id'] and ['title'] of the entry. *)
Record page_ref := PageRef { ref_id : string; ref_title : string }.

(** The JSON documents of the REST interface, by the subscripts the program
    applies to them: [data['title']], [data['body']['storage']['value']],
    [data['version']['when']] and [data['results']].  A page holds the first
    three and no [results]; a listing holds [results] and none of the keys
    of a page; every other JSON value (an object with some of the keys only,
    an object with all four, a list, a string, ...) is given by what each of
    the four subscripts yields on it, a value or the exception raised. *)
Inductive document :=
| PageDocument (title body when : string)
| ChildrenDocument (results : list page_ref)
| OtherDocument (title body when : outcome string)
    (results : outcome (list page_ref)).

(** A [requests.Response]: [json] is what [response.json()] gives. *)
Record response := Response {
  status_code : Z;
  reason : string;
  final_url : string;
  json : outcome document
}.

(** The calls that reach the wiki service or the blob store. *)
Inductive call :=
| HttpGet (url : string) (params : list (string * string))
| GetAllPagesFromSpace (space : pyval) (limit : Z)
| GetPageAncestors (page_id : string)
| Cql (query expand : string)
| CreateContainer (container : string)
| UploadBlob (container blob_name content : string)
| SetBlobMetadata (container blob_name : string) (metadata : gmap string string).

(** The surroundings of one run.  The answer functions of the two services
    take the history, the calls sent before the one being answered. *)
Record upstream := Upstream {
  (* the process *)
  getenv : string → option string;
  now_ordinal : nat → Z;           (* local date at the n-th reading of the clock *)
  stack_room : nat;                (* nested activations of [process_page_full]
                                      that fit on the interpreter stack below
                                      the first one *)
  (* client objects, built without I/O; building may raise *)
  new_confluence : option string → option string → option string → outcome unit;
  from_connection_string : option string → outcome unit;
  (* the wiki service *)
  requests_get : list call → string → list (string * string) → outcome response;
  get_all_pages_from_space : list call → pyval → Z → outcome (list page_ref);
  get_page_ancestors : list call → string → outcome (list page_ref);
  cql : list call → string → string → outcome (list page_ref);
  (* the blob store *)
  create_container : list call → string → outcome unit;
  upload_blob : list call → string → string → string → outcome unit;
  set_blob_metadata :
    list call → string → string → gmap string string → outcome unit
}.

Record world := World {
  history : list call;                 (* oldest first *)
  clock_reads : nat;
  stdout : list string;                (* lines written by [print] *)
  journal : list (string * string)     (* [logging]: level and message *)
}.

Definition boot : world := World [] 0 [] [].

(** ** The monad of Python code *)

Definition Py (A : Type) : Type := world → outcome A * world.

#[global] Instance Py_ret : MRet Py := λ A a w, (Returns a, w).

#[global] Instance Py_bind : MBind Py := λ A B k m w,
  match m w with
  | (Returns a, w') => k a w'
  | (Raises e, w') => (Raises e, w')
  end.

Definition raise {A} (e : exn) : Py A := λ w, (Raises e, w).

(** A step without I/O that may raise. *)
Definition local {A} (o : outcome A) : Py A := λ w, (o, w).

(** [try: body except Exception as e: handler e] *)
Definition try_except {A} (body : Py A) (handler : exn → Py A) : Py A := λ w,
  match body w with
  | (Returns a, w') => (Returns a, w')
  | (Raises e, w') => handler e w'
  end.

Definition print (line : string) : Py unit := λ w,
  (Returns (), World (history w) (clock_reads w) (stdout w ++ [line]) (journal w)).

Definition logging (level message : string) : Py unit := λ w,
  (Returns (),
   World (history w) (clock_reads w) (stdout w) (journal w ++ [(level, message)])).

(** Send [c]; [answer] is the service's answer function for it. *)
Definition send {A} (c : call) (answer : list call → outcome A) : Py A := λ w,
  (answer (history w),
   World (history w ++ [c]) (clock_reads w) (stdout w) (journal w)).

(** [for x in items: body x] *)
Fixpoint for_each {A} (items : list A) (body : A → Py unit) : Py unit :=
  match items with
  | [] => mret ()
  | x :: rest => body x ;; for_each rest body
  end.

Definition KeyError (key : string) : exn := Exn "KeyError" ("'" +:+ key +:+ "'").
Definition IndexError : exn := Exn "IndexError" "list index out of range".
Definition RecursionError : exn :=
  Exn "RecursionError" "maximum recursion depth exceeded".

(** What each subscript yields on a document. *)
Definition title_of (data : document) : outcome string :=
  match data with
  | PageDocument title _ _ => Returns title
  | ChildrenDocument _ => Raises (KeyError "title")
  | OtherDocument title _ _ _ => title
  end.

Definition body_storage_value_of (data : document) : outcome string :=
  match data with
  | PageDocument _ body _ => Returns body
  | ChildrenDocument _ => Raises (KeyError "body")
  | OtherDocument _ body _ _ => body
  end.

Definition version_when_of (data : document) : outcome string :=
  match data with
  | PageDocument _ _ when => Returns when
  | ChildrenDocument _ => Raises (KeyError "version")
  | OtherDocument _ _ when _ => when
  end.

Definition results_of (data : document) : outcome (list page_ref) :=
  match data with
  | ChildrenDocument results => Returns results
  | PageDocument _ _ _ => Raises (KeyError "results")
  | OtherDocument _ _ _ results => results
  end.

(** The body of an error answer: an object with none of the keys. *)
Definition error_document : document :=
  OtherDocument (Raises (KeyError "title")) (Raises (KeyError "body"))
    (Raises (KeyError "version")) (Raises (KeyError "results")).

(** ** [confluence_sync.py]: class [ConfluenceSync] *)

(** The attributes of a [ConfluenceSync] object that are data.  The client
    objects ([confluence], [auth], [blob_service_client], [container_client])
    hold no further state: [container_client] is determined by
    [container_name]. *)
Record session := Session {
  space : pyval;
  base_url : option string;
  confluence_base_url : option string;
  username : option string;
  token : option string;
  azure_connection_string : option string;
  container_name : string;
  root_page_id : string
}.

Section ConfluenceSync.

Context (up : upstream).

(** [response.raise_for_status()] *)
Definition raise_for_status (r : response) : Py unit :=
  if (400 <=? status_code r) && (status_code r <? 500) then
    raise (Exn "HTTPError"
             (pretty (status_code r) +:+ " Client Error: " +:+ reason r
              +:+ " for url: " +:+ final_url r))
  else if (500 <=? status_code r) && (status_code r <? 600) then
    raise (Exn "HTTPError"
             (pretty (status_code r) +:+ " Server Error: " +:+ reason r
              +:+ " for url: " +:+ final_url r))
  else mret ().

(** [data['title']], [data['body']['storage']['value']],
    [data['version']['when']] and [data['results']] *)
Definition item_title (data : document) : Py string :=
  local (title_of data).

Definition item_body_storage_value (data : document) : Py string :=
  local (body_storage_value_of data).

Definition item_version_when (data : document) : Py string :=
  local (version_when_of data).

Definition item_results (data : document) : Py (list page_ref) :=
  local (results_of data).

Definition _create_container (self : session) : Py unit :=
  try_except
    (send (CreateContainer (container_name self))
       (λ h, create_container up h (container_name self)))
    (λ e, print ("Container already exists or could not be created: "
                 +:+ exn_str e)).

(** [container_client.get_blob_client(blob_name)] builds a client without
    I/O; the client refuses an empty container or blob name. *)
Definition get_blob_client (container blob_name : string) : Py unit :=
  if Path.is_empty container || Path.is_empty blob_name then
    raise (Exn "ValueError" "Please specify a container name and blob name.")
  else mret ().

Definition upload_to_azure_blob (self : session)
    (content blob_name : string) (metadata : gmap string string) : Py unit :=
  try_except
    (get_blob_client (container_name self) blob_name ;;
     send (UploadBlob (container_name self) blob_name content)
       (λ h, upload_blob up h (container_name self) blob_name content) ;;
     send (SetBlobMetadata (container_name self) blob_name metadata)
       (λ h, set_blob_metadata up h (container_name self) blob_name metadata) ;;
     print ("Uploaded " +:+ blob_name +:+ " to Azure Blob Storage."))
    (λ e, print ("Failed to upload " +:+ blob_name +:+ ": " +:+ exn_str e)).

Definition child_url (self : session) (parent_id : string) : string :=
  show_optional (confluence_base_url self) +:+ "/" +:+ parent_id
  +:+ "/child/page".

Definition get_child_pages (self : session) (parent_id : string)
    : Py (list page_ref) :=
  let url := child_url self parent_id in
  response ← send (HttpGet url []) (λ h, requests_get up h url []);
  raise_for_status response ;;
  data ← local (json response);
  item_results data.

Definition page_url (self : session) (page_id : string) : string :=
  show_optional (confluence_base_url self) +:+ "/" +:+ page_id.

Definition page_params : list (string * string) :=
  [("expand", "body.storage,version");
   ("orderby", "history.lastModified desc");
   ("limit", "1")].

Definition get_page_content (self : session) (page_id : string)
    : Py (string * string * string) :=
  let url := page_url self page_id in
  let params := page_params in
  response ← send (HttpGet url params) (λ h, requests_get up h url params);
  raise_for_status response ;;
  data ← local (json response);
  title ← item_title data;
  body_content ← item_body_storage_value data;
  created_date ← item_version_when data;
  mret (title, body_content, created_date).

Definition get_updated_page_content (self : session) (page_id : string)
    : Py (string * string * string) :=
  let url :=
    show_optional (confluence_base_url self) +:+ "/" +:+ page_id in
  let params :=
    [("expand", "body.storage,version");
     ("orderby", "history.lastModified desc");
     ("limit", "1")] in
  response ← send (HttpGet url params) (λ h, requests_get up h url params);
  raise_for_status response ;;
  data ← local (json response);
  title ← item_title data;
  body_content ← item_body_storage_value data;
  created_date ← item_version_when data;
  mret (title, body_content, created_date).

(** [pages[0]]: the first entry, or [IndexError]. *)
Definition first_item (pages : list page_ref) : Py page_ref :=
  match pages with
  | p :: _ => mret p
  | [] => raise IndexError
  end.

Definition get_root_page_id (self : session) : Py string :=
  pages ← send (GetAllPagesFromSpace (space self) 1)
             (λ h, get_all_pages_from_space up h (space self) 1);
  page ← first_item pages;
  let space_page_id := ref_id page in
  ancestors ← send (GetPageAncestors space_page_id)
                 (λ h, get_page_ancestors up h space_page_id);
  match ancestors with
  | [] => mret space_page_id
  | top :: _ => mret (ref_id top)
  end.

Definition blob_name_of (path title : string) : string :=
  Path.replace_backslash (Path.join path (title +:+ ".html")).

(** [depth] counts the nested activations the interpreter stack still
    admits: a recursive call made with none left raises [RecursionError],
    which, like any other exception, lands in the handler of the activation
    that made the call. *)
Fixpoint process_page_full (depth : nat) (self : session)
    (page_id path : string) : Py unit :=
  try_except
    ('(title, content, created_date) ← get_page_content self page_id;
     let blob_name := blob_name_of path title in
     let metadata : gmap string string := {[ "created_date" := created_date ]} in
     upload_to_azure_blob self content blob_name metadata ;;
     child_pages ← get_child_pages self page_id;
     for_each child_pages (λ child,
       match depth with
       | O => raise RecursionError
       | S deeper =>
           process_page_full deeper self (ref_id child) (Path.join path title)
       end))
    (λ e, print ("An error occurred: " +:+ exn_str e)).

Definition build_full_path (self : session) (page_id : string) : Py string :=
  ancestors ← send (GetPageAncestors page_id)
                 (λ h, get_page_ancestors up h page_id);
  let ancestor_titles := ref_title <$> ancestors in
  mret (Path.slash_join ancestor_titles).

(** [datetime.now()], reduced to its date. *)
Definition datetime_now : Py Z := λ w,
  (Returns (now_ordinal up (clock_reads w)),
   World (history w) (S (clock_reads w)) (stdout w) (journal w)).

Definition cql_text (space_key since until : string) : string :=
  "space = " +:+ space_key +:+ " AND type = page AND lastmodified >= "
  +:+ since +:+ " AND lastmodified < " +:+ until.

(** The body of the loop of [process_page_incremental]. *)
Definition incremental_step (self : session) (page_id : string) : Py unit :=
  '(title, body_content, created_date) ← get_page_content self page_id;
  path ← build_full_path self page_id;
  let blob_name := blob_name_of path title in
  let metadata : gmap string string := {[ "created_date" := created_date ]} in
  upload_to_azure_blob self body_content blob_name metadata.

Definition process_page_incremental (self : session) : Py unit :=
  try_except
    (now ← datetime_now;
     let yesterday := Calendar.strftime_ymd (Calendar.minus_one_day now) in
     today ← datetime_now;
     let query :=
       cql_text (py_str (space self)) yesterday (Calendar.strftime_ymd today) in
     results ← send (Cql query "ancestors") (λ h, cql up h query "ancestors");
     let page_ids := ref_id <$> results in
     for_each page_ids (incremental_step self))
    (λ e, print ("An error occurred: " +:+ exn_str e)).

(** [ConfluenceSync.__init__]; [root_page_id] is assigned last, the field is
    empty until then. *)
Definition ConfluenceSync (space : pyval) : Py session :=
  let base_url := getenv up "CONFLUENCE_BASE_URL" in
  let confluence_base_url := getenv up "CONFLUENCE_REST_API_URL" in
  let username := getenv up "ATLASSIAN_USERNAME" in
  let token := getenv up "ATLASSIAN_TOKEN" in
  local (new_confluence up base_url username token) ;;
  let azure_connection_string := getenv up "STORAGE_CONNECTION_STRING" in
  let container_name := if eq_str space "SIA" then "public" else "private" in
  local (from_connection_string up azure_connection_string) ;;
  let self :=
    Session space base_url confluence_base_url username token
      azure_connection_string container_name EmptyString in
  _create_container self ;;
  root ← get_root_page_id self;
  mret (Session space base_url confluence_base_url username token
          azure_connection_string container_name root).

End ConfluenceSync.

(** ** The HTTP entry points *)

(** [func.HttpResponse(body, status_code=...)] *)
Record http_response := HttpResponse { response_body : string; status : Z }.

(** What [req.get_json()] can give: a JSON object, or another JSON value;
    subscripting the latter with a [str] raises [TypeError]. *)
Inductive json_value :=
| JsonObject (members : gmap string pyval)
| JsonOther (subscript_error : string).

(** [d.get(key)] on the query parameters: [None] when absent. *)
Definition params_get (params : gmap string string) (key : string) : pyval :=
  match params !! key with
  | Some v => PyStr v
  | None => PyOther false "None"
  end.

(** [data[key]] *)
Definition getitem (data : json_value) (key : string) : Py pyval :=
  match data with
  | JsonObject members =>
      match members !! key with
      | Some v => mret v
      | None => raise (KeyError key)
      end
  | JsonOther subscript_error => raise (Exn "TypeError" subscript_error)
  end.

Definition missing_parameters : http_response :=
  HttpResponse
    "Please pass both 'space' and 'type' parameters in the query string." 400.

Definition invalid_type : http_response :=
  HttpResponse "Invalid 'type' parameter. Please use 'full' or 'incremental'."
    400.

Definition internal_error : http_response :=
  HttpResponse "An error occurred while processing the request." 500.

Section EntryPoints.

Context (up : upstream).

(** [HttpTrigger/__init__.py]: parameters in the query string. *)
Definition HttpTrigger_main (params : gmap string string) : Py http_response :=
  logging "INFO" "HTTP trigger function processed a request." ;;
  let space := params_get params "space" in
  let ingestion_type := params_get params "type" in
  if negb (truthy space) || negb (truthy ingestion_type) then
    mret missing_parameters
  else
    try_except
      (confluence_sync ← ConfluenceSync up space;
       if eq_str ingestion_type "full" then
         process_page_full up (stack_room up) confluence_sync
           (root_page_id confluence_sync) EmptyString ;;
         mret (HttpResponse
                 ("Full sync completed for space: " +:+ py_str space +:+ ".")
                 200)
       else if eq_str ingestion_type "incremental" then
         process_page_incremental up confluence_sync ;;
         mret (HttpResponse
                 ("Incremental sync completed for space: " +:+ py_str space
                  +:+ ".")
                 200)
       else mret invalid_type)
      (λ e,
         logging "ERROR" ("An error occurred: " +:+ exn_str e) ;;
         mret internal_error).

(** [ConfluenceSync/__init__.py]: parameters in a JSON body.  The first
    [try] either leaves with a response or binds [space] and
    [ingestion_type]. *)
Definition ConfluenceSync_main (get_json : outcome json_value)
    : Py http_response :=
  logging "INFO" "HTTP trigger function processed a request." ;;
  parsed ← try_except
             (data ← local get_json;
              space ← getitem data "space";
              ingestion_type ← getitem data "type";
              logging "INFO" (py_str space) ;;
              logging "INFO" (py_str ingestion_type) ;;
              mret (inr (space, ingestion_type)))
             (λ e, mret (inl (HttpResponse (exn_str e) 400)));
  match parsed with
  | inl early => mret early
  | inr (space, ingestion_type) =>
      if negb (truthy space) || negb (truthy ingestion_type) then
        mret missing_parameters
      else
        try_except
          (confluence_sync ← ConfluenceSync up space;
           if eq_str ingestion_type "full" then
             process_page_full up (stack_room up) confluence_sync
               (root_page_id confluence_sync) EmptyString ;;
             mret (HttpResponse
                     ("Full sync completed for space: " +:+ py_str space
                      +:+ ".")
                     200)
           else if eq_str ingestion_type "incremental" then
             process_page_incremental up confluence_sync ;;
             mret (HttpResponse
                     ("Incremental sync completed for space: "
                      +:+ py_str space +:+ ".")
                     200)
           else mret invalid_type)
          (λ e,
             logging "ERROR" ("An error occurred: " +:+ exn_str e) ;;
             mret internal_error)
  end.

End EntryPoints.

(** ** Page trees and what a run leaves behind *)

(** A page with the subtrees of its children, in the order the service
    lists them. *)
#[warnings="-register-all"]
Inductive page_tree :=
| Page (id title body when : string) (children : list page_tree).

Definition tree_id (t : page_tree) : string :=
  match t with Page id _ _ _ _ => id end.
Definition tree_title (t : page_tree) : string :=
  match t with Page _ title _ _ _ => title end.
Definition tree_children (t : page_tree) : list page_tree :=
  match t with Page _ _ _ _ children => children end.

Definition tree_ref (t : page_tree) : page_ref :=
  PageRef (tree_id t) (tree_title t).

(** Number of levels of the tree. *)
Fixpoint height (t : page_tree) : nat :=
  match t with
  | Page _ _ _ _ children => S (foldr (λ c m, Nat.max (height c) m) O children)
  end.

(** An upload as the blob store sees it: name and content. *)
Definition blob : Type := string * string.

(** Following the words of the specification: the path of an object is the
    titles of the ancestors of the page, root first, joined by ['/'], then
    ['<title>.html']. *)
Definition spec_blob_path (ancestors : list string) (title : string) : string :=
  Path.slash_join (ancestors ++ [title +:+ ".html"]).

(** The objects the specification expects of a full sync, parents before
    children, [ancestors] being the titles above [t]. *)
Fixpoint expected_blobs (ancestors : list string) (t : page_tree) : list blob :=
  match t with
  | Page _ title body _ children =>
      (spec_blob_path ancestors title, body)
      :: List.concat (map (expected_blobs (ancestors ++ [title])) children)
  end.

(** The identifiers of the pages of a tree, parents before children. *)
Fixpoint preorder_ids (t : page_tree) : list string :=
  match t with
  | Page id _ _ _ children => id :: List.concat (map preorder_ids children)
  end.

(** The uploads among some calls, and the pages whose content was fetched. *)
Definition uploads_in (calls : list call) : list blob :=
  omap (λ c, match c with
             | UploadBlob _ blob_name content => Some (blob_name, content)
             | _ => None
             end) calls.

Definition calls_since (before after : world) : list call :=
  drop (length (history before)) (history after).

(** Status codes [raise_for_status] lets pass. *)
Definition passes (code : Z) : Prop := code < 400 ∨ 600 ≤ code.

(** The pages whose content was requested, by the URL asked ([get_page_content]
    sends parameters, [get_child_pages] none). *)
Definition content_fetches (calls : list call) : list string :=
  omap (λ c, match c with
             | HttpGet url (_ :: _) => Some url
             | _ => None
             end) calls.

(** The world after [c] was sent, and after [line] was printed. *)
Definition sent (c : call) (w : world) : world :=
  World (history w ++ [c]) (clock_reads w) (stdout w) (journal w).

Definition printed (line : string) (w : world) : world :=
  World (history w) (clock_reads w) (stdout w ++ [line]) (journal w).

Definition logged (level message : string) (w : world) : world :=
  World (history w) (clock_reads w) (stdout w) (journal w ++ [(level, message)]).

(** The world in which an entry point starts its work. *)
Definition entered (w : world) : world :=
  logged "INFO" "HTTP trigger function processed a request." w.

(** The wiki service answers for page [id] with this content, whatever was
    sent before; likewise for the listing of its children. *)
Definition page_served (up : upstream) (self : session)
    (id title body when : string) : Prop :=
  ∀ h, ∃ r, requests_get up h (page_url self id) page_params = Returns r
            ∧ passes (status_code r)
            ∧ json r = Returns (PageDocument title body when).

Definition children_served (up : upstream) (self : session)
    (id : string) (children : list page_ref) : Prop :=
  ∀ h, ∃ r, requests_get up h (child_url self id) [] = Returns r
            ∧ passes (status_code r)
            ∧ json r = Returns (ChildrenDocument children).

(** The wiki service holds the tree [t]. *)
#[warnings="-register-all"]
Inductive serves (up : upstream) (self : session) : page_tree → Prop :=
| serves_page id title body when children :
    page_served up self id title body when →
    children_served up self id (tree_ref <$> children) →
    Forall (serves up self) children →
    serves up self (Page id title body when children).

(** The objects a full sync writes for [t] when started with prefix [path]:
    the path arithmetic of [process_page_full]. *)
Fixpoint written_blobs (path : string) (t : page_tree) : list blob :=
  match t with
  | Page _ title body _ children =>
      (blob_name_of path title, body)
      :: List.concat (map (written_blobs (Path.join path title)) children)
  end.

(** Titles on which [os.path.join] acts as plain joining with ['/']: not
    empty, no ['/'] at either end. *)
Definition plain_title (title : string) : bool :=
  negb (Path.is_empty title)
  && negb (Path.startswith_sep title)
  && negb (Path.endswith_sep title).

Definition without_backslash (title : string) : bool :=
  negb (Path.mentions Path.backslash title).

(** Every title of the tree passes [test]. *)
Fixpoint all_titles (test : string → bool) (t : page_tree) : bool :=
  match t with
  | Page _ title _ _ children =>
      test title && forallb (all_titles test) children
  end.

(** An object with the backslashes of its path written as slashes. *)
Definition normalised (b : blob) : blob := (Path.replace_backslash b.1, b.2).

(** The status of the response an entry point returned, if it returned. *)
Definition status_of (o : outcome http_response) : option Z :=
  match o with
  | Returns r => Some (status r)
  | Raises _ => None
  end.

(** ** The two entry points, taken apart *)

(** What both entry points do once [space] and [ingestion_type] are bound. *)
Definition dispatch (up : upstream) (space ingestion_type : pyval)
    : Py http_response :=
  if negb (truthy space) || negb (truthy ingestion_type) then
    mret missing_parameters
  else
    try_except
      (confluence_sync ← ConfluenceSync up space;
       if eq_str ingestion_type "full" then
         process_page_full up (stack_room up) confluence_sync
           (root_page_id confluence_sync) EmptyString ;;
         mret (HttpResponse
                 ("Full sync completed for space: " +:+ py_str space +:+ ".")
                 200)
       else if eq_str ingestion_type "incremental" then
         process_page_incremental up confluence_sync ;;
         mret (HttpResponse
                 ("Incremental sync completed for space: " +:+ py_str space
                  +:+ ".")
                 200)
       else mret invalid_type)
      (λ e,
         logging "ERROR" ("An error occurred: " +:+ exn_str e) ;;
         mret internal_error).

(** What the first [try] of the JSON entry point binds, or the exception
    that makes it answer 400. *)
Definition read_parameters (get_json : outcome json_value)
    : outcome (pyval * pyval) :=
  match get_json with
  | Raises e => Raises e
  | Returns (JsonOther subscript_error) =>
      Raises (Exn "TypeError" subscript_error)
  | Returns (JsonObject members) =>
      match members !! "space" with
      | None => Raises (KeyError "space")
      | Some space =>
          match members !! "type" with
          | None => Raises (KeyError "type")
          | Some ingestion_type => Returns (space, ingestion_type)
          end
      end
  end.

(** A parameter is missing or empty: for the query string, on the value
    [params.get] gives; for the JSON body, when the body cannot be read, or
    a key is absent, or its value is false in Python's sense. *)
Definition lacks_query (params : gmap string string) : bool :=
  negb (truthy (params_get params "space"))
  || negb (truthy (params_get params "type")).

Definition lacks_json (get_json : outcome json_value) : bool :=
  match read_parameters get_json with
  | Returns (space, ingestion_type) =>
      negb (truthy space) || negb (truthy ingestion_type)
  | Raises _ => true
  end.

(** A [type] that is present but names neither mode. *)
Definition unrecognized (ingestion_type : pyval) : bool :=
  truthy ingestion_type
  && negb (eq_str ingestion_type "full")
  && negb (eq_str ingestion_type "incremental").

(** ** The full sync, taken apart *)

(** The recursive call in the loop of an activation of [process_page_full]
    that runs at [depth], and the guarded steps of that activation. *)
Definition descend (up : upstream) (depth : nat) (self : session)
    (prefix : string) (child : page_ref) : Py unit :=
  match depth with
  | O => raise RecursionError
  | S deeper => process_page_full up deeper self (ref_id child) prefix
  end.

Definition page_steps (up : upstream) (depth : nat) (self : session)
    (page_id path : string) : Py unit :=
  '(title, content, created_date) ← get_page_content up self page_id;
  let blob_name := blob_name_of path title in
  let metadata : gmap string string := {[ "created_date" := created_date ]} in
  upload_to_azure_blob up self content blob_name metadata ;;
  child_pages ← get_child_pages up self page_id;
  for_each child_pages (descend up depth self (Path.join path title)).

(** A computation only ever adds to the history. *)
Definition grows {A} (m : Py A) : Prop :=
  ∀ w, ∃ delta, history (m w).2 = history w ++ delta.

(** What the visit of a tree leaves in the history. *)
Definition visited (up : upstream) (self : session) (body : Py unit)
    (blobs : list blob) (urls : list string) : Prop :=
  ∀ w, ∃ w' delta,
    body w = (Returns (), w')
    ∧ history w' = history w ++ delta
    ∧ uploads_in delta = blobs
    ∧ content_fetches delta = urls.

(** What [__init__] establishes about the container of a session. *)
Definition constructed (self : session) : Prop :=
  container_name self = if eq_str (space self) "SIA" then "public" else "private".

(** ** A full sync of a tree some pages of which fail *)

(** [down] lists the pages whose content cannot be fetched, [unlisted]
    those whose children cannot be listed. *)
Definition failing (down unlisted : list string) (id : string) : bool :=
  bool_decide (id ∈ down) || bool_decide (id ∈ unlisted).

(** The pages of a tree, parents before children, and the pages strictly
    below its root. *)
Fixpoint subtrees (t : page_tree) : list page_tree :=
  match t with
  | Page _ _ _ _ children => t :: List.concat (map subtrees children)
  end.

Definition below (t : page_tree) : list page_tree :=
  List.concat (map subtrees (tree_children t)).

(** Following the words of the specification: the pages a full sync visits,
    parents before children, when nothing below a failing page is visited;
    and the objects it writes, one for every page whose content it has. *)
Fixpoint reached (down unlisted : list string) (t : page_tree)
    : list page_tree :=
  match t with
  | Page id _ _ _ children =>
      t :: (if failing down unlisted id then []
            else List.concat (map (reached down unlisted) children))
  end.

Fixpoint salvaged (down unlisted : list string) (path : string)
    (t : page_tree) : list blob :=
  match t with
  | Page id title body _ children =>
      if bool_decide (id ∈ down) then []
      else
        (blob_name_of path title, body)
        :: (if bool_decide (id ∈ unlisted) then []
            else List.concat (map (salvaged down unlisted (Path.join path title))
                                children))
  end.

(** The wiki service holds the tree [t], with the faults [down] and
    [unlisted]: a fetch that fails raises, whatever was sent before, every
    other fetch is served.  Of the pages below a failing page nothing is
    required. *)
#[warnings="-register-all"]
Inductive ailing (up : upstream) (self : session) (down unlisted : list string)
    : page_tree → Prop :=
| ailing_page id title body when children :
    (id ∈ down → ∀ w, raised (get_page_content up self id w).1 = true) →
    (id ∉ down → page_served up self id title body when) →
    (id ∉ down → id ∈ unlisted →
     ∀ w, raised (get_child_pages up self id w).1 = true) →
    (failing down unlisted id = false →
     children_served up self id (tree_ref <$> children)) →
    (failing down unlisted id = false →
     Forall (ailing up self down unlisted) children) →
    ailing up self down unlisted (Page id title body when children).

(** ** The incremental sync, taken apart *)

(** The dates [process_page_incremental] computes when started in [w]: the
    clock is read twice, first for yesterday, then for today. *)
Definition yesterday_at (up : upstream) (w : world) : Z :=
  Calendar.minus_one_day (now_ordinal up (clock_reads w)).

Definition today_at (up : upstream) (w : world) : Z :=
  now_ordinal up (S (clock_reads w)).

(** The search it sends, and the world once the search was sent. *)
Definition incremental_query (up : upstream) (self : session) (w : world)
    : string :=
  cql_text (py_str (space self))
    (Calendar.strftime_ymd (yesterday_at up w))
    (Calendar.strftime_ymd (today_at up w)).

Definition searched (up : upstream) (self : session) (w : world) : world :=
  World (history w ++ [Cql (incremental_query up self w) "ancestors"])
    (S (S (clock_reads w))) (stdout w) (journal w).

(** The texts of the searches among some calls. *)
Definition searches_in (calls : list call) : list string :=
  omap (λ c, match c with
             | Cql query _ => Some query
             | _ => None
             end) calls.

(** A page of the space as the wiki service holds it: its entry, content,
    the date of its last modification (as an ordinal) and the entries of its
    ancestors, root first. *)
Record wiki_page := WikiPage {
  wp_id : string;
  wp_title : string;
  wp_body : string;
  wp_when : string;
  wp_modified : Z;
  wp_ancestors : list page_ref
}.

Definition wp_ref (p : wiki_page) : page_ref := PageRef (wp_id p) (wp_title p).

(** The pages last modified in the half-open window from [since] to
    [until]. *)
Definition modified_within (since until : Z) (pages : list wiki_page)
    : list wiki_page :=
  filter (λ p, since ≤ wp_modified p ∧ wp_modified p < until) pages.

(** The wiki service answers for the content and the ancestors of [p]. *)
Definition page_known (up : upstream) (self : session) (p : wiki_page) : Prop :=
  page_served up self (wp_id p) (wp_title p) (wp_body p) (wp_when p)
  ∧ ∀ h, get_page_ancestors up h (wp_id p) = Returns (wp_ancestors p).

(** The object an incremental sync writes for [p]. *)
Definition incremental_blob (p : wiki_page) : blob :=
  (blob_name_of (Path.slash_join (ref_title <$> wp_ancestors p)) (wp_title p),
   wp_body p).

(** The wiki service cannot give the content, or the ancestors, of [p]. *)
Definition page_unreadable (up : upstream) (self : session) (p : wiki_page)
    : Prop :=
  (∀ w, raised (get_page_content up self (wp_id p) w).1 = true)
  ∨ (∀ h, raised (get_page_ancestors up h (wp_id p)) = true).

(** ** Sample surroundings, for worked instances *)

Module Sample.

Definition rest_url : string := "https://wiki.example/rest/api/content".

Definition environ (name : string) : option string :=
  if bool_decide (name = "CONFLUENCE_BASE_URL") then Some "https://wiki.example"
  else if bool_decide (name = "CONFLUENCE_REST_API_URL") then Some rest_url
  else if bool_decide (name = "ATLASSIAN_USERNAME") then Some "sync@example.org"
  else if bool_decide (name = "ATLASSIAN_TOKEN") then Some "token"
  else if bool_decide (name = "STORAGE_CONNECTION_STRING")
  then Some "UseDevelopmentStorage=true"
  else None.

(** The session [ConfluenceSync] builds for [space_key] in [environ]. *)
Definition session_of (space_key root : string) : session :=
  Session (PyStr space_key) (Some "https://wiki.example") (Some rest_url)
    (Some "sync@example.org") (Some "token") (Some "UseDevelopmentStorage=true")
    (if bool_decide (space_key = "SIA") then "public" else "private") root.

(** All pages of a tree, and for each identifier the entries of the pages
    above it, root first. *)
Fixpoint pages_of (t : page_tree) : list page_tree :=
  match t with
  | Page _ _ _ _ children => t :: List.concat (map pages_of children)
  end.

Fixpoint ancestry (above : list page_ref) (t : page_tree)
    : list (string * list page_ref) :=
  match t with
  | Page id title _ _ children =>
      (id, above)
      :: List.concat (map (ancestry (above ++ [PageRef id title])) children)
  end.

Definition not_found (url : string) : outcome response :=
  Returns (Response 404 "Not Found" url (Returns error_document)).

(** A wiki service holding the tree [t]; the pages listed in [down] answer
    500 when their content is asked for. *)
Definition wiki_get (t : page_tree) (down : list string)
    (url : string) (params : list (string * string)) : outcome response :=
  match params with
  | [] =>
      match List.find (λ p, bool_decide
               (url = rest_url +:+ "/" +:+ tree_id p +:+ "/child/page"))
              (pages_of t) with
      | Some p =>
          Returns (Response 200 "OK" url
                     (Returns (ChildrenDocument (tree_ref <$> tree_children p))))
      | None => not_found url
      end
  | _ :: _ =>
      match List.find (λ p, bool_decide (url = rest_url +:+ "/" +:+ tree_id p))
              (pages_of t) with
      | Some (Page id title body when _) =>
          if bool_decide (id ∈ down) then
            Returns (Response 500 "Internal Server Error" url
                       (Returns error_document))
          else
            Returns (Response 200 "OK" url
                       (Returns (PageDocument title body when)))
      | None => not_found url
      end
  end.

Definition wiki_ancestors (t : page_tree) (page_id : string)
    : outcome (list page_ref) :=
  match List.find (λ entry, bool_decide (entry.1 = page_id)) (ancestry [] t) with
  | Some entry => Returns entry.2
  | None => Raises (Exn "HTTPError" "404 Client Error: Not Found")
  end.

(** A blob store that works, and one that refuses every write. *)
Definition store_ok : list call → string → string → string → outcome unit :=
  λ _ _ _ _, Returns ().

Definition store_full : list call → string → string → string → outcome unit :=
  λ _ _ _ _, Raises (Exn "HttpResponseError" "The account is out of space.").

(** Surroundings with the wiki holding [t]; a search answers [found], and
    the first page of the space is [first]. *)
Definition surroundings (t : page_tree) (down : list string)
    (first : list page_ref) (found : list page_ref) (today : Z)
    (store : list call → string → string → string → outcome unit) : upstream :=
  Upstream environ (λ _, today) 8
    (λ _ _ _, Returns ()) (λ _, Returns ())
    (λ _, wiki_get t down)
    (λ _ _ _, Returns first)
    (λ _, wiki_ancestors t)
    (λ _ _ _, Returns found)
    (λ _ _, Returns ())
    store
    (λ _ _ _ _, Returns ()).

Definition stamp : string := "2024-03-01T09:00:00.000Z".

(** Home, with Guides (holding Setup) and FAQ below it. *)
Definition handbook : page_tree :=
  Page "100" "Home" "<p>Welcome</p>" stamp
    [ Page "110" "Guides" "<p>Guides</p>" stamp
        [ Page "111" "Setup" "<p>Setup</p>" stamp [] ];
      Page "120" "FAQ" "<p>FAQ</p>" stamp [] ].

(** 2024-03-15 *)
Definition today : Z := 738960.

(** A wiki that is unreachable once the session exists, and a store that
    refuses every write. *)
Definition outage : upstream :=
  Upstream environ (λ _, today) 8
    (λ _ _ _, Returns ()) (λ _, Returns ())
    (λ _ _ _, Raises (Exn "ConnectionError" "Connection refused"))
    (λ _ _ _, Returns [PageRef "100" "Home"])
    (λ h _, match h with
            | [_; _] => Returns []
            | _ => Raises (Exn "ConnectionError" "Connection refused")
            end)
    (λ _ _ _, Raises (Exn "ConnectionError" "Connection refused"))
    (λ _ _, Returns ())
    store_full
    (λ _ _ _ _, Raises (Exn "HttpResponseError" "The account is out of space.")).

(** The pages of [handbook] as the wiki service holds them: Guides and Setup
    were last modified on 2024-03-14, FAQ on 2024-03-15, Home long before. *)
Definition site : list wiki_page :=
  [ WikiPage "100" "Home" "<p>Welcome</p>" stamp 738900 [];
    WikiPage "110" "Guides" "<p>Guides</p>" stamp 738959
      [PageRef "100" "Home"];
    WikiPage "111" "Setup" "<p>Setup</p>" stamp 738959
      [PageRef "100" "Home"; PageRef "110" "Guides"];
    WikiPage "120" "FAQ" "<p>FAQ</p>" stamp 738960 [PageRef "100" "Home"] ].

(** The session for the space DOCS, whose root is Home. *)
Definition docs : session := session_of "DOCS" "100".

(** The wiki cannot give the content of Guides; a search finds FAQ, Guides
    and Setup. *)
Definition guides_down : upstream :=
  surroundings handbook ["110"] []
    [PageRef "120" "FAQ"; PageRef "110" "Guides"; PageRef "111" "Setup"]
    today store_ok.

(** All is well; a search finds the pages of [site] modified on
    2024-03-14, Guides and Setup. *)
Definition healthy : upstream :=
  surroundings handbook [] [PageRef "111" "Setup"]
    [PageRef "110" "Guides"; PageRef "111" "Setup"] today store_ok.

(** A search finds the pages of [site] modified on 2024-03-14, Guides and
    Setup; the wiki cannot give the content of Guides, or of Setup. *)
Definition guides_unread : upstream :=
  surroundings handbook ["110"] []
    [PageRef "110" "Guides"; PageRef "111" "Setup"] today store_ok.

Definition setup_unread : upstream :=
  surroundings handbook ["111"] []
    [PageRef "110" "Guides"; PageRef "111" "Setup"] today store_ok.

(** A space with titles that are not plain: one holds a backslash, one
    begins with a slash. *)
Definition records : page_tree :=
  Page "200" "Home" "<p>Records</p>" stamp
    [ Page "210" "AC\DC" "<p>Rock</p>" stamp [] ].

Definition unix : page_tree :=
  Page "300" "Home" "<p>Unix</p>" stamp
    [ Page "310" "/etc" "<p>Configuration</p>" stamp
        [ Page "311" "hosts" "<p>Hosts</p>" stamp [] ] ].

(** The wiki holds [t], the blob store works. *)
Definition holding (t : page_tree) : upstream :=
  surroundings t [] [] [] today store_ok.

End Sample.

(** ** Further notions about runs *)

(** The same surroundings with another answer of the blob store to
    [create_container]. *)
Definition with_create_container
    (answer : list call → string → outcome unit) (up : upstream) : upstream :=
  Upstream (getenv up) (now_ordinal up) (stack_room up) (new_confluence up)
    (from_connection_string up) (requests_get up)
    (get_all_pages_from_space up) (get_page_ancestors up) (cql up)
    answer (upload_blob up) (set_blob_metadata up).

(** A call to the blob store names [container]; calls to the wiki service
    name none. *)
Definition targets (container : string) (c : call) : Prop :=
  match c with
  | CreateContainer name | UploadBlob name _ _ | SetBlobMetadata name _ _ =>
      name = container
  | _ => True
  end.

(** The calls a full sync is made of: fetching a page, listing its
    children, writing an object and its metadata. *)
Definition full_sync_call (c : call) : Prop :=
  match c with
  | HttpGet _ _ | UploadBlob _ _ _ | SetBlobMetadata _ _ _ => True
  | _ => False
  end.

(** The calls of the loop of an incremental sync: fetching a page with
    parameters (never a listing of children), asking for ancestors, writing
    an object and its metadata. *)
Definition incremental_call (c : call) : Prop :=
  match c with
  | HttpGet _ (_ :: _) | GetPageAncestors _
  | UploadBlob _ _ _ | SetBlobMetadata _ _ _ => True
  | _ => False
  end.

(** A computation adds to the history only calls that satisfy [P]. *)
Definition sends {A} (P : call → Prop) (m : Py A) : Prop :=
  ∀ w, ∃ delta, history (m w).2 = history w ++ delta ∧ Forall P delta.

(** Two worlds that differ at most in what was logged, and computations
    that cannot tell them apart. *)
Definition alike (w1 w2 : world) : Prop :=
  history w1 = history w2 ∧ clock_reads w1 = clock_reads w2
  ∧ stdout w1 = stdout w2.

Definition journal_blind {A} (m : Py A) : Prop :=
  ∀ w1 w2, alike w1 w2 → (m w1).1 = (m w2).1 ∧ alike (m w1).2 (m w2).2.

(** The pages of a tree as the wiki service holds them below [above]: each
    with the entries of its ancestors, root first. *)
Fixpoint tree_site (above : list page_ref) (t : page_tree) : list wiki_page :=
  match t with
  | Page id title body when children =>
      WikiPage id title body when 0 above
      :: List.concat (map (tree_site (above ++ [PageRef id title])) children)
  end.

(** The session [ConfluenceSync] builds for the space [v] when the root
    page it finds is [root]. *)
Definition session_for (up : upstream) (v : pyval) (root : string) : session :=
  Session v (getenv up "CONFLUENCE_BASE_URL")
    (getenv up "CONFLUENCE_REST_API_URL") (getenv up "ATLASSIAN_USERNAME")
    (getenv up "ATLASSIAN_TOKEN") (getenv up "STORAGE_CONNECTION_STRING")
    (if eq_str v "SIA" then "public" else "private") root.

(** Building the two clients succeeds. *)
Definition clients_build (up : upstream) : Prop :=
  new_confluence up (getenv up "CONFLUENCE_BASE_URL")
    (getenv up "ATLASSIAN_USERNAME") (getenv up "ATLASSIAN_TOKEN")
  = Returns ()
  ∧ from_connection_string up (getenv up "STORAGE_CONNECTION_STRING")
    = Returns ().

(** [s] ends in [suffix]. *)
Definition ends_with (suffix s : string) : Prop := ∃ stem, s = stem +:+ suffix.

(** ** More sample surroundings *)

Module Cases.

(** A blob store that takes every content and refuses every metadata. *)
Definition untagged : upstream :=
  Upstream Sample.environ (λ _, Sample.today) 8
    (λ _ _ _, Returns ()) (λ _, Returns ())
    (λ _, Sample.wiki_get Sample.handbook [])
    (λ _ _ _, Returns [PageRef "100" "Home"])
    (λ _, Sample.wiki_ancestors Sample.handbook)
    (λ _ _ _, Returns [])
    (λ _ _, Returns ())
    Sample.store_ok
    (λ _ _ _ _, Raises (Exn "HttpResponseError" "Metadata is too large.")).

(** A space without pages. *)
Definition empty_space : upstream :=
  Sample.surroundings Sample.handbook [] [] [] Sample.today Sample.store_ok.


End Cases.

(** * Properties *)

(** ** The model at work *)

Example join_empty_prefix : Path.join EmptyString "Home.html" = "Home.html".
Proof. reflexivity. Qed.

Example join_relative : Path.join "Home" "Guides.html" = "Home/Guides.html".
Proof. reflexivity. Qed.

Example join_after_separator : Path.join "Home/" "Guides.html" = "Home/Guides.html".
Proof. reflexivity. Qed.

Example join_absolute : Path.join "Home" "/etc.html" = "/etc.html".
Proof. reflexivity. Qed.

Example strftime_leap_day : Calendar.strftime_ymd 738945 = "2024-02-29".
Proof. reflexivity. Qed.

Example strftime_last_day : Calendar.strftime_ymd 730485 = "2000-12-31".
Proof. reflexivity. Qed.

Example strftime_no_leap_day : Calendar.strftime_ymd 693655 = "1900-03-01".
Proof. reflexivity. Qed.

(** The example of the specification: the space SIA with the single page
    Home gives one object [Home.html] in the public container, with the
    date of the page as [created_date]. *)
Example home_in_public_container :
  let up := Sample.surroundings (Page "1" "Home" "<p>Hi</p>" Sample.stamp [])
              [] [PageRef "1" "Home"] [] Sample.today Sample.store_ok in
  let run := HttpTrigger_main up {[ "space" := "SIA"; "type" := "full" ]} boot in
  run.1 = Returns (HttpResponse "Full sync completed for space: SIA." 200)
  ∧ history run.2
    = [CreateContainer "public";
       GetAllPagesFromSpace (PyStr "SIA") 1;
       GetPageAncestors "1";
       HttpGet (Sample.rest_url +:+ "/1") page_params;
       UploadBlob "public" "Home.html" "<p>Hi</p>";
       SetBlobMetadata "public" "Home.html" {[ "created_date" := Sample.stamp ]};
       HttpGet (Sample.rest_url +:+ "/1/child/page") []].
Proof. vm_compute. split; reflexivity. Qed.

(** ** How the worlds of a run are related *)

Lemma calls_since_app (w w' : world) (delta : list call) :
  history w' = history w ++ delta → calls_since w w' = delta.
Proof.
  intros E. unfold calls_since. rewrite E. apply drop_app_length.
Qed.

Lemma uploads_in_app (a b : list call) :
  uploads_in (a ++ b) = uploads_in a ++ uploads_in b.
Proof. apply omap_app. Qed.

Lemma content_fetches_app (a b : list call) :
  content_fetches (a ++ b) = content_fetches a ++ content_fetches b.
Proof. apply omap_app. Qed.

(** ** The Sink *)

Ltac py_unfold :=
  unfold mbind, mret, Py_bind, Py_ret, try_except, send, print, logging,
    local, raise in *.

(** What one call of [upload_to_azure_blob] does, whatever the store
    answers: it returns, prints one line, and when the blob name is not
    empty it has asked the store once to write the content. *)
Lemma upload_runs (up : upstream) (self : session)
    (content blob_name : string) (metadata : gmap string string) (w : world) :
  ∃ w' line delta,
    upload_to_azure_blob up self content blob_name metadata w = (Returns (), w')
    ∧ history w' = history w ++ delta
    ∧ content_fetches delta = []
    ∧ searches_in delta = []
    ∧ stdout w' = stdout w ++ [line]
    ∧ journal w' = journal w
    ∧ clock_reads w' = clock_reads w
    ∧ (Path.is_empty (container_name self) || Path.is_empty blob_name = false →
       uploads_in delta = [(blob_name, content)]).
Proof.
  unfold upload_to_azure_blob, get_blob_client.
  destruct (Path.is_empty (container_name self) || Path.is_empty blob_name) eqn:E;
    py_unfold; cbn.
  - exists (printed ("Failed to upload " +:+ blob_name +:+ ": "
                     +:+ "Please specify a container name and blob name.") w).
    eexists _, []. rewrite app_nil_r. repeat split; done.
  - destruct (upload_blob up (history w) _ _ _) eqn:U; cbn.
    + destruct (set_blob_metadata up _ _ _ _) eqn:M; cbn;
        (do 3 eexists; split; [reflexivity|]; cbn;
         split; [by rewrite <- app_assoc|]; repeat split; done).
    + do 3 eexists. split; [reflexivity|]. cbn. repeat split; done.
Qed.

(** C7. For every content, blob name and metadata, and whatever the blob
    store answers, [upload_to_azure_blob] returns normally with [None], and
    prints exactly one line.  When the client refuses the names, when
    [upload_blob] raises, or when [set_blob_metadata] raises after a
    successful write, the exception is caught and the line is
    "Failed to upload <name>: <exception>"; only when both calls return is
    the line "Uploaded <name> to Azure Blob Storage.".  Nothing is raised
    to the caller, so the returned value is the same after a successful and
    after a failed upload. *)
Theorem upload_to_azure_blob_never_raises (up : upstream) (self : session)
    (content blob_name : string) (metadata : gmap string string) (w : world) :
  let run := upload_to_azure_blob up self content blob_name metadata w in
  let container := container_name self in
  let failed (e : exn) :=
    "Failed to upload " +:+ blob_name +:+ ": " +:+ exn_str e in
  run.1 = Returns ()
  ∧ stdout run.2
    = stdout w
      ++ [if Path.is_empty container || Path.is_empty blob_name then
            failed (Exn "ValueError"
                      "Please specify a container name and blob name.")
          else
            match upload_blob up (history w) container blob_name content with
            | Raises e => failed e
            | Returns _ =>
                match
                  set_blob_metadata up
                    (history w ++ [UploadBlob container blob_name content])
                    container blob_name metadata
                with
                | Raises e => failed e
                | Returns _ =>
                    "Uploaded " +:+ blob_name +:+ " to Azure Blob Storage."
                end
            end]
  ∧ journal run.2 = journal w
  ∧ ∀ (up' : upstream) (w' : world),
      (upload_to_azure_blob up' self content blob_name metadata w').1 = run.1.
Proof.
  assert (R : ∀ u v, (upload_to_azure_blob u self content blob_name metadata v).1
                     = Returns ()).
  { intros u v.
    destruct (upload_runs u self content blob_name metadata v)
      as (v' & line & delta & -> & _). done. }
  cbn zeta. split; [apply R|].
  split; [|split; [|intros; by rewrite !R]].
  - unfold upload_to_azure_blob, get_blob_client.
    destruct (Path.is_empty (container_name self) || Path.is_empty blob_name);
      py_unfold; cbn; [done|].
    destruct (upload_blob up (history w) _ _ _); cbn; [|done].
    by destruct (set_blob_metadata up _ _ _ _).
  - destruct (upload_runs up self content blob_name metadata w)
      as (v' & line & delta & -> & _ & _ & _ & _ & J & _). done.
Qed.

(** ** The Page Reader *)

(** C9. [get_updated_page_content] and [get_page_content] are the same
    function: for every session, page identifier and world (so for every
    answer of the wiki service) they end in the same outcome, value or
    exception, and leave the same world. *)
Theorem get_updated_page_content_is_get_page_content (up : upstream)
    (self : session) (page_id : string) (w : world) :
  get_updated_page_content up self page_id w
  = get_page_content up self page_id w.
Proof. reflexivity. Qed.

(** ** Running the monad, step by step *)

Lemma bind_run {A B} (m : Py A) (k : A → Py B) (w : world) :
  (m ≫= k) w
  = match m w with
    | (Returns a, w') => k a w'
    | (Raises e, w') => (Raises e, w')
    end.
Proof. reflexivity. Qed.

Lemma guarded_returns (body : Py unit) (report : exn → string) (w : world) :
  (try_except body (λ e, print (report e)) w).1 = Returns ().
Proof.
  unfold try_except, print. destruct (body w) as [[[]|e] w']; done.
Qed.

Lemma process_page_full_returns (up : upstream) (depth : nat) (self : session)
    (page_id path : string) (w : world) :
  (process_page_full up depth self page_id path w).1 = Returns ().
Proof. destruct depth; apply guarded_returns. Qed.

Lemma truthy_str (s : string) : s ≠ EmptyString → truthy (PyStr s) = true.
Proof. by destruct s. Qed.

Lemma HttpTrigger_main_dispatch (up : upstream) (params : gmap string string)
    (w : world) :
  HttpTrigger_main up params w
  = dispatch up (params_get params "space") (params_get params "type")
      (entered w).
Proof. reflexivity. Qed.

Lemma ConfluenceSync_main_dispatch (up : upstream)
    (get_json : outcome json_value) (w : world) :
  ConfluenceSync_main up get_json w
  = match read_parameters get_json with
    | Returns (space, ingestion_type) =>
        dispatch up space ingestion_type
          (logged "INFO" (py_str ingestion_type)
             (logged "INFO" (py_str space) (entered w)))
    | Raises e => (Returns (HttpResponse (exn_str e) 400), entered w)
    end.
Proof.
  unfold ConfluenceSync_main, read_parameters.
  destruct get_json as [[members|msg]|e]; try reflexivity.
  rewrite bind_run. cbn [logging]. rewrite bind_run.
  unfold try_except at 1. rewrite bind_run. cbn [local]. rewrite bind_run.
  cbn [getitem].
  destruct (members !! "space") as [v|]; [|reflexivity].
  cbn [mret Py_ret]. rewrite bind_run.
  destruct (members !! "type") as [t|]; reflexivity.
Qed.

Lemma dispatch_lacking (up : upstream) (v t : pyval) (w : world) :
  negb (truthy v) || negb (truthy t) = true →
  dispatch up v t w = (Returns missing_parameters, w).
Proof. intros E. unfold dispatch. by rewrite E. Qed.

Lemma dispatch_full (up : upstream) (v : pyval) (self : session)
    (w w1 : world) :
  truthy v = true →
  ConfluenceSync up v w = (Returns self, w1) →
  (dispatch up v (PyStr "full") w).1
  = Returns (HttpResponse
               ("Full sync completed for space: " +:+ py_str v +:+ ".") 200).
Proof.
  intros Hv Hc. unfold dispatch. rewrite Hv. cbn [negb orb truthy Path.is_empty].
  unfold try_except. rewrite bind_run, Hc. cbn [eq_str].
  rewrite bool_decide_eq_true_2 by done. rewrite bind_run.
  pose proof (process_page_full_returns up (stack_room up) self
                (root_page_id self) EmptyString w1) as R.
  destruct (process_page_full _ _ _ _ _ _) as [[[]|e] w2]; done.
Qed.

Lemma dispatch_unrecognized (up : upstream) (v t : pyval) (w : world) :
  truthy v = true → unrecognized t = true →
  dispatch up v t w
  = match ConfluenceSync up v w with
    | (Returns _, w1) => (Returns invalid_type, w1)
    | (Raises e, w1) =>
        (Returns internal_error,
         logged "ERROR" ("An error occurred: " +:+ exn_str e) w1)
    end.
Proof.
  intros Hv Ht. unfold unrecognized in Ht.
  apply andb_prop in Ht as [Ht Hi]. apply andb_prop in Ht as [Ht Hf].
  apply negb_true_iff in Hi, Hf.
  unfold dispatch. rewrite Hv, Ht, Hf, Hi. cbn [negb orb].
  unfold try_except. rewrite bind_run.
  by destruct (ConfluenceSync up v w) as [[self|e] w1].
Qed.

Lemma create_container_runs (up : upstream) (self : session) (w : world) :
  ∃ out,
    _create_container up self w
    = (Returns (),
       World (history w ++ [CreateContainer (container_name self)])
         (clock_reads w) out (journal w)).
Proof.
  unfold _create_container. py_unfold.
  destruct (create_container up _ _) as [[]|e]; eexists; reflexivity.
Qed.

Lemma get_root_page_id_calls (up : upstream) (self : session) (w : world) :
  ∃ delta,
    history (get_root_page_id up self w).2 = history w ++ delta
    ∧ (delta = [GetAllPagesFromSpace (space self) 1]
       ∨ ∃ id, delta = [GetAllPagesFromSpace (space self) 1;
                        GetPageAncestors id]).
Proof.
  unfold get_root_page_id, first_item. py_unfold.
  destruct (get_all_pages_from_space up _ _ _) as [[|p rest]|e]; cbn;
    try (eexists; split; [reflexivity|]; auto).
  destruct (get_page_ancestors up _ _) as [[|top more]|e]; cbn;
    (eexists; split; [by rewrite <- app_assoc|]; eauto).
Qed.

(** The calls of session construction: none when building a client raised;
    otherwise the container is created and one page of the space is asked
    for, and, unless that failed or the space is empty, its ancestors. *)
Lemma construction_calls (up : upstream) (v : pyval) (w : world) :
  ∃ delta,
    history (ConfluenceSync up v w).2 = history w ++ delta
    ∧ uploads_in delta = [] ∧ content_fetches delta = []
    ∧ (delta = []
       ∨ delta = [CreateContainer (if eq_str v "SIA" then "public" else "private");
                  GetAllPagesFromSpace v 1]
       ∨ ∃ id,
           delta = [CreateContainer (if eq_str v "SIA" then "public" else "private");
                    GetAllPagesFromSpace v 1; GetPageAncestors id]).
Proof.
  unfold ConfluenceSync. rewrite bind_run. unfold local at 1.
  destruct (new_confluence up _ _ _);
    [|exists []; rewrite app_nil_r; auto].
  rewrite bind_run. unfold local at 1.
  destruct (from_connection_string up _);
    [|exists []; rewrite app_nil_r; auto].
  rewrite bind_run.
  destruct (create_container_runs up
              (Session v (getenv up "CONFLUENCE_BASE_URL")
                 (getenv up "CONFLUENCE_REST_API_URL")
                 (getenv up "ATLASSIAN_USERNAME") (getenv up "ATLASSIAN_TOKEN")
                 (getenv up "STORAGE_CONNECTION_STRING")
                 (if eq_str v "SIA" then "public" else "private") EmptyString) w)
    as [out ->].
  rewrite bind_run.
  match goal with
  | |- context [get_root_page_id up ?s ?w1] =>
      destruct (get_root_page_id_calls up s w1) as (delta & E & S);
      destruct (get_root_page_id up s w1) as [[root|e] w2]
  end; cbn in E |- *; rewrite E, <- app_assoc;
    (eexists; split; [reflexivity|]);
    destruct S as [->|[id ->]]; cbn; eauto 6.
Qed.

(** ** The entry points *)

(** C6. For every request to either entry point in which [space] or [type]
    is missing or empty (for the JSON entry point also: the body cannot be
    read as a JSON object), the response has status 400 and the history of
    upstream calls is what it was: neither the wiki service nor the blob
    store is called. *)
Theorem missing_parameter_answers_400 (up : upstream) (w : world) :
  (∀ params, lacks_query params = true →
     status_of (HttpTrigger_main up params w).1 = Some 400
     ∧ history (HttpTrigger_main up params w).2 = history w)
  ∧ (∀ get_json, lacks_json get_json = true →
       status_of (ConfluenceSync_main up get_json w).1 = Some 400
       ∧ history (ConfluenceSync_main up get_json w).2 = history w).
Proof.
  split.
  - intros params L. rewrite HttpTrigger_main_dispatch.
    by rewrite dispatch_lacking.
  - intros get_json L. rewrite ConfluenceSync_main_dispatch.
    unfold lacks_json in L.
    destruct (read_parameters get_json) as [[v t]|e]; [|done].
    by rewrite dispatch_lacking.
Qed.

(** A query string without [space], and a body whose [type] is [null]. *)
Lemma missing_parameter_answers_400_witness :
  (status_of (HttpTrigger_main Sample.outage {[ "type" := "full" ]} boot).1
   = Some 400
   ∧ history (HttpTrigger_main Sample.outage {[ "type" := "full" ]} boot).2
     = history boot)
  ∧ (status_of
       (ConfluenceSync_main Sample.outage
          (Returns (JsonObject {[ "space" := PyStr "DOCS";
                                  "type" := PyOther false "None" ]})) boot).1
     = Some 400
     ∧ history
         (ConfluenceSync_main Sample.outage
            (Returns (JsonObject {[ "space" := PyStr "DOCS";
                                    "type" := PyOther false "None" ]})) boot).2
       = history boot).
Proof.
  destruct (missing_parameter_answers_400 Sample.outage boot) as [Q J].
  split; [apply Q | apply J]; vm_compute; reflexivity.
Defined.

(** C10. [process_page_full] never raises: whatever the services answer, at
    any depth, it returns [None].  Hence, once the session has been
    constructed, a request for a full sync is answered 200 with the message
    of success by either entry point, also when every fetch and every upload
    failed. *)
Theorem full_sync_answers_200 (up : upstream) :
  (∀ depth self page_id path w,
     (process_page_full up depth self page_id path w).1 = Returns ())
  ∧ (∀ params s self w w1,
       params !! "space" = Some s → s ≠ EmptyString →
       params !! "type" = Some "full" →
       ConfluenceSync up (PyStr s) (entered w) = (Returns self, w1) →
       (HttpTrigger_main up params w).1
       = Returns (HttpResponse
                    ("Full sync completed for space: " +:+ s +:+ ".") 200))
  ∧ (∀ members v self w w1,
       members !! "space" = Some v → truthy v = true →
       members !! "type" = Some (PyStr "full") →
       ConfluenceSync up v
         (logged "INFO" "full" (logged "INFO" (py_str v) (entered w)))
       = (Returns self, w1) →
       (ConfluenceSync_main up (Returns (JsonObject members)) w).1
       = Returns (HttpResponse
                    ("Full sync completed for space: " +:+ py_str v +:+ ".")
                    200)).
Proof.
  split; [intros; apply process_page_full_returns|]. split.
  - intros params s self w w1 Hs Hne Ht Hc.
    rewrite HttpTrigger_main_dispatch. unfold params_get. rewrite Hs, Ht.
    apply (dispatch_full up (PyStr s) self (entered w) w1);
      [by apply truthy_str | done].
  - intros members v self w w1 Hs Hv Ht Hc.
    rewrite ConfluenceSync_main_dispatch. unfold read_parameters.
    rewrite Hs, Ht. by apply (dispatch_full up v self _ w1).
Qed.

(** With the wiki unreachable and the store refusing every write, the
    answer to a full sync is still 200, and nothing was uploaded. *)
Lemma full_sync_answers_200_witness :
  (HttpTrigger_main Sample.outage {[ "space" := "DOCS"; "type" := "full" ]}
     boot).1
  = Returns (HttpResponse "Full sync completed for space: DOCS." 200)
  ∧ (ConfluenceSync_main Sample.outage
       (Returns (JsonObject {[ "space" := PyStr "DOCS";
                               "type" := PyStr "full" ]})) boot).1
    = Returns (HttpResponse "Full sync completed for space: DOCS." 200)
  ∧ uploads_in
      (history (HttpTrigger_main Sample.outage
                  {[ "space" := "DOCS"; "type" := "full" ]} boot).2) = [].
Proof.
  destruct (full_sync_answers_200 Sample.outage) as (_ & Q & J).
  split; [|split].
  - eapply (Q _ "DOCS"); [reflexivity | discriminate | reflexivity
                         | vm_compute; reflexivity].
  - eapply (J _ (PyStr "DOCS")); [reflexivity | reflexivity | reflexivity
                                 | vm_compute; reflexivity].
  - vm_compute; reflexivity.
Defined.

(** C2, as the specification has it, fails: a request with [type=archive]
    and a space is answered only after the session was constructed, and the
    construction has called the blob store and the wiki service. *)
Lemma unrecognized_type_reaches_upstream :
  ¬ (∀ (up : upstream) (params : gmap string string) (w : world),
       truthy (params_get params "space") = true →
       unrecognized (params_get params "type") = true →
       status_of (HttpTrigger_main up params w).1 = Some 400
       ∧ history (HttpTrigger_main up params w).2 = history w).
Proof.
  intros claim.
  destruct (claim
              (Sample.surroundings Sample.handbook [] [PageRef "111" "Setup"] []
                 Sample.today Sample.store_ok)
              {[ "space" := "DOCS"; "type" := "archive" ]} boot)
    as [_ quiet]; [reflexivity | reflexivity |].
  vm_compute in quiet. discriminate quiet.
Qed.

(** With a space that holds no page the same request is answered 500. *)
Lemma unrecognized_type_answers_500 :
  status_of
    (HttpTrigger_main
       (Sample.surroundings Sample.handbook [] [] [] Sample.today
          Sample.store_ok)
       {[ "space" := "EMPTY"; "type" := "archive" ]} boot).1
  = Some 500.
Proof. vm_compute. reflexivity. Qed.

(** C2, amended. A request to either entry point with a space and a [type]
    that is present but unrecognized first constructs the session.  The
    calls made are those of the construction and no others (the container is
    created, one page of the space and its ancestors are asked for; no page
    content is fetched and nothing is uploaded); the answer is 400 with the
    message about [type] when the construction returns, 500 when it
    raises. *)
Theorem unrecognized_type_after_construction (up : upstream) (w : world) :
  (∀ params,
     truthy (params_get params "space") = true →
     unrecognized (params_get params "type") = true →
     let built := ConfluenceSync up (params_get params "space") (entered w) in
     let run := HttpTrigger_main up params w in
     history run.2 = history built.2
     ∧ run.1 = Returns (if raised built.1 then internal_error else invalid_type)
     ∧ uploads_in (calls_since w run.2) = []
     ∧ content_fetches (calls_since w run.2) = [])
  ∧ (∀ get_json v t,
       read_parameters get_json = Returns (v, t) →
       truthy v = true → unrecognized t = true →
       let built :=
         ConfluenceSync up v
           (logged "INFO" (py_str t) (logged "INFO" (py_str v) (entered w))) in
       let run := ConfluenceSync_main up get_json w in
       history run.2 = history built.2
       ∧ run.1 = Returns (if raised built.1 then internal_error else invalid_type)
       ∧ uploads_in (calls_since w run.2) = []
       ∧ content_fetches (calls_since w run.2) = []).
Proof.
  assert (D : ∀ v t w0,
            history w0 = history w →
            truthy v = true → unrecognized t = true →
            let built := ConfluenceSync up v w0 in
            let run := dispatch up v t w0 in
            history run.2 = history built.2
            ∧ run.1 = Returns (if raised built.1 then internal_error
                               else invalid_type)
            ∧ uploads_in (calls_since w run.2) = []
            ∧ content_fetches (calls_since w run.2) = []).
  { intros v t w0 Hw Hv Ht. cbn zeta.
    rewrite (dispatch_unrecognized up v t w0 Hv Ht).
    destruct (construction_calls up v w0) as (delta & E & U & F & _).
    rewrite Hw in E.
    destruct (ConfluenceSync up v w0) as [[self|e] w1]; cbn in E |- *;
      rewrite (calls_since_app w _ delta) by done; done. }
  split.
  - intros params Hv Ht. cbn zeta. rewrite HttpTrigger_main_dispatch.
    by apply D.
  - intros get_json v t Hr Hv Ht. cbn zeta.
    rewrite ConfluenceSync_main_dispatch, Hr. by apply D.
Qed.

(** [type=archive] for the space DOCS: construction succeeds, the answer is
    400. *)
Lemma unrecognized_type_after_construction_witness :
  let up := Sample.surroundings Sample.handbook [] [PageRef "111" "Setup"] []
              Sample.today Sample.store_ok in
  let params : gmap string string :=
    {[ "space" := "DOCS"; "type" := "archive" ]} in
  let built := ConfluenceSync up (params_get params "space") (entered boot) in
  let run := HttpTrigger_main up params boot in
  raised built.1 = false
  ∧ history run.2 = history built.2
  ∧ run.1 = Returns (if raised built.1 then internal_error else invalid_type)
  ∧ uploads_in (calls_since boot run.2) = []
  ∧ content_fetches (calls_since boot run.2) = [].
Proof.
  cbn zeta. split; [vm_compute; reflexivity|].
  destruct (unrecognized_type_after_construction
              (Sample.surroundings Sample.handbook [] [PageRef "111" "Setup"] []
                 Sample.today Sample.store_ok) boot) as [Q _].
  apply Q; vm_compute; reflexivity.
Defined.
(** C8. [get_root_page_id] asks for one page of the space.  When the space
    holds no page the lookup of the first entry fails, with Python's
    [IndexError], and the ancestors are never asked for.  Otherwise it asks
    for the ancestors of that page and returns the page's own identifier
    when there are none, and else the identifier of the first, top-most,
    ancestor. *)
Theorem get_root_page_id_resolves (up : upstream) (self : session) (w : world) :
  let asked := sent (GetAllPagesFromSpace (space self) 1) w in
  (get_all_pages_from_space up (history w) (space self) 1 = Returns [] →
     get_root_page_id up self w = (Raises IndexError, asked))
  ∧ (∀ page rest,
       get_all_pages_from_space up (history w) (space self) 1
       = Returns (page :: rest) →
       (get_page_ancestors up (history asked) (ref_id page) = Returns [] →
          get_root_page_id up self w
          = (Returns (ref_id page), sent (GetPageAncestors (ref_id page)) asked))
       ∧ (∀ top more,
            get_page_ancestors up (history asked) (ref_id page)
            = Returns (top :: more) →
            get_root_page_id up self w
            = (Returns (ref_id top),
               sent (GetPageAncestors (ref_id page)) asked))).
Proof.
  cbn zeta. unfold get_root_page_id. split.
  - intros E. rewrite bind_run. unfold send at 1. rewrite E. reflexivity.
  - intros page rest E. split.
    + intros A. rewrite bind_run. unfold send at 1. rewrite E.
      rewrite bind_run. cbn [first_item mret Py_ret]. rewrite bind_run.
      unfold send. cbn [history sent] in A |- *. rewrite A. reflexivity.
    + intros top more A. rewrite bind_run. unfold send at 1. rewrite E.
      rewrite bind_run. cbn [first_item mret Py_ret]. rewrite bind_run.
      unfold send. cbn [history sent] in A |- *. rewrite A. reflexivity.
Qed.

(** An empty space; a space whose first page is the root; a space whose
    first page lies two levels below the root. *)
Lemma get_root_page_id_resolves_witness :
  (let up := Sample.surroundings Sample.handbook [] [] [] Sample.today
               Sample.store_ok in
   (get_root_page_id up (Sample.session_of "DOCS" EmptyString) boot).1
   = Raises IndexError)
  ∧ (let up := Sample.surroundings Sample.handbook [] [PageRef "100" "Home"] []
                 Sample.today Sample.store_ok in
     (get_root_page_id up (Sample.session_of "DOCS" EmptyString) boot).1
     = Returns "100")
  ∧ (let up := Sample.surroundings Sample.handbook [] [PageRef "111" "Setup"] []
                 Sample.today Sample.store_ok in
     (get_root_page_id up (Sample.session_of "DOCS" EmptyString) boot).1
     = Returns "100").
Proof.
  split; [|split]; cbn zeta.
  - destruct (get_root_page_id_resolves
                (Sample.surroundings Sample.handbook [] [] [] Sample.today
                   Sample.store_ok)
                (Sample.session_of "DOCS" EmptyString) boot) as [E _].
    rewrite E; reflexivity.
  - destruct (get_root_page_id_resolves
                (Sample.surroundings Sample.handbook [] [PageRef "100" "Home"] []
                   Sample.today Sample.store_ok)
                (Sample.session_of "DOCS" EmptyString) boot) as [_ P].
    destruct (P (PageRef "100" "Home") [] eq_refl) as [R _].
    rewrite R; reflexivity.
  - destruct (get_root_page_id_resolves
                (Sample.surroundings Sample.handbook [] [PageRef "111" "Setup"] []
                   Sample.today Sample.store_ok)
                (Sample.session_of "DOCS" EmptyString) boot) as [_ P].
    destruct (P (PageRef "111" "Setup") [] eq_refl) as [_ R].
    rewrite (R (PageRef "100" "Home") [PageRef "110" "Guides"]); reflexivity.
Defined.

(** ** One page at a time *)

(** [get_page_content] sends exactly one request, whatever comes of it. *)
Lemma get_page_content_calls (up : upstream) (self : session)
    (page_id : string) (w : world) :
  (get_page_content up self page_id w).2
  = sent (HttpGet (page_url self page_id) page_params) w.
Proof.
  unfold get_page_content, raise_for_status, item_title,
    item_body_storage_value, item_version_when. py_unfold. cbn.
  repeat case_match; simplify_eq; reflexivity.
Qed.

Lemma raise_for_status_passes (r : response) (w : world) :
  passes (status_code r) → raise_for_status r w = (Returns (), w).
Proof.
  intros P. unfold raise_for_status, passes in *.
  destruct (Z.leb_spec 400 (status_code r)), (Z.ltb_spec (status_code r) 500),
    (Z.leb_spec 500 (status_code r)), (Z.ltb_spec (status_code r) 600);
    cbn; try lia; reflexivity.
Qed.

Lemma get_page_content_served (up : upstream) (self : session)
    (id title body when : string) (w : world) :
  page_served up self id title body when →
  get_page_content up self id w
  = (Returns (title, body, when), sent (HttpGet (page_url self id) page_params) w).
Proof.
  intros S. destruct (S (history w)) as (r & E & P & J).
  unfold get_page_content. rewrite bind_run. unfold send at 1. rewrite E.
  rewrite bind_run, raise_for_status_passes by done.
  rewrite bind_run. unfold local. rewrite J. reflexivity.
Qed.

Lemma get_child_pages_calls (up : upstream) (self : session)
    (parent_id : string) (w : world) :
  (get_child_pages up self parent_id w).2
  = sent (HttpGet (child_url self parent_id) []) w.
Proof.
  unfold get_child_pages, raise_for_status, item_results. py_unfold. cbn.
  repeat case_match; simplify_eq; reflexivity.
Qed.

Lemma get_child_pages_served (up : upstream) (self : session)
    (id : string) (children : list page_ref) (w : world) :
  children_served up self id children →
  get_child_pages up self id w
  = (Returns children, sent (HttpGet (child_url self id) []) w).
Proof.
  intros S. destruct (S (history w)) as (r & E & P & J).
  unfold get_child_pages. rewrite bind_run. unfold send at 1. rewrite E.
  rewrite bind_run, raise_for_status_passes by done.
  rewrite bind_run. unfold local. rewrite J. reflexivity.
Qed.

Lemma build_full_path_calls (up : upstream) (self : session)
    (page_id : string) (w : world) :
  (build_full_path up self page_id w).2 = sent (GetPageAncestors page_id) w.
Proof.
  unfold build_full_path. py_unfold.
  destruct (get_page_ancestors up _ _); reflexivity.
Qed.
Lemma process_page_full_steps (up : upstream) (depth : nat) (self : session)
    (page_id path : string) :
  process_page_full up depth self page_id path
  = try_except (page_steps up depth self page_id path)
      (λ e, print ("An error occurred: " +:+ exn_str e)).
Proof. destruct depth; reflexivity. Qed.

Lemma for_each_app {A} (before after : list A) (body : A → Py unit) (w : world) :
  for_each (before ++ after) body w
  = match for_each before body w with
    | (Returns _, w') => for_each after body w'
    | (Raises e, w') => (Raises e, w')
    end.
Proof.
  revert w. induction before as [|x before IH]; intros w; [reflexivity|].
  cbn [for_each app]. rewrite !bind_run.
  destruct (body x w) as [[[]|e] w']; [apply IH | reflexivity].
Qed.

Lemma for_each_returns {A} (items : list A) (body : A → Py unit) (w : world) :
  (∀ x v, (body x v).1 = Returns ()) →
  (for_each items body w).1 = Returns ().
Proof.
  intros R. revert w. induction items as [|x items IH]; intros w; [reflexivity|].
  cbn [for_each]. rewrite bind_run. specialize (R x w).
  destruct (body x w) as [[[]|e] w']; [apply IH | done].
Qed.

(** *** Histories only grow *)

Lemma grows_ret {A} (a : A) : grows (mret a : Py A).
Proof. intros w. exists []. by rewrite app_nil_r. Qed.

Lemma grows_bind {A B} (m : Py A) (k : A → Py B) :
  grows m → (∀ a, grows (k a)) → grows (m ≫= k).
Proof.
  intros M K w. rewrite bind_run. destruct (M w) as [d E].
  destruct (m w) as [[a|e] w']; cbn in E.
  - destruct (K a w') as [d' E']. exists (d ++ d'). by rewrite E', E, app_assoc.
  - by exists d.
Qed.

Lemma grows_try {A} (body : Py A) (handler : exn → Py A) :
  grows body → (∀ e, grows (handler e)) → grows (try_except body handler).
Proof.
  intros M K w. unfold try_except. destruct (M w) as [d E].
  destruct (body w) as [[a|e] w']; cbn in E.
  - by exists d.
  - destruct (K e w') as [d' E']. exists (d ++ d'). by rewrite E', E, app_assoc.
Qed.

Lemma grows_print (line : string) : grows (print line).
Proof. intros w. exists []. by rewrite app_nil_r. Qed.

Lemma grows_raise {A} (e : exn) : grows (raise e : Py A).
Proof. intros w. exists []. by rewrite app_nil_r. Qed.

Lemma grows_for_each {A} (items : list A) (body : A → Py unit) :
  (∀ x, grows (body x)) → grows (for_each items body).
Proof.
  intros B. induction items as [|x items IH]; [apply grows_ret|].
  cbn [for_each]. apply grows_bind; [apply B | intros _; apply IH].
Qed.

Lemma grows_get_page_content (up : upstream) (self : session) (id : string) :
  grows (get_page_content up self id).
Proof. intros w. rewrite get_page_content_calls. by eexists. Qed.

Lemma grows_get_child_pages (up : upstream) (self : session) (id : string) :
  grows (get_child_pages up self id).
Proof. intros w. rewrite get_child_pages_calls. by eexists. Qed.

Lemma grows_upload (up : upstream) (self : session) (content name : string)
    (metadata : gmap string string) :
  grows (upload_to_azure_blob up self content name metadata).
Proof.
  intros w. destruct (upload_runs up self content name metadata w)
    as (w' & line & delta & -> & E & _). by exists delta.
Qed.

Lemma grows_process_page_full (up : upstream) (depth : nat) (self : session)
    (page_id path : string) :
  grows (process_page_full up depth self page_id path).
Proof.
  revert page_id path. induction depth as [|depth IH]; intros page_id path;
    rewrite process_page_full_steps;
    (apply grows_try; [|intros; apply grows_print]);
    (apply grows_bind; [apply grows_get_page_content|]);
    intros [[title content] created];
    (apply grows_bind; [apply grows_upload|]); intros _;
    (apply grows_bind; [apply grows_get_child_pages|]); intros children;
    apply grows_for_each; intros child; cbn [descend];
    [apply grows_raise | apply IH].
Qed.

(** ** Blob names *)

Lemma html_not_empty (title : string) :
  Path.is_empty (title +:+ ".html") = false.
Proof. by destruct title. Qed.

Lemma join_not_empty (a b : string) :
  Path.is_empty b = false → Path.is_empty (Path.join a b) = false.
Proof.
  intros B. unfold Path.join.
  destruct (Path.startswith_sep b); [done|].
  destruct (Path.is_empty a || Path.endswith_sep a); destruct a; cbn; done.
Qed.

Lemma replace_backslash_not_empty (s : string) :
  Path.is_empty s = false → Path.is_empty (Path.replace_backslash s) = false.
Proof. by destruct s. Qed.

Lemma blob_name_not_empty (path title : string) :
  Path.is_empty (blob_name_of path title) = false.
Proof.
  apply replace_backslash_not_empty, join_not_empty, html_not_empty.
Qed.

Lemma constructed_container (self : session) :
  constructed self → Path.is_empty (container_name self) = false.
Proof. unfold constructed. intros ->. by destruct (eq_str _ _). Qed.

Lemma ConfluenceSync_constructed (up : upstream) (v : pyval) (self : session)
    (w w' : world) :
  ConfluenceSync up v w = (Returns self, w') → constructed self ∧ space self = v.
Proof.
  unfold ConfluenceSync. rewrite bind_run. unfold local at 1.
  destruct (new_confluence up _ _ _); [|done].
  rewrite bind_run. unfold local at 1.
  destruct (from_connection_string up _); [|done].
  rewrite bind_run.
  destruct (_create_container up _ w) as [[[]|e] w1]; [|done].
  rewrite bind_run.
  destruct (get_root_page_id up _ w1) as [[root|e] w2]; [|done].
  cbn. intros [= <- _]. done.
Qed.

(** The upload of a session that was constructed, for a page. *)
Lemma upload_page (up : upstream) (self : session) (content path title : string)
    (metadata : gmap string string) (w : world) :
  constructed self →
  ∃ w' delta,
    upload_to_azure_blob up self content (blob_name_of path title) metadata w
    = (Returns (), w')
    ∧ history w' = history w ++ delta
    ∧ uploads_in delta = [(blob_name_of path title, content)]
    ∧ content_fetches delta = []
    ∧ searches_in delta = [].
Proof.
  intros C.
  destruct (upload_runs up self content (blob_name_of path title) metadata w)
    as (w' & line & delta & U & E & F & S & _ & _ & _ & B).
  exists w', delta. repeat split; try done. apply B.
  by rewrite constructed_container, blob_name_not_empty.
Qed.
(** ** The incremental sync *)

Lemma searches_in_app (a b : list call) :
  searches_in (a ++ b) = searches_in a ++ searches_in b.
Proof. apply omap_app. Qed.

(** A run of [process_page_incremental]: the search, then the loop, which
    the first exception ends. *)
Lemma incremental_run (up : upstream) (self : session) (w : world) :
  process_page_incremental up self w
  = match cql up (history w) (incremental_query up self w) "ancestors" with
    | Raises e =>
        (Returns (),
         printed ("An error occurred: " +:+ exn_str e) (searched up self w))
    | Returns results =>
        match for_each (ref_id <$> results) (incremental_step up self)
                (searched up self w) with
        | (Returns _, w') => (Returns (), w')
        | (Raises e, w') =>
            (Returns (), printed ("An error occurred: " +:+ exn_str e) w')
        end
    end.
Proof.
  unfold process_page_incremental, try_except. rewrite !bind_run.
  unfold datetime_now at 1. cbn beta iota. rewrite bind_run.
  unfold datetime_now at 1. cbn beta iota. rewrite bind_run.
  unfold send at 1. cbn [history clock_reads stdout journal].
  change (cql_text _ _ _) with (incremental_query up self w).
  change (World _ _ _ _) with (searched up self w).
  destruct (cql up (history w) _ _) as [results|e]; [|reflexivity].
  by destruct (for_each _ _ _) as [[[]|e] w'].
Qed.

Lemma grows_build_full_path (up : upstream) (self : session) (id : string) :
  grows (build_full_path up self id).
Proof. intros w. rewrite build_full_path_calls. by eexists. Qed.

Lemma grows_incremental_step (up : upstream) (self : session) (id : string) :
  grows (incremental_step up self id).
Proof.
  unfold incremental_step.
  apply grows_bind; [apply grows_get_page_content|].
  intros [[title body] when].
  apply grows_bind; [apply grows_build_full_path|]. intros path.
  apply grows_upload.
Qed.

(** A step of the loop that raises has fetched, or tried to fetch, the
    content of its page, and has uploaded nothing. *)
Lemma incremental_step_raises (up : upstream) (self : session) (id : string)
    (w w' : world) (e : exn) :
  incremental_step up self id w = (Raises e, w') →
  ∃ delta, history w' = history w ++ delta
           ∧ uploads_in delta = []
           ∧ content_fetches delta = [page_url self id].
Proof.
  unfold incremental_step. rewrite bind_run.
  pose proof (get_page_content_calls up self id w) as G.
  destruct (get_page_content up self id w) as [[[[title body] when]|e1] w1];
    cbn in G; subst w1.
  - rewrite bind_run.
    pose proof (build_full_path_calls up self id
                  (sent (HttpGet (page_url self id) page_params) w)) as B.
    destruct (build_full_path up self id _) as [[path|e2] w2]; cbn in B; subst w2.
    + intros U.
      destruct (upload_runs up self body (blob_name_of path title)
                  {[ "created_date" := when ]}
                  (sent (GetPageAncestors id)
                     (sent (HttpGet (page_url self id) page_params) w)))
        as (w3 & line & delta & U' & _).
      rewrite U' in U. done.
    + intros [= <- <-]. eexists. cbn. rewrite <- app_assoc. done.
  - intros [= <- <-]. by eexists.
Qed.

Lemma incremental_step_known (up : upstream) (self : session) (p : wiki_page)
    (w : world) :
  constructed self → page_known up self p →
  ∃ w' delta,
    incremental_step up self (wp_id p) w = (Returns (), w')
    ∧ history w' = history w ++ delta
    ∧ uploads_in delta = [incremental_blob p]
    ∧ content_fetches delta = [page_url self (wp_id p)]
    ∧ searches_in delta = [].
Proof.
  intros C [S A]. unfold incremental_step.
  rewrite bind_run, (get_page_content_served up self _ _ _ _ w S).
  rewrite bind_run. unfold build_full_path at 1. rewrite bind_run.
  unfold send at 1. rewrite A. cbn [mret Py_ret].
  match goal with
  | |- context [upload_to_azure_blob up self ?c (blob_name_of ?p ?t) ?m ?v] =>
      destruct (upload_page up self c p t m v C) as (w' & delta & U & E & B & F & Q)
  end.
  rewrite U.
  exists w', ([HttpGet (page_url self (wp_id p)) page_params;
               GetPageAncestors (wp_id p)] ++ delta).
  split; [reflexivity|].
  split; [rewrite E; cbn; rewrite <- !app_assoc; reflexivity|].
  rewrite uploads_in_app, content_fetches_app, searches_in_app, B, F, Q. done.
Qed.

(** The loop over pages the wiki service knows. *)
Lemma incremental_loop_known (up : upstream) (self : session)
    (pages : list wiki_page) (w : world) :
  constructed self → Forall (page_known up self) pages →
  ∃ w' delta,
    for_each (ref_id <$> (wp_ref <$> pages)) (incremental_step up self) w
    = (Returns (), w')
    ∧ history w' = history w ++ delta
    ∧ uploads_in delta = incremental_blob <$> pages
    ∧ content_fetches delta = (λ p, page_url self (wp_id p)) <$> pages
    ∧ searches_in delta = [].
Proof.
  intros C K. revert w. induction K as [|p pages Kp _ IH]; intros w.
  - exists w, []. by rewrite app_nil_r.
  - cbn [fmap list_fmap for_each ref_id wp_ref]. rewrite bind_run.
    destruct (incremental_step_known up self p w C Kp)
      as (w1 & d1 & -> & E1 & U1 & F1 & Q1).
    destruct (IH w1) as (w2 & d2 & -> & E2 & U2 & F2 & Q2).
    exists w2, (d1 ++ d2). split; [reflexivity|].
    rewrite E2, E1, app_assoc, uploads_in_app, content_fetches_app,
      searches_in_app, U1, U2, F1, F2, Q1, Q2. done.
Qed.
(** C3, as the specification has it, fails: the search returns Guides and
    FAQ, the content of Guides cannot be fetched (the service answers 500),
    FAQ is served without fault, and yet FAQ is neither fetched nor
    uploaded: the first error ends the loop. *)
Lemma incremental_stops_at_first_error :
  let up := Sample.surroundings Sample.handbook ["110"] []
              [PageRef "110" "Guides"; PageRef "120" "FAQ"] Sample.today
              Sample.store_ok in
  let self := Sample.session_of "DOCS" "100" in
  let run := process_page_incremental up self boot in
  page_served up self "120" "FAQ" "<p>FAQ</p>" Sample.stamp
  ∧ (∀ h, get_page_ancestors up h "120" = Returns [PageRef "100" "Home"])
  ∧ run.1 = Returns ()
  ∧ content_fetches (history run.2) = [page_url self "110"]
  ∧ uploads_in (history run.2) = []
  ∧ stdout run.2
    = ["An error occurred: 500 Server Error: Internal Server Error for url: "
       +:+ page_url self "110"].
Proof.
  cbn zeta. split; [|split; [reflexivity|vm_compute; repeat split; reflexivity]].
  intros h. eexists. split; [reflexivity|]. split; [left; reflexivity|reflexivity].
Qed.

(** C3, amended. In an incremental sync the first page whose step raises
    (its content or its ancestors cannot be fetched) ends the loop: the pages
    before it have been processed, nothing is uploaded for it, the pages
    after it are not processed at all, the error is printed and
    [process_page_incremental] returns normally. *)
Theorem incremental_failure_ends_loop (up : upstream) (self : session)
    (w : world) (before after : list page_ref) (bad : page_ref)
    (e : exn) (w1 w2 : world) :
  cql up (history w) (incremental_query up self w) "ancestors"
  = Returns (before ++ bad :: after) →
  for_each (ref_id <$> before) (incremental_step up self) (searched up self w)
  = (Returns (), w1) →
  incremental_step up self (ref_id bad) w1 = (Raises e, w2) →
  process_page_incremental up self w
  = (Returns (), printed ("An error occurred: " +:+ exn_str e) w2)
  ∧ uploads_in (calls_since w w2) = uploads_in (calls_since w w1)
  ∧ content_fetches (calls_since w1 w2) = [page_url self (ref_id bad)].
Proof.
  intros Q B F. rewrite incremental_run, Q.
  rewrite fmap_app, for_each_app, B. cbn [fmap list_fmap for_each].
  rewrite bind_run, F. split; [reflexivity|].
  destruct (incremental_step_raises up self _ _ _ _ F) as (d2 & E2 & U2 & C2).
  destruct (grows_for_each (ref_id <$> before) (incremental_step up self)
              (grows_incremental_step up self) (searched up self w)) as [d1 E1].
  rewrite B in E1. cbn in E1.
  rewrite (calls_since_app w1 w2 d2) by done.
  rewrite (calls_since_app w w1 (Cql (incremental_query up self w) "ancestors"
                                   :: d1))
    by (rewrite E1, <- app_assoc; reflexivity).
  rewrite (calls_since_app w w2 ((Cql (incremental_query up self w) "ancestors"
                                    :: d1) ++ d2))
    by (rewrite E2, E1, <- !app_assoc; reflexivity).
  by rewrite uploads_in_app, U2, app_nil_r.
Qed.

(** The search finds FAQ, Guides and Setup; Guides cannot be fetched: FAQ is
    uploaded, Setup is not reached. *)
Lemma incremental_failure_ends_loop_witness :
  let w1 := (for_each ["120"] (incremental_step Sample.guides_down Sample.docs)
               (searched Sample.guides_down Sample.docs boot)).2 in
  let e := Exn "HTTPError"
             ("500 Server Error: Internal Server Error for url: "
              +:+ page_url Sample.docs "110") in
  let w2 := sent (HttpGet (page_url Sample.docs "110") page_params) w1 in
  process_page_incremental Sample.guides_down Sample.docs boot
  = (Returns (), printed ("An error occurred: " +:+ exn_str e) w2)
  ∧ uploads_in (calls_since boot w2) = [("Home/FAQ.html", "<p>FAQ</p>")].
Proof.
  cbn zeta.
  destruct (incremental_failure_ends_loop Sample.guides_down Sample.docs boot
              [PageRef "120" "FAQ"] [PageRef "111" "Setup"]
              (PageRef "110" "Guides")
              (Exn "HTTPError"
                 ("500 Server Error: Internal Server Error for url: "
                  +:+ page_url Sample.docs "110"))
              (for_each ["120"]
                 (incremental_step Sample.guides_down Sample.docs)
                 (searched Sample.guides_down Sample.docs boot)).2
              (sent (HttpGet (page_url Sample.docs "110") page_params)
                 (for_each ["120"]
                    (incremental_step Sample.guides_down Sample.docs)
                    (searched Sample.guides_down Sample.docs boot)).2))
    as (R & U & _);
    [reflexivity | vm_compute; reflexivity | vm_compute; reflexivity |].
  split; [exact R|]. rewrite U. vm_compute. reflexivity.
Defined.

(** A step of the loop asks for the content of its page once, and uploads
    one object when it returns, none when it raises. *)
Lemma incremental_step_counts (up : upstream) (self : session) (id : string)
    (w : world) :
  constructed self →
  ∃ w' delta o,
    incremental_step up self id w = (o, w')
    ∧ history w' = history w ++ delta
    ∧ content_fetches delta = [page_url self id]
    ∧ searches_in delta = []
    ∧ length (uploads_in delta) = if raised o then 0%nat else 1%nat.
Proof.
  intros C. unfold incremental_step. rewrite bind_run.
  pose proof (get_page_content_calls up self id w) as G.
  destruct (get_page_content up self id w) as [[[[title body] when]|e1] w1];
    cbn in G; subst w1.
  - rewrite bind_run.
    pose proof (build_full_path_calls up self id
                  (sent (HttpGet (page_url self id) page_params) w)) as B.
    destruct (build_full_path up self id _) as [[path|e2] w2]; cbn in B; subst w2.
    + destruct (upload_page up self body path title {[ "created_date" := when ]}
                  (sent (GetPageAncestors id)
                     (sent (HttpGet (page_url self id) page_params) w)) C)
        as (w3 & d3 & U & E & B & F & S).
      exists w3, ([HttpGet (page_url self id) page_params;
                   GetPageAncestors id] ++ d3), (Returns ()).
      split; [exact U|].
      split; [rewrite E; cbn; rewrite <- !app_assoc; reflexivity|].
      rewrite uploads_in_app, content_fetches_app, searches_in_app, B, F, S.
      done.
    + exists (sent (GetPageAncestors id)
                (sent (HttpGet (page_url self id) page_params) w)),
        [HttpGet (page_url self id) page_params; GetPageAncestors id],
        (Raises e2).
      split; [reflexivity|]. cbn. by rewrite <- app_assoc.
  - by exists (sent (HttpGet (page_url self id) page_params) w),
      [HttpGet (page_url self id) page_params], (Raises e1).
Qed.

(** The loop asks for the pages in order and stops at the first step that
    raises: with [n] objects uploaded, the pages asked for are the first
    [n], and the one after them if there is one. *)
Lemma incremental_loop_counts (up : upstream) (self : session)
    (ids : list string) (w : world) :
  constructed self →
  ∃ w' delta o,
    for_each ids (incremental_step up self) w = (o, w')
    ∧ history w' = history w ++ delta
    ∧ searches_in delta = []
    ∧ (length (uploads_in delta) ≤ length ids)%nat
    ∧ content_fetches delta
      = page_url self <$> take (S (length (uploads_in delta))) ids.
Proof.
  intros C. revert w. induction ids as [|id ids IH]; intros w.
  - exists w, [], (Returns ()). by rewrite app_nil_r.
  - cbn [for_each]. rewrite bind_run.
    destruct (incremental_step_counts up self id w C)
      as (w1 & d1 & o1 & -> & E1 & F1 & S1 & U1).
    destruct o1 as [[]|e]; cbn [raised] in U1.
    + destruct (IH w1) as (w2 & d2 & o2 & -> & E2 & S2 & U2 & F2).
      exists w2, (d1 ++ d2), o2. split; [reflexivity|].
      split; [by rewrite E2, E1, app_assoc|].
      rewrite searches_in_app, uploads_in_app, content_fetches_app, S1, S2,
        F1, F2, length_app, U1.
      cbn [length]. split; [done|]. split; [lia|done].
    + exists w1, d1, (Raises e). split; [reflexivity|]. split; [done|].
      rewrite S1, F1, U1. cbn [length]. split; [done|]. split; [lia|done].
Qed.

(** The step for a page the wiki service cannot give raises. *)
Lemma incremental_step_unreadable (up : upstream) (self : session)
    (p : wiki_page) (w : world) :
  page_unreadable up self p →
  ∃ e w', incremental_step up self (wp_id p) w = (Raises e, w').
Proof.
  intros [D|D]; unfold incremental_step; rewrite bind_run.
  - specialize (D w).
    destruct (get_page_content up self (wp_id p) w) as [[v|e] w1]; [done|].
    by eexists _, _.
  - destruct (get_page_content up self (wp_id p) w)
      as [[[[title body] when]|e] w1]; [|by eexists _, _].
    rewrite bind_run. unfold build_full_path. rewrite bind_run.
    unfold send at 1. specialize (D (history w1)).
    destruct (get_page_ancestors up (history w1) (wp_id p)); [done|].
    by eexists _, _.
Qed.

(** C5, as the specification has it, fails.  On 2024-03-15 the search
    returns the pages of the space modified on 2024-03-14, Guides and
    Setup.  The content of Guides cannot be fetched (the service answers
    500); Setup is served without fault, lies in the window, and is not
    uploaded: nothing is. *)
Lemma incremental_misses_page_of_window :
  let up := Sample.guides_unread in
  let self := Sample.docs in
  let due := modified_within (yesterday_at up boot) (today_at up boot)
               Sample.site in
  let setup := WikiPage "111" "Setup" "<p>Setup</p>" Sample.stamp 738959
                 [PageRef "100" "Home"; PageRef "110" "Guides"] in
  let run := process_page_incremental up self boot in
  constructed self
  ∧ cql up (history boot) (incremental_query up self boot) "ancestors"
    = Returns (wp_ref <$> due)
  ∧ setup ∈ due
  ∧ page_known up self setup
  ∧ run.1 = Returns ()
  ∧ content_fetches (calls_since boot run.2) = [page_url self "110"]
  ∧ uploads_in (calls_since boot run.2) = []
  ∧ uploads_in (calls_since boot run.2) ≠ incremental_blob <$> due.
Proof.
  cbn zeta. split; [reflexivity|]. split; [vm_compute; reflexivity|].
  split.
  { replace (modified_within _ _ _) with
      [WikiPage "110" "Guides" "<p>Guides</p>" Sample.stamp 738959
         [PageRef "100" "Home"];
       WikiPage "111" "Setup" "<p>Setup</p>" Sample.stamp 738959
         [PageRef "100" "Home"; PageRef "110" "Guides"]]
      by (vm_compute; reflexivity).
    do 2 constructor. }
  split.
  { split; [|intros h; reflexivity].
    intros h. eexists.
    split; [reflexivity|]. split; [left; reflexivity | reflexivity]. }
  split; [vm_compute; reflexivity|].
  split; [vm_compute; reflexivity|].
  split; [vm_compute; reflexivity|].
  vm_compute. discriminate.
Qed.

(** C5, amended. An incremental sync reads the date twice, for yesterday
    and for today, and sends one search, for the pages of the space last
    modified from yesterday (included) to today (excluded).  When the wiki
    service answers that search with the pages of the space modified in
    that window, the sync asks for them in the order of the answer and
    uploads one object for each until the first page whose step raises: the
    pages asked for are the pages uploaded and, if any is left, the one
    after them, and no other page is asked for or uploaded.  So when the
    content and the ancestors of the first pages of the answer are served
    and those of the next cannot be fetched, exactly these first pages are
    uploaded; and when all pages of the answer are served, exactly the
    pages of the window are. *)
Theorem incremental_uploads_until_first_failure (up : upstream)
    (self : session) (w : world) (pages : list wiki_page) :
  let since := yesterday_at up w in
  let until := today_at up w in
  let due := modified_within since until pages in
  constructed self →
  cql up (history w)
    (cql_text (py_str (space self)) (Calendar.strftime_ymd since)
       (Calendar.strftime_ymd until)) "ancestors"
  = Returns (wp_ref <$> due) →
  let run := process_page_incremental up self w in
  let uploads := uploads_in (calls_since w run.2) in
  run.1 = Returns ()
  ∧ searches_in (calls_since w run.2)
    = [cql_text (py_str (space self)) (Calendar.strftime_ymd since)
         (Calendar.strftime_ymd until)]
  ∧ (length uploads ≤ length due)%nat
  ∧ content_fetches (calls_since w run.2)
    = (λ p, page_url self (wp_id p)) <$> take (S (length uploads)) due
  ∧ (∀ served rest,
       due = served ++ rest →
       Forall (page_known up self) served →
       (rest = [] ∨ ∃ bad, head rest = Some bad ∧ page_unreadable up self bad) →
       uploads = incremental_blob <$> served).
Proof.
  cbn zeta. intros C Q.
  change (cql_text _ _ _) with (incremental_query up self w) in Q |- *.
  assert (R : (process_page_incremental up self w).1 = Returns ()).
  { rewrite incremental_run, Q.
    by destruct (for_each _ _ _) as [[[]|e] w']. }
  split; [exact R|].
  assert (H : ∀ delta o w',
             for_each (ref_id <$> (wp_ref <$> modified_within
                                     (yesterday_at up w) (today_at up w) pages))
               (incremental_step up self) (searched up self w) = (o, w') →
             history w' = history (searched up self w) ++ delta →
             calls_since w (process_page_incremental up self w).2
             = [Cql (incremental_query up self w) "ancestors"] ++ delta).
  { intros delta o w' L E. rewrite incremental_run, Q, L.
    apply calls_since_app.
    destruct o as [[]|e]; cbn [snd printed history]; rewrite E; cbn;
      by rewrite <- app_assoc. }
  split; [|split; [|split]].
  - destruct (incremental_loop_counts up self
                (ref_id <$> (wp_ref <$> modified_within
                               (yesterday_at up w) (today_at up w) pages))
                (searched up self w) C)
      as (w' & delta & o & L & E & S & _).
    rewrite (H delta o w' L E), searches_in_app, S. done.
  - destruct (incremental_loop_counts up self
                (ref_id <$> (wp_ref <$> modified_within
                               (yesterday_at up w) (today_at up w) pages))
                (searched up self w) C)
      as (w' & delta & o & L & E & _ & U & _).
    rewrite (H delta o w' L E), uploads_in_app. cbn [uploads_in omap app].
    by rewrite !length_fmap in U.
  - destruct (incremental_loop_counts up self
                (ref_id <$> (wp_ref <$> modified_within
                               (yesterday_at up w) (today_at up w) pages))
                (searched up self w) C)
      as (w' & delta & o & L & E & _ & _ & F).
    rewrite (H delta o w' L E), uploads_in_app, content_fetches_app, F.
    cbn [uploads_in content_fetches omap app].
    by rewrite <- !fmap_take, <- !list_fmap_compose.
  - intros served rest D K B. rewrite D in H.
    rewrite !fmap_app in H.
    destruct (incremental_loop_known up self served (searched up self w) C K)
      as (w1 & d1 & L1 & E1 & U1 & _).
    destruct B as [->|(bad & Hd & B)].
    + specialize (H d1 (Returns ()) w1).
      rewrite for_each_app, L1 in H. rewrite H by done.
      rewrite uploads_in_app. exact U1.
    + destruct rest as [|bad' rest]; [done|]. cbn in Hd. simplify_eq.
      destruct (incremental_step_unreadable up self bad w1 B) as (e & w2 & L2).
      destruct (incremental_step_raises up self _ _ _ _ L2)
        as (d2 & E2 & U2 & _).
      specialize (H (d1 ++ d2) (Raises e) w2).
      rewrite for_each_app, L1 in H. cbn [fmap list_fmap for_each] in H.
      rewrite bind_run in H. cbn [wp_ref ref_id] in H. rewrite L2 in H.
      rewrite H; [|done|by rewrite E2, E1, app_assoc].
      by rewrite !uploads_in_app, U1, U2, app_nil_r.
Qed.

(** On 2024-03-15 the search returns Guides and Setup, modified on
    2024-03-14; Guides is served, the content of Setup cannot be fetched:
    Guides is uploaded and nothing else. *)
Lemma incremental_uploads_until_first_failure_witness :
  let run := process_page_incremental Sample.setup_unread Sample.docs boot in
  searches_in (calls_since boot run.2)
  = ["space = DOCS AND type = page AND lastmodified >= 2024-03-14 AND lastmodified < 2024-03-15"]
  ∧ content_fetches (calls_since boot run.2)
    = [page_url Sample.docs "110"; page_url Sample.docs "111"]
  ∧ uploads_in (calls_since boot run.2)
    = [("Home/Guides.html", "<p>Guides</p>")].
Proof.
  cbn zeta.
  destruct (incremental_uploads_until_first_failure Sample.setup_unread
              Sample.docs boot Sample.site) as (_ & S & _ & F & U).
  - reflexivity.
  - vm_compute. reflexivity.
  - split; [rewrite S; vm_compute; reflexivity|].
    rewrite F.
    rewrite (U [WikiPage "110" "Guides" "<p>Guides</p>" Sample.stamp 738959
                  [PageRef "100" "Home"]]
               [WikiPage "111" "Setup" "<p>Setup</p>" Sample.stamp 738959
                  [PageRef "100" "Home"; PageRef "110" "Guides"]]).
    + split; vm_compute; reflexivity.
    + vm_compute. reflexivity.
    + repeat constructor; intros h; try reflexivity.
      eexists. split; [reflexivity|]. split; [left; reflexivity|reflexivity].
    + right. eexists. split; [reflexivity|]. left. intros w. reflexivity.
Defined.

(** ** Paths of plain titles *)

Lemma append_assoc (a b c : string) : (a +:+ b) +:+ c = a +:+ b +:+ c.
Proof.
  induction a as [|d a IH]; [reflexivity|].
  change ((String d a +:+ b) +:+ c) with (String d ((a +:+ b) +:+ c)).
  by rewrite IH.
Qed.

Lemma endswith_sep_app (a b : string) :
  Path.is_empty b = false →
  Path.endswith_sep (a +:+ b) = Path.endswith_sep b.
Proof.
  intros B. induction a as [|c a IH]; [reflexivity|].
  change (String c a +:+ b) with (String c (a +:+ b)).
  destruct (a +:+ b) as [|d rest] eqn:E.
  - destruct a, b; cbn in *; done.
  - rewrite <- IH. reflexivity.
Qed.

Lemma mentions_app (c : ascii) (a b : string) :
  Path.mentions c (a +:+ b) = Path.mentions c a || Path.mentions c b.
Proof.
  induction a as [|d a IH]; [reflexivity|].
  change (String d a +:+ b) with (String d (a +:+ b)).
  cbn [Path.mentions]. by rewrite IH, orb_assoc.
Qed.

Lemma replace_backslash_plain (s : string) :
  Path.mentions Path.backslash s = false → Path.replace_backslash s = s.
Proof.
  induction s as [|c s IH]; [reflexivity|].
  cbn [Path.mentions Path.replace_backslash].
  intros [C M]%orb_false_elim. by rewrite C, IH.
Qed.

Lemma plain_title_parts (title : string) :
  plain_title title = true →
  Path.is_empty title = false ∧ Path.startswith_sep title = false
  ∧ Path.endswith_sep title = false.
Proof.
  unfold plain_title. rewrite !andb_true_iff, !negb_true_iff. tauto.
Qed.

Lemma slash_join_snoc (titles : list string) (last : string) :
  Path.slash_join (titles ++ [last])
  = match titles with
    | [] => last
    | _ :: _ => Path.slash_join titles +:+ "/" +:+ last
    end.
Proof.
  unfold Path.slash_join.
  induction titles as [|t titles IH]; [reflexivity|].
  destruct titles as [|t' titles]; [reflexivity|].
  change (String.concat "/" ((t :: t' :: titles) ++ [last]))
    with (t +:+ "/" +:+ String.concat "/" ((t' :: titles) ++ [last])).
  rewrite IH.
  change (String.concat "/" (t :: t' :: titles))
    with (t +:+ "/" +:+ String.concat "/" (t' :: titles)).
  by rewrite !append_assoc.
Qed.

(** The prefix made of plain titles is empty, or else neither empty nor
    ending in a separator. *)
Lemma slash_join_plain (titles : list string) :
  Forall (λ t, plain_title t = true) titles →
  match titles with
  | [] => Path.slash_join titles = EmptyString
  | _ :: _ =>
      Path.is_empty (Path.slash_join titles) = false
      ∧ Path.endswith_sep (Path.slash_join titles) = false
  end.
Proof.
  induction titles as [|t titles IH] using rev_ind; [done|].
  intros [F P%Forall_inv]%Forall_app.
  destruct (plain_title_parts t P) as (E & _ & T).
  rewrite slash_join_snoc.
  destruct titles as [|t' titles]; cbn [app]; [done|]. split.
  - destruct (Path.slash_join (t' :: titles)); done.
  - rewrite endswith_sep_app; [|by destruct t].
    change ("/" +:+ t) with (String "/" t). by destruct t.
Qed.

Lemma slash_join_without_backslash (titles : list string) :
  Forall (λ t, without_backslash t = true) titles →
  Path.mentions Path.backslash (Path.slash_join titles) = false.
Proof.
  induction titles as [|t titles IH] using rev_ind; [done|].
  intros [F P%Forall_inv]%Forall_app. apply negb_true_iff in P.
  rewrite slash_join_snoc. destruct titles as [|t' titles]; [done|].
  by rewrite !mentions_app, (IH F), P.
Qed.

(** [os.path.join] after plain titles is joining with a slash. *)
Lemma join_plain (titles : list string) (last : string) :
  Forall (λ t, plain_title t = true) titles →
  Path.startswith_sep last = false →
  Path.join (Path.slash_join titles) last = Path.slash_join (titles ++ [last]).
Proof.
  intros F S. pose proof (slash_join_plain titles F) as Q.
  rewrite slash_join_snoc. unfold Path.join. rewrite S.
  destruct titles as [|t titles].
  - by rewrite Q.
  - destruct Q as [-> ->]. reflexivity.
Qed.

Lemma blob_name_plain (ancestors : list string) (title : string) :
  Forall (λ t, plain_title t = true) ancestors →
  plain_title title = true →
  blob_name_of (Path.slash_join ancestors) title
  = Path.replace_backslash (spec_blob_path ancestors title).
Proof.
  intros F P. destruct (plain_title_parts title P) as (E & S & _).
  unfold blob_name_of, spec_blob_path.
  rewrite join_plain; [done|done|by destruct title].
Qed.

Lemma page_tree_nested_ind (P : page_tree → Prop) :
  (∀ id title body when children,
     Forall P children → P (Page id title body when children)) →
  ∀ t, P t.
Proof.
  intros step. fix IH 1. intros [id title body when children].
  apply step. induction children as [|c children IHc]; constructor;
    [apply IH | apply IHc].
Qed.

(** On plain titles the objects written are the objects expected, up to the
    backslashes of their paths. *)
Lemma written_blobs_plain (t : page_tree) (ancestors : list string) :
  Forall (λ a, plain_title a = true) ancestors →
  all_titles plain_title t = true →
  written_blobs (Path.slash_join ancestors) t
  = map normalised (expected_blobs ancestors t).
Proof.
  revert ancestors.
  induction t as [id title body when children IH] using page_tree_nested_ind.
  intros ancestors F. cbn [all_titles written_blobs expected_blobs map].
  intros [P C]%andb_prop. rewrite blob_name_plain by done.
  unfold normalised at 1. cbn [fst snd]. f_equal.
  rewrite join_plain; [|done|by apply plain_title_parts].
  rewrite concat_map, map_map. f_equal.
  pose proof (proj1 (forallb_forall _ _) C) as C'.
  apply map_ext_in. intros c I. rewrite Forall_forall in IH.
  apply IH; [by apply list_elem_of_In | | by apply C'].
  apply Forall_app. split; [done|]. by constructor.
Qed.

(** Without backslashes in the titles there is nothing to rewrite. *)
Lemma expected_blobs_without_backslash (t : page_tree)
    (ancestors : list string) :
  Forall (λ a, without_backslash a = true) ancestors →
  all_titles without_backslash t = true →
  map normalised (expected_blobs ancestors t) = expected_blobs ancestors t.
Proof.
  revert ancestors.
  induction t as [id title body when children IH] using page_tree_nested_ind.
  intros ancestors F. cbn [all_titles expected_blobs map].
  intros [P C]%andb_prop. f_equal.
  - unfold normalised, spec_blob_path. cbn [fst snd]. f_equal.
    apply replace_backslash_plain, slash_join_without_backslash.
    apply Forall_app. split; [done|]. constructor; [|done].
    unfold without_backslash in *. apply negb_true_iff in P.
    by rewrite mentions_app, P.
  - rewrite concat_map, map_map. f_equal.
    pose proof (proj1 (forallb_forall _ _) C) as C'.
    apply map_ext_in. intros c I. rewrite Forall_forall in IH.
    apply IH; [by apply list_elem_of_In | | by apply C'].
    apply Forall_app. split; [done|]. by constructor.
Qed.

(** ** The full sync of a tree the wiki service holds *)

Lemma children_heights (children : list page_tree) (depth : nat) :
  (foldr (λ c m, Nat.max (height c) m) O children ≤ depth)%nat →
  Forall (λ c, (height c ≤ depth)%nat) children.
Proof.
  induction children as [|c children IH]; cbn; [constructor|].
  intros H. constructor; [lia|]. apply IH. lia.
Qed.

Lemma height_positive (t : page_tree) : (1 ≤ height t)%nat.
Proof. destruct t. cbn. lia. Qed.

Lemma loop_over_children (up : upstream) (self : session)
    (body : page_ref → Py unit) (children : list page_tree)
    (blobs : page_tree → list blob) (urls : page_tree → list string) :
  Forall (λ c, visited up self (body (tree_ref c)) (blobs c) (urls c)) children →
  visited up self (for_each (tree_ref <$> children) body)
    (List.concat (map blobs children)) (List.concat (map urls children)).
Proof.
  induction 1 as [|c children V _ IH]; intros w.
  - exists w, []. by rewrite app_nil_r.
  - cbn [fmap list_fmap for_each map List.concat]. rewrite bind_run.
    destruct (V w) as (w1 & d1 & -> & E1 & U1 & F1).
    destruct (IH w1) as (w2 & d2 & -> & E2 & U2 & F2).
    exists w2, (d1 ++ d2). split; [reflexivity|].
    by rewrite E2, E1, app_assoc, uploads_in_app, content_fetches_app,
      U1, U2, F1, F2.
Qed.

Lemma full_sync_served (up : upstream) (self : session) (depth : nat) :
  constructed self →
  ∀ (t : page_tree) (path : string),
    serves up self t → (height t ≤ S depth)%nat →
    visited up self (process_page_full up depth self (tree_id t) path)
      (written_blobs path t) (map (page_url self) (preorder_ids t)).
Proof.
  intros C. induction depth as [|depth IH];
    intros t path S H w; destruct S as [id title body when children P L K];
    cbn [tree_id written_blobs preorder_ids map height] in *;
    rewrite process_page_full_steps; unfold try_except, page_steps;
    rewrite bind_run, (get_page_content_served up self _ _ _ _ w P);
    cbv beta iota zeta; rewrite bind_run;
    (match goal with
     | |- context [upload_to_azure_blob up self ?c (blob_name_of ?p ?n) ?m ?v] =>
         destruct (upload_page up self c p n m v C) as (w1 & d1 & U & E1 & B1 & F1 & _)
     end);
    rewrite U, bind_run, (get_child_pages_served up self _ _ w1 L).
  - assert (children = []) as ->.
    { destruct children as [|c children]; [done|].
      pose proof (height_positive c). cbn in H. lia. }
    cbn. eexists _, _. split; [reflexivity|]. split.
    + cbn [history sent]. rewrite E1. cbn [history sent].
      rewrite <- !app_assoc. reflexivity.
    + rewrite !uploads_in_app, !content_fetches_app, B1, F1. done.
  - assert (V : Forall (λ c, visited up self
                              (descend up (S depth) self (Path.join path title)
                                 (tree_ref c))
                              (written_blobs (Path.join path title) c)
                              (map (page_url self) (preorder_ids c))) children).
    { apply le_S_n, children_heights in H.
      rewrite Forall_forall in K, H |- *. intros c I.
      apply IH; [by apply K | by apply H]. }
    destruct (loop_over_children up self _ children _ _ V
                (sent (HttpGet (child_url self id) []) w1))
      as (w2 & d2 & -> & E2 & U2 & F2).
    eexists _, _. split; [reflexivity|]. split.
    + rewrite E2. cbn [history sent]. rewrite E1. cbn [history sent].
      rewrite <- !app_assoc. reflexivity.
    + rewrite !uploads_in_app, !content_fetches_app, B1, F1, U2, F2.
      cbn. by rewrite concat_map, map_map.
Qed.
(** Concrete trees are served by the sample wiki that holds them. *)
Ltac sample_serves :=
  repeat constructor;
  intros ?; eexists;
  (split; [reflexivity|]; split; [left; reflexivity | reflexivity]).

(** C1, as the specification has it, fails: titles are not taken as they
    are.  A backslash in a title is written as a slash: the page titled
    [AC\DC] below Home is stored at [Home/AC/DC.html]. *)
Lemma full_sync_rewrites_titles :
  ¬ (∀ (up : upstream) (self : session) (depth : nat) (t : page_tree)
       (w : world),
       constructed self → serves up self t → (height t ≤ S depth)%nat →
       uploads_in
         (calls_since w
            (process_page_full up depth self (tree_id t) EmptyString w).2)
       = expected_blobs [] t).
Proof.
  intros claim.
  specialize (claim (Sample.holding Sample.records) Sample.docs 8%nat
                Sample.records boot).
  assert (W : uploads_in
                (calls_since boot
                   (process_page_full (Sample.holding Sample.records) 8
                      Sample.docs (tree_id Sample.records) EmptyString boot).2)
              = [("Home.html", "<p>Records</p>");
                 ("Home/AC/DC.html", "<p>Rock</p>")])
    by (vm_compute; reflexivity).
  rewrite claim in W; [discriminate W | reflexivity | sample_serves | cbn; lia].
Qed.

(** A title that begins with a slash discards the titles above it: the
    page titled [/etc] below Home is stored at [/etc.html], and the page
    [hosts] below it at [/etc/hosts.html]. *)
Lemma full_sync_drops_ancestors :
  let run := process_page_full (Sample.holding Sample.unix) 8 Sample.docs
               (tree_id Sample.unix) EmptyString boot in
  uploads_in (calls_since boot run.2)
  = [("Home.html", "<p>Unix</p>"); ("/etc.html", "<p>Configuration</p>");
     ("/etc/hosts.html", "<p>Hosts</p>")]
  ∧ expected_blobs [] Sample.unix
    = [("Home.html", "<p>Unix</p>");
       ("Home//etc.html", "<p>Configuration</p>");
       ("Home//etc/hosts.html", "<p>Hosts</p>")].
Proof. vm_compute. split; reflexivity. Qed.

(** C1, amended. For every page tree the wiki service holds whose titles
    are not empty and have no slash at either end, a full sync,
    [process_page_full] started at the root with the empty prefix and with
    room on the stack for the levels of the tree, returns, fetches every page
    of the tree once, parents before children, and uploads for each page
    exactly one object.  The path of the object is the titles of the
    ancestors of the page, root first, joined by ['/'], then
    ['<title>.html'], with every backslash written as a slash; so it is
    exactly that path when no title holds a backslash. *)
Theorem full_sync_mirrors_plain_tree (up : upstream) (self : session)
    (depth : nat) (t : page_tree) (w : world) :
  constructed self → serves up self t → all_titles plain_title t = true →
  (height t ≤ S depth)%nat →
  let run := process_page_full up depth self (tree_id t) EmptyString w in
  run.1 = Returns ()
  ∧ content_fetches (calls_since w run.2) = map (page_url self) (preorder_ids t)
  ∧ uploads_in (calls_since w run.2) = map normalised (expected_blobs [] t)
  ∧ (all_titles without_backslash t = true →
     uploads_in (calls_since w run.2) = expected_blobs [] t).
Proof.
  intros C S P H. cbn zeta.
  destruct (full_sync_served up self depth C t EmptyString S H w)
    as (w' & delta & -> & E & U & F).
  cbn [fst snd]. rewrite (calls_since_app w w' delta E).
  split; [reflexivity|]. split; [exact F|].
  rewrite U. change EmptyString with (Path.slash_join []).
  rewrite (written_blobs_plain t []) by done.
  split; [reflexivity|].
  intros B. by apply expected_blobs_without_backslash.
Qed.

(** The handbook is mirrored as it stands. *)
Lemma full_sync_mirrors_plain_tree_witness :
  let run := process_page_full Sample.healthy 8 Sample.docs
               (tree_id Sample.handbook) EmptyString boot in
  run.1 = Returns ()
  ∧ content_fetches (calls_since boot run.2)
    = map (page_url Sample.docs) ["100"; "110"; "111"; "120"]
  ∧ uploads_in (calls_since boot run.2)
    = [("Home.html", "<p>Welcome</p>"); ("Home/Guides.html", "<p>Guides</p>");
       ("Home/Guides/Setup.html", "<p>Setup</p>");
       ("Home/FAQ.html", "<p>FAQ</p>")].
Proof.
  cbn zeta.
  destruct (full_sync_mirrors_plain_tree Sample.healthy Sample.docs 8
              Sample.handbook boot) as (R & F & _ & U).
  - reflexivity.
  - sample_serves.
  - reflexivity.
  - cbn. lia.
  - split; [exact R|]. split; [exact F|]. exact (U eq_refl).
Defined.

(** ** Errors during a full sync *)

Lemma descend_returns (up : upstream) (depth : nat) (self : session)
    (prefix : string) (child : page_ref) (w : world) :
  (descend up (S depth) self prefix child w).1 = Returns ().
Proof. apply process_page_full_returns. Qed.

(** The visit of a tree with failing pages: the pages asked for are the
    pages reached, and an upload is attempted for each of them whose content
    was fetched, whatever the blob store answers. *)
Lemma full_sync_ailing (up : upstream) (self : session)
    (down unlisted : list string) (depth : nat) :
  constructed self →
  ∀ (t : page_tree) (path : string),
    ailing up self down unlisted t → (height t ≤ S depth)%nat →
    visited up self (process_page_full up depth self (tree_id t) path)
      (salvaged down unlisted path t)
      (map (λ p, page_url self (tree_id p)) (reached down unlisted t)).
Proof.
  intros C. induction depth as [|depth IH];
    intros t path A H w;
    destruct A as [id title body when children D P U L K];
    cbn [tree_id salvaged reached map height] in *;
    rewrite process_page_full_steps; unfold try_except, page_steps;
    rewrite bind_run.
  all: destruct (decide (id ∈ down)) as [I|I].
  all: unfold failing in *.
  1,3: rewrite (bool_decide_eq_true_2 _ I); cbn [orb map];
    pose proof (get_page_content_calls up self id w) as G;
    specialize (D I w);
    destruct (get_page_content up self id w) as [[v|e] w1]; [done|];
    cbn in G; subst w1; eexists _, _;
    (split; [reflexivity|]); split; [reflexivity|done].
  all: rewrite (bool_decide_eq_false_2 _ I) in *; cbn [orb] in *;
    rewrite (get_page_content_served up self _ _ _ _ w (P I));
    cbv beta iota zeta; rewrite bind_run;
    (match goal with
     | |- context [upload_to_azure_blob ?u ?s ?c (blob_name_of ?p ?n) ?m ?v] =>
         destruct (upload_page u s c p n m v C) as (w1 & d1 & Q & E1 & B1 & F1 & _)
     end);
    rewrite Q, bind_run.
  all: destruct (decide (id ∈ unlisted)) as [J|J].
  1,3: rewrite (bool_decide_eq_true_2 _ J); cbn [map];
    pose proof (get_child_pages_calls up self id w1) as G;
    specialize (U I J w1);
    destruct (get_child_pages up self id w1) as [[v|e] w2]; [done|];
    cbn in G; subst w2; eexists _, _;
    (split; [reflexivity|]); split;
    [cbn [history sent printed]; rewrite E1; cbn [history sent];
     rewrite <- !app_assoc; reflexivity
    |rewrite !uploads_in_app, !content_fetches_app, B1, F1; done].
  all: rewrite (bool_decide_eq_false_2 _ J) in *;
    specialize (L eq_refl); specialize (K eq_refl);
    rewrite (get_child_pages_served up self _ _ w1 L).
  - assert (children = []) as ->.
    { destruct children as [|c children]; [done|].
      pose proof (height_positive c). cbn in H. lia. }
    cbn. eexists _, _. split; [reflexivity|]. split.
    + cbn [history sent]. rewrite E1. cbn [history sent].
      rewrite <- !app_assoc. reflexivity.
    + rewrite !uploads_in_app, !content_fetches_app, B1, F1. done.
  - assert (V : Forall (λ c, visited up self
                              (descend up (S depth) self (Path.join path title)
                                 (tree_ref c))
                              (salvaged down unlisted (Path.join path title) c)
                              (map (λ p, page_url self (tree_id p))
                                 (reached down unlisted c))) children).
    { apply le_S_n, children_heights in H.
      rewrite Forall_forall in K, H |- *. intros c M.
      apply IH; [by apply K | by apply H]. }
    destruct (loop_over_children up self _ children _ _ V
                (sent (HttpGet (child_url self id) []) w1))
      as (w2 & d2 & -> & E2 & U2 & F2).
    eexists _, _. split; [reflexivity|]. split.
    + rewrite E2. cbn [history sent]. rewrite E1. cbn [history sent].
      rewrite <- !app_assoc. reflexivity.
    + rewrite !uploads_in_app, !content_fetches_app, B1, F1, U2, F2.
      cbn. by rewrite concat_map, map_map.
Qed.

(** ** Pages below a failing page *)

Lemma concat_map_member {A B} (f : A → list B) (l : list A) (x : B) :
  x ∈ List.concat (map f l) ↔ ∃ y, y ∈ l ∧ x ∈ f y.
Proof.
  induction l as [|a l IH]; cbn [map List.concat].
  - split; [by intros ?%elem_of_nil | by intros (y & ?%elem_of_nil & _)].
  - rewrite elem_of_app, IH. split.
    + intros [I|(y & M & I)]; [exists a | exists y];
        (split; [|done]); [left | by right].
    + intros (y & [->|M]%elem_of_cons & I); [by left | right; by exists y].
Qed.

Lemma subtrees_root (t : page_tree) : t ∈ subtrees t.
Proof. destruct t. cbn. left. Qed.

Lemma reached_root (down unlisted : list string) (t : page_tree) :
  t ∈ reached down unlisted t.
Proof. destruct t. cbn. left. Qed.

Lemma subtrees_below (t : page_tree) : subtrees t = t :: below t.
Proof. by destruct t. Qed.

Lemma preorder_subtrees (t : page_tree) :
  preorder_ids t = tree_id <$> subtrees t.
Proof.
  induction t as [id title body when children IH] using page_tree_nested_ind.
  cbn [preorder_ids subtrees fmap list_fmap tree_id]. f_equal.
  induction IH as [|c children E _ IHc]; [done|].
  cbn [map List.concat]. by rewrite fmap_app, E, IHc.
Qed.

Lemma reached_subtrees (down unlisted : list string) (t p : page_tree) :
  p ∈ reached down unlisted t → p ∈ subtrees t.
Proof.
  revert p.
  induction t as [id title body when children IH] using page_tree_nested_ind.
  intros p. cbn [reached subtrees]. rewrite !elem_of_cons.
  intros [->|I]; [by left|right].
  destruct (failing down unlisted id); [by apply elem_of_nil in I|].
  apply concat_map_member in I as (k & M & I).
  apply concat_map_member. exists k. split; [done|].
  rewrite Forall_forall in IH. by apply IH.
Qed.

(** Every child of a page that was reached and did not fail was reached. *)
Lemma reached_children (down unlisted : list string) (t p c : page_tree) :
  p ∈ reached down unlisted t →
  failing down unlisted (tree_id p) = false →
  c ∈ tree_children p →
  c ∈ reached down unlisted t.
Proof.
  revert p c.
  induction t as [id title body when children IH] using page_tree_nested_ind.
  intros p c. cbn [reached]. rewrite !elem_of_cons.
  intros [->|I] F M; right.
  - cbn [tree_id tree_children] in *. rewrite F.
    apply concat_map_member. exists c. split; [done|apply reached_root].
  - destruct (failing down unlisted id); [by apply elem_of_nil in I|].
    apply concat_map_member in I as (k & Mk & I).
    apply concat_map_member. exists k. split; [done|].
    rewrite Forall_forall in IH. by apply (IH k Mk p c).
Qed.

Lemma below_closed (t c d : page_tree) :
  c ∈ subtrees t → d ∈ below c → d ∈ below t.
Proof.
  revert c d.
  induction t as [id title body when children IH] using page_tree_nested_ind.
  intros c d. cbn [subtrees]. rewrite elem_of_cons.
  intros [->|I] B; [done|].
  unfold below. cbn [tree_children].
  apply concat_map_member in I as (k & M & I).
  apply concat_map_member. exists k. split; [done|].
  rewrite Forall_forall in IH. rewrite subtrees_below. right.
  by apply (IH k M c d).
Qed.

Lemma below_ids (children : list page_tree) (d : page_tree) :
  d ∈ List.concat (map subtrees children) →
  tree_id d ∈ List.concat (map preorder_ids children).
Proof.
  intros (k & M & I)%concat_map_member.
  apply concat_map_member. exists k. split; [done|].
  rewrite preorder_subtrees. by apply list_elem_of_fmap_2.
Qed.

Lemma reached_ids (down unlisted : list string) (children : list page_tree)
    (x : string) :
  x ∈ tree_id <$> List.concat (map (reached down unlisted) children) →
  x ∈ List.concat (map preorder_ids children).
Proof.
  intros (p & -> & (k & M & I)%concat_map_member)%list_elem_of_fmap.
  apply concat_map_member. exists k. split; [done|].
  rewrite preorder_subtrees. apply list_elem_of_fmap_2.
  by apply reached_subtrees in I.
Qed.

(** In a tree of distinct pages no page below a failing page is reached. *)
Lemma below_failing_not_reached (down unlisted : list string)
    (t c d : page_tree) :
  NoDup (preorder_ids t) →
  c ∈ subtrees t →
  failing down unlisted (tree_id c) = true →
  d ∈ below c →
  tree_id d ∉ tree_id <$> reached down unlisted t.
Proof.
  revert c d.
  induction t as [id title body when children IH] using page_tree_nested_ind.
  intros c d. cbn [preorder_ids subtrees reached]. rewrite NoDup_cons.
  intros [R N] I F B.
  assert (D : d ∈ List.concat (map subtrees children)).
  { apply (below_closed (Page id title body when children) c d); [|done].
    by cbn [subtrees]. }
  rewrite fmap_cons, not_elem_of_cons. cbn [tree_id]. split.
  { intros E. apply R. rewrite <- E. by apply below_ids. }
  apply elem_of_cons in I as [->|I].
  { cbn [tree_id] in F. rewrite F. apply not_elem_of_nil. }
  destruct (failing down unlisted id); [apply not_elem_of_nil|].
  clear R D. revert N I.
  induction IH as [|k rest Pk _ IHrest]; cbn [map List.concat].
  { intros _ I. by apply elem_of_nil in I. }
  rewrite NoDup_app, elem_of_app, fmap_app, not_elem_of_app.
  intros (Nk & Disjoint & Nrest) [I|I]; split.
  - by apply (Pk c d).
  - intros X%reached_ids. apply (Disjoint (tree_id d)); [|done].
    rewrite preorder_subtrees. apply list_elem_of_fmap_2.
    rewrite subtrees_below. right. by apply (below_closed k c d).
  - intros (p & E & X%reached_subtrees)%list_elem_of_fmap.
    apply (Disjoint (tree_id d)).
    + rewrite E, preorder_subtrees. by apply list_elem_of_fmap_2.
    + apply below_ids.
      apply concat_map_member in I as (k' & M & I).
      apply concat_map_member. exists k'. split; [done|].
      rewrite subtrees_below. right. by apply (below_closed k' c d).
  - by apply IHrest.
Qed.

Lemma page_url_inj (self : session) (a b : string) :
  page_url self a = page_url self b → a = b.
Proof.
  unfold page_url. intros E.
  apply (inj (String.app _)) in E. by apply (inj (String.app _)) in E.
Qed.

(** C4, as the specification has it, fails for uploads: with a blob store
    that refuses every write, the upload of Guides fails, and the page below
    Guides is fetched all the same. *)
Lemma failed_upload_still_visits_children :
  let up := Sample.surroundings Sample.handbook [] [] [] Sample.today
              Sample.store_full in
  let self := Sample.session_of "DOCS" "100" in
  let run := process_page_full up 8 self "110" "Home" boot in
  (∀ h name content, raised (upload_blob up h "private" name content) = true)
  ∧ stdout run.2
    = ["Failed to upload Home/Guides.html: The account is out of space.";
       "Failed to upload Home/Guides/Setup.html: The account is out of space."]
  ∧ content_fetches (history run.2)
    = [page_url self "110"; page_url self "111"].
Proof. cbn zeta. split; [reflexivity|]. vm_compute. split; reflexivity. Qed.

(** C4, amended. In a full sync the loop of a parent over its children goes
    on after every child, whatever happened to that child.  When the content
    of a child C cannot be fetched, nothing else is done for C: no upload,
    and its children are not listed.  When the children of C cannot be
    listed, C has been uploaded.  Once the content of C is fetched, its
    children are asked for, whatever the blob store answers.

    For a tree of distinct pages that the wiki service holds, some of which
    fail on every fetch, visited with room on the stack for its levels and
    with a session the constructor has built: the run returns; the pages
    whose content is asked for are, in order, the pages of the tree that do
    not lie below a failing page; every child of a page that was visited and
    did not fail is visited, so the siblings of a failing page are, and so
    are the children of a page whose upload failed, the blob store being
    arbitrary; and no page below a failing page is visited anywhere in the
    run.  An upload is attempted for exactly the visited pages whose
    content was fetched. *)
Theorem failed_fetch_abandons_subtree (up : upstream) (depth : nat)
    (self : session) (prefix : string) :
  let visit := descend up (S depth) self prefix in
  (∀ before c after w,
     for_each (before ++ c :: after) visit w
     = for_each after visit (visit c (for_each before visit w).2).2)
  ∧ (∀ c w e w',
       get_page_content up self (ref_id c) w = (Raises e, w') →
       visit c w = (Returns (), printed ("An error occurred: " +:+ exn_str e) w')
       ∧ calls_since w w' = [HttpGet (page_url self (ref_id c)) page_params])
  ∧ (∀ c w title body when e w',
       get_page_content up self (ref_id c) w
       = (Returns (title, body, when),
          sent (HttpGet (page_url self (ref_id c)) page_params) w) →
       let uploaded :=
         (upload_to_azure_blob up self body (blob_name_of prefix title)
            {[ "created_date" := when ]}
            (sent (HttpGet (page_url self (ref_id c)) page_params) w)).2 in
       get_child_pages up self (ref_id c) uploaded = (Raises e, w') →
       visit c w = (Returns (), printed ("An error occurred: " +:+ exn_str e) w')
       ∧ calls_since uploaded w' = [HttpGet (child_url self (ref_id c)) []])
  ∧ (∀ c w title body when w',
       get_page_content up self (ref_id c) w = (Returns (title, body, when), w') →
       HttpGet (child_url self (ref_id c)) [] ∈ calls_since w (visit c w).2)
  ∧ (∀ (down unlisted : list string) (t : page_tree) (w : world),
       constructed self →
       ailing up self down unlisted t →
       NoDup (preorder_ids t) →
       (height t ≤ S depth)%nat →
       let run := visit (tree_ref t) w in
       let fetched := content_fetches (calls_since w run.2) in
       run.1 = Returns ()
       ∧ fetched = (λ p, page_url self (tree_id p)) <$> reached down unlisted t
       ∧ uploads_in (calls_since w run.2) = salvaged down unlisted prefix t
       ∧ (∀ p c,
            p ∈ reached down unlisted t →
            failing down unlisted (tree_id p) = false →
            c ∈ tree_children p →
            page_url self (tree_id c) ∈ fetched)
       ∧ (∀ c d,
            c ∈ subtrees t →
            failing down unlisted (tree_id c) = true →
            d ∈ below c →
            page_url self (tree_id d) ∉ fetched)).
Proof.
  cbn zeta. split; [|split; [|split; [|split]]].
  - intros before c after w. rewrite for_each_app.
    pose proof (for_each_returns before (descend up (S depth) self prefix) w
                  (descend_returns up depth self prefix)) as B.
    destruct (for_each before _ w) as [[[]|e] w1]; [|done].
    cbn [for_each snd]. rewrite bind_run.
    pose proof (descend_returns up depth self prefix c w1) as C.
    by destruct (descend _ _ _ _ c w1) as [[[]|e] w2].
  - intros c w e w' F. cbn [descend]. rewrite process_page_full_steps.
    unfold try_except, page_steps. rewrite bind_run, F. split; [reflexivity|].
    pose proof (get_page_content_calls up self (ref_id c) w) as G.
    rewrite F in G. cbn in G. subst w'. by apply calls_since_app.
  - intros c w title body when e w' F. cbn zeta. intros L.
    cbn [descend]. rewrite process_page_full_steps.
    unfold try_except, page_steps. rewrite bind_run, F.
    destruct (upload_runs up self body (blob_name_of prefix title)
                {[ "created_date" := when ]}
                (sent (HttpGet (page_url self (ref_id c)) page_params) w))
      as (w3 & line & delta & U & _).
    rewrite U in L. cbn [snd] in L.
    rewrite bind_run, U, bind_run, L. split; [reflexivity|].
    pose proof (get_child_pages_calls up self (ref_id c) w3) as G.
    rewrite L in G. cbn in G. subst w'. by apply calls_since_app.
  - intros c w title body when w' F. cbn [descend].
    rewrite process_page_full_steps.
    pose proof (get_page_content_calls up self (ref_id c) w) as G.
    rewrite F in G. cbn in G. subst w'.
    unfold try_except, page_steps. rewrite bind_run, F.
    destruct (upload_runs up self body (blob_name_of prefix title)
                {[ "created_date" := when ]}
                (sent (HttpGet (page_url self (ref_id c)) page_params) w))
      as (w3 & line & delta & U & E & _).
    rewrite bind_run, U, bind_run.
    pose proof (get_child_pages_calls up self (ref_id c) w3) as L.
    destruct (get_child_pages up self (ref_id c) w3) as [[children|e] w4];
      cbn in L; subst w4.
    + destruct (grows_for_each children
                  (descend up depth self (Path.join prefix title))
                  (λ child, match depth with
                            | O => grows_raise RecursionError
                            | S d => grows_process_page_full up d self _ _
                            end)
                  (sent (HttpGet (child_url self (ref_id c)) []) w3))
        as [rest R].
      destruct (for_each children _ _) as [[[]|e] w5]; cbn in R |- *;
        (erewrite calls_since_app;
         [|rewrite R; cbn; rewrite E; cbn; rewrite <- !app_assoc; reflexivity]);
        set_solver.
    + cbn. erewrite calls_since_app;
        [|rewrite E; cbn; rewrite <- !app_assoc; reflexivity].
      set_solver.
  - intros down unlisted t w C A N H.
    destruct (full_sync_ailing up self down unlisted depth C t prefix A H w)
      as (w' & delta & R & E & U & F).
    cbn [descend tree_ref ref_id]. rewrite R. cbn [fst snd].
    rewrite (calls_since_app w w' delta E), F, U.
    split; [done|]. split; [done|]. split; [done|]. split.
    + intros p c I Fl M.
      apply (list_elem_of_fmap_2 (λ p, page_url self (tree_id p))).
      by apply (reached_children down unlisted t p c).
    + intros c d I Fl B (r & Eq & X)%list_elem_of_fmap.
      apply page_url_inj in Eq.
      apply (below_failing_not_reached down unlisted t c d N I Fl B).
      rewrite Eq. by apply list_elem_of_fmap_2.
Qed.

(** Guides cannot be fetched and the blob store refuses every write: Home
    and FAQ are visited although the upload of Home failed, Guides is asked
    for, and Setup, below Guides, is not. *)
Lemma failed_fetch_abandons_subtree_witness :
  let up := Sample.surroundings Sample.handbook ["110"] [] [] Sample.today
              Sample.store_full in
  let self := Sample.session_of "DOCS" "100" in
  let run := descend up 8 self EmptyString (tree_ref Sample.handbook) boot in
  content_fetches (calls_since boot run.2)
  = [page_url self "100"; page_url self "110"; page_url self "120"]
  ∧ uploads_in (calls_since boot run.2)
    = [("Home.html", "<p>Welcome</p>"); ("Home/FAQ.html", "<p>FAQ</p>")]
  ∧ page_url self "111" ∉ content_fetches (calls_since boot run.2).
Proof.
  cbn zeta.
  destruct (failed_fetch_abandons_subtree
              (Sample.surroundings Sample.handbook ["110"] [] [] Sample.today
                 Sample.store_full)
              7 (Sample.session_of "DOCS" "100") EmptyString)
    as (_ & _ & _ & _ & tree).
  destruct (tree ["110"] [] Sample.handbook boot)
    as (_ & F & U & _ & B).
  - reflexivity.
  - constructor.
    + rewrite !elem_of_cons, elem_of_nil. intros [E|[]]. discriminate E.
    + intros _ h. eexists.
      split; [reflexivity|]. split; [left; reflexivity | reflexivity].
    + intros _ I. by apply elem_of_nil in I.
    + intros _ h. eexists.
      split; [reflexivity|]. split; [left; reflexivity | reflexivity].
    + intros _. constructor; [|constructor; [|constructor]].
      * constructor.
        -- intros _ w. reflexivity.
        -- intros N. exfalso. apply N. left.
        -- intros N. exfalso. apply N. left.
        -- intros Fl. discriminate Fl.
        -- intros Fl. discriminate Fl.
      * constructor.
        -- rewrite !elem_of_cons, elem_of_nil. intros [E|[]]. discriminate E.
        -- intros _ h. eexists.
           split; [reflexivity|]. split; [left; reflexivity | reflexivity].
        -- intros _ I. by apply elem_of_nil in I.
        -- intros _ h. eexists.
           split; [reflexivity|]. split; [left; reflexivity | reflexivity].
        -- intros _. constructor.
  - apply (bool_decide_unpack _). vm_compute. exact I.
  - cbn. lia.
  - split; [rewrite F; vm_compute; reflexivity|].
    split; [rewrite U; vm_compute; reflexivity|].
    apply (B (Page "110" "Guides" "<p>Guides</p>" Sample.stamp
                [Page "111" "Setup" "<p>Setup</p>" Sample.stamp []])
             (Page "111" "Setup" "<p>Setup</p>" Sample.stamp [])).
    + cbn. do 2 constructor.
    + reflexivity.
    + cbn. constructor.
Defined.

(** * Further properties of the code *)

(** ** The Sink, call by call *)

(** X1. [upload_to_azure_blob] writes the content first and sets the
    metadata only after the write returned.  When the write raises, the
    metadata is never sent.  When only the metadata call raises, the content
    has been written all the same, and the line printed still says that the
    upload failed.  With an empty blob name nothing is sent at all. *)
Theorem upload_writes_before_metadata (up : upstream) (self : session)
    (content blob_name : string) (metadata : gmap string string) (w : world) :
  let run := upload_to_azure_blob up self content blob_name metadata w in
  let put := UploadBlob (container_name self) blob_name content in
  let tag := SetBlobMetadata (container_name self) blob_name metadata in
  let failed e := "Failed to upload " +:+ blob_name +:+ ": " +:+ exn_str e in
  (Path.is_empty (container_name self) || Path.is_empty blob_name = true →
     calls_since w run.2 = [])
  ∧ (Path.is_empty (container_name self) || Path.is_empty blob_name = false →
     match upload_blob up (history w) (container_name self) blob_name content with
     | Raises e =>
         calls_since w run.2 = [put] ∧ stdout run.2 = stdout w ++ [failed e]
     | Returns _ =>
         calls_since w run.2 = [put; tag]
         ∧ match set_blob_metadata up (history w ++ [put]) (container_name self)
                   blob_name metadata with
           | Raises e => stdout run.2 = stdout w ++ [failed e]
           | Returns _ =>
               stdout run.2
               = stdout w ++ ["Uploaded " +:+ blob_name
                              +:+ " to Azure Blob Storage."]
           end
     end).
Proof.
  cbn zeta. unfold upload_to_azure_blob, get_blob_client. split; intros E;
    rewrite E; py_unfold; cbn.
  - apply calls_since_app. cbn. by rewrite app_nil_r.
  - destruct (upload_blob up (history w) _ _ _) as [[]|e]; cbn.
    + destruct (set_blob_metadata up _ _ _ _) as [[]|e]; cbn;
        (split; [apply calls_since_app; cbn; by rewrite <- app_assoc | done]).
    + split; [by apply calls_since_app | done].
Qed.

(** The store takes the content of Home and then refuses its metadata. *)
Lemma upload_writes_before_metadata_witness :
  let run := upload_to_azure_blob Cases.untagged Sample.docs "<p>Welcome</p>"
               "Home.html" {[ "created_date" := Sample.stamp ]} boot in
  calls_since boot run.2
  = [UploadBlob "private" "Home.html" "<p>Welcome</p>";
     SetBlobMetadata "private" "Home.html" {[ "created_date" := Sample.stamp ]}]
  ∧ stdout run.2 = ["Failed to upload Home.html: Metadata is too large."].
Proof.
  cbn zeta.
  destruct (upload_writes_before_metadata Cases.untagged Sample.docs
              "<p>Welcome</p>" "Home.html" {[ "created_date" := Sample.stamp ]}
              boot) as [_ P].
  apply (P eq_refl).
Defined.

(** ** Constructing a session *)

(** [get_root_page_id] depends on the world through its history alone. *)
Lemma get_root_page_id_history (up : upstream) (self : session)
    (w1 w2 : world) :
  history w1 = history w2 →
  (get_root_page_id up self w1).1 = (get_root_page_id up self w2).1
  ∧ history (get_root_page_id up self w1).2
    = history (get_root_page_id up self w2).2.
Proof.
  destruct w1 as [h1 c1 o1 j1], w2 as [h2 c2 o2 j2]. cbn [history].
  intros ->. unfold get_root_page_id, first_item. py_unfold. cbn.
  destruct (get_all_pages_from_space up _ _ _) as [[|p rest]|e]; cbn;
    try done.
  by destruct (get_page_ancestors up _ _) as [[|top more]|e].
Qed.

(** X2. Whether the container could be created has no influence on the
    construction of a session: with any other answer of the blob store to
    [create_container], [ConfluenceSync] ends in the same outcome (the same
    session or the same exception) after the same calls. *)
Theorem construction_ignores_container_failure (up : upstream)
    (answer : list call → string → outcome unit) (v : pyval) (w : world) :
  (ConfluenceSync (with_create_container answer up) v w).1
  = (ConfluenceSync up v w).1
  ∧ history (ConfluenceSync (with_create_container answer up) v w).2
    = history (ConfluenceSync up v w).2.
Proof.
  unfold ConfluenceSync.
  cbn [getenv new_confluence from_connection_string with_create_container].
  change (get_root_page_id (with_create_container answer up))
    with (get_root_page_id up).
  destruct (new_confluence up _ _ _) as [[]|e0]; [|done].
  destruct (from_connection_string up _) as [[]|e0]; [|done].
  rewrite !bind_run. unfold local. rewrite !bind_run.
  match goal with
  | |- context [_create_container up ?s w] =>
      destruct (create_container_runs up s w) as [out ->];
      destruct (create_container_runs (with_create_container answer up) s w)
        as [out' ->]
  end.
  rewrite !bind_run.
  match goal with
  | |- context [get_root_page_id up ?s (World ?h ?c out' ?j)] =>
      destruct (get_root_page_id_history up s (World h c out' j)
                  (World h c out j) eq_refl) as [O H]
  end.
  destruct (get_root_page_id up _ _) as [[r1|e1] u1],
    (get_root_page_id up _ _) as [[r2|e2] u2]; cbn in O, H |- *;
    by simplify_eq.
Qed.

(** ** The entry points, further *)

Lemma dispatch_construction_fails (up : upstream) (v t : pyval) (e : exn)
    (w w1 : world) :
  truthy v = true → truthy t = true →
  ConfluenceSync up v w = (Raises e, w1) →
  dispatch up v t w
  = (Returns internal_error,
     logged "ERROR" ("An error occurred: " +:+ exn_str e) w1).
Proof.
  intros Hv Ht Hc. unfold dispatch. rewrite Hv, Ht. cbn [negb orb].
  unfold try_except. by rewrite bind_run, Hc.
Qed.

(** X3. When the construction of the session raises, whatever the [type]
    asked for, both entry points answer 500 with the fixed message: the
    text of the exception goes to the log, as one record of level ERROR, and
    not into the response.  No call is made after the failed construction. *)
Theorem construction_failure_answers_500 (up : upstream) (w : world) :
  (∀ params e w1,
     truthy (params_get params "space") = true →
     truthy (params_get params "type") = true →
     ConfluenceSync up (params_get params "space") (entered w) = (Raises e, w1) →
     HttpTrigger_main up params w
     = (Returns (HttpResponse "An error occurred while processing the request."
                   500),
        logged "ERROR" ("An error occurred: " +:+ exn_str e) w1))
  ∧ (∀ get_json v t e w1,
       read_parameters get_json = Returns (v, t) →
       truthy v = true → truthy t = true →
       ConfluenceSync up v
         (logged "INFO" (py_str t) (logged "INFO" (py_str v) (entered w)))
       = (Raises e, w1) →
       ConfluenceSync_main up get_json w
       = (Returns (HttpResponse
                     "An error occurred while processing the request." 500),
          logged "ERROR" ("An error occurred: " +:+ exn_str e) w1)).
Proof.
  split.
  - intros params e w1 Hv Ht Hc. rewrite HttpTrigger_main_dispatch.
    by apply dispatch_construction_fails.
  - intros get_json v t e w1 Hr Hv Ht Hc.
    rewrite ConfluenceSync_main_dispatch, Hr.
    by apply dispatch_construction_fails.
Qed.

(** A full sync is asked for a space without pages. *)
Lemma construction_failure_answers_500_witness :
  let run := HttpTrigger_main Cases.empty_space
               {[ "space" := "EMPTY"; "type" := "full" ]} boot in
  run.1 = Returns internal_error
  ∧ journal run.2
    = [("INFO", "HTTP trigger function processed a request.");
       ("ERROR", "An error occurred: list index out of range")]
  ∧ history run.2
    = [CreateContainer "private"; GetAllPagesFromSpace (PyStr "EMPTY") 1].
Proof.
  cbn zeta.
  destruct (construction_failure_answers_500 Cases.empty_space boot) as [Q _].
  rewrite (Q {[ "space" := "EMPTY"; "type" := "full" ]} IndexError
             (sent (GetAllPagesFromSpace (PyStr "EMPTY") 1)
                (sent (CreateContainer "private") (entered boot))));
    [repeat split | reflexivity | reflexivity | vm_compute; reflexivity].
Defined.

Lemma process_page_incremental_returns (up : upstream) (self : session)
    (w : world) :
  (process_page_incremental up self w).1 = Returns ().
Proof. apply guarded_returns. Qed.

Lemma dispatch_incremental (up : upstream) (v : pyval) (self : session)
    (w w1 : world) :
  truthy v = true →
  ConfluenceSync up v w = (Returns self, w1) →
  dispatch up v (PyStr "incremental") w
  = (Returns (HttpResponse
                ("Incremental sync completed for space: " +:+ py_str v +:+ ".")
                200),
     (process_page_incremental up self w1).2).
Proof.
  intros Hv Hc. unfold dispatch. rewrite Hv. cbn [negb orb truthy Path.is_empty].
  unfold try_except. rewrite bind_run, Hc. cbn [eq_str].
  rewrite bool_decide_eq_false_2 by done.
  rewrite bool_decide_eq_true_2 by done. rewrite bind_run.
  pose proof (process_page_incremental_returns up self w1) as R.
  destruct (process_page_incremental up self w1) as [[[]|e] w2]; done.
Qed.

(** X4. [process_page_incremental] never raises: whatever the clock, the
    search and the services answer, it returns [None].  Hence, once the
    session has been constructed, a request for an incremental sync is
    answered 200 with the message of success by either entry point, and the
    world it leaves is the one the sync left: nothing is logged or sent
    after it. *)
Theorem incremental_sync_answers_200 (up : upstream) :
  (∀ self w, (process_page_incremental up self w).1 = Returns ())
  ∧ (∀ params s self w w1,
       params !! "space" = Some s → s ≠ EmptyString →
       params !! "type" = Some "incremental" →
       ConfluenceSync up (PyStr s) (entered w) = (Returns self, w1) →
       HttpTrigger_main up params w
       = (Returns (HttpResponse
                     ("Incremental sync completed for space: " +:+ s +:+ ".")
                     200),
          (process_page_incremental up self w1).2))
  ∧ (∀ members v self w w1,
       members !! "space" = Some v → truthy v = true →
       members !! "type" = Some (PyStr "incremental") →
       ConfluenceSync up v
         (logged "INFO" "incremental" (logged "INFO" (py_str v) (entered w)))
       = (Returns self, w1) →
       ConfluenceSync_main up (Returns (JsonObject members)) w
       = (Returns (HttpResponse
                     ("Incremental sync completed for space: " +:+ py_str v
                      +:+ ".")
                     200),
          (process_page_incremental up self w1).2)).
Proof.
  split; [apply process_page_incremental_returns|]. split.
  - intros params s self w w1 Hs Hne Ht Hc.
    rewrite HttpTrigger_main_dispatch. unfold params_get. rewrite Hs, Ht.
    apply (dispatch_incremental up (PyStr s) self (entered w) w1);
      [by apply truthy_str | done].
  - intros members v self w w1 Hs Hv Ht Hc.
    rewrite ConfluenceSync_main_dispatch. unfold read_parameters.
    rewrite Hs, Ht. by apply (dispatch_incremental up v self _ w1).
Qed.

(** With the wiki unreachable the search fails, and the answer is 200. *)
Lemma incremental_sync_answers_200_witness :
  (HttpTrigger_main Sample.outage
     {[ "space" := "DOCS"; "type" := "incremental" ]} boot).1
  = Returns (HttpResponse "Incremental sync completed for space: DOCS." 200)
  ∧ stdout (HttpTrigger_main Sample.outage
              {[ "space" := "DOCS"; "type" := "incremental" ]} boot).2
    = ["An error occurred: Connection refused"].
Proof.
  destruct (incremental_sync_answers_200 Sample.outage) as (_ & Q & _).
  rewrite (Q {[ "space" := "DOCS"; "type" := "incremental" ]} "DOCS"
             Sample.docs boot
             (sent (GetPageAncestors "100")
                (sent (GetAllPagesFromSpace (PyStr "DOCS") 1)
                   (sent (CreateContainer "private") (entered boot)))));
    [split; [reflexivity | vm_compute; reflexivity]
    | reflexivity | discriminate | reflexivity | vm_compute; reflexivity].
Defined.

(** X5. The JSON entry point answers an unreadable request with status 400
    and the text of the exception as body: the message of the parser when
    the body is not JSON, the quoted name of the key when [space] or [type]
    is absent from the object ([space] is looked up first, so a body that
    lacks both is answered with ['space']).  Nothing is sent and only the
    record of entry is logged. *)
Theorem unreadable_json_answers_with_exception (up : upstream) (w : world) :
  (∀ e, ConfluenceSync_main up (Raises e) w
        = (Returns (HttpResponse (exn_str e) 400), entered w))
  ∧ (∀ members,
       members !! "space" = None →
       ConfluenceSync_main up (Returns (JsonObject members)) w
       = (Returns (HttpResponse "'space'" 400), entered w))
  ∧ (∀ members v,
       members !! "space" = Some v → members !! "type" = None →
       ConfluenceSync_main up (Returns (JsonObject members)) w
       = (Returns (HttpResponse "'type'" 400), entered w))
  ∧ (∀ message,
       ConfluenceSync_main up (Returns (JsonOther message)) w
       = (Returns (HttpResponse message 400), entered w)).
Proof.
  repeat split; intros; rewrite ConfluenceSync_main_dispatch;
    unfold read_parameters; by simplify_option_eq.
Qed.

(** An empty object, and an object with a space only. *)
Lemma unreadable_json_answers_with_exception_witness :
  (ConfluenceSync_main Sample.healthy (Returns (JsonObject ∅)) boot).1
  = Returns (HttpResponse "'space'" 400)
  ∧ (ConfluenceSync_main Sample.healthy
       (Returns (JsonObject {[ "space" := PyStr "DOCS" ]})) boot).1
    = Returns (HttpResponse "'type'" 400).
Proof.
  destruct (unreadable_json_answers_with_exception Sample.healthy boot)
    as (_ & S & T & _).
  split.
  - rewrite (S ∅); reflexivity.
  - rewrite (T {[ "space" := PyStr "DOCS" ]} (PyStr "DOCS")); reflexivity.
Defined.

(** ** The Page Reader, outcome by outcome *)

Lemma raise_for_status_fails (r : response) (w : world) :
  400 ≤ status_code r < 600 →
  ∃ message, raise_for_status r w = (Raises (Exn "HTTPError" message), w).
Proof.
  intros P. unfold raise_for_status.
  destruct (Z.leb_spec 400 (status_code r)), (Z.ltb_spec (status_code r) 500),
    (Z.leb_spec 500 (status_code r)), (Z.ltb_spec (status_code r) 600);
    cbn; try lia; by eexists.
Qed.

Lemma passes_or_fails (code : Z) : passes code ∨ 400 ≤ code < 600.
Proof. unfold passes. lia. Qed.

(** X6. [get_page_content] sends one request, whatever comes of it, and
    returns title, body and date exactly when the service answered, with a
    status outside 400 to 599, with a document on which the three subscripts
    yield them.  A status from 400 to 599 raises [HTTPError] even when the
    body is a page; any other status passes, also one that is not 2xx.  On
    a document that passes, the subscripts are applied in the order title,
    body, date, and the first that raises gives the exception of the call:
    a page with a title and no body raises what [data['body']] raises.
    [get_child_pages] likewise returns the listing exactly when the answer
    passes and [data['results']] yields it, and raises what that subscript
    raises otherwise. *)
Theorem page_reader_outcomes (up : upstream) (self : session) (id : string)
    (w : world) :
  let answer := requests_get up (history w) (page_url self id) page_params in
  let listing := requests_get up (history w) (child_url self id) [] in
  (get_page_content up self id w).2
  = sent (HttpGet (page_url self id) page_params) w
  ∧ (∀ title body when,
       (get_page_content up self id w).1 = Returns (title, body, when)
       ↔ ∃ r data, answer = Returns r ∧ passes (status_code r)
              ∧ json r = Returns data
              ∧ title_of data = Returns title
              ∧ body_storage_value_of data = Returns body
              ∧ version_when_of data = Returns when)
  ∧ (∀ r, answer = Returns r → 400 ≤ status_code r < 600 →
       ∃ message,
         (get_page_content up self id w).1 = Raises (Exn "HTTPError" message))
  ∧ (∀ r data,
       answer = Returns r → passes (status_code r) →
       json r = Returns data →
       (∀ e, title_of data = Raises e →
          (get_page_content up self id w).1 = Raises e)
       ∧ (∀ title e,
            title_of data = Returns title →
            body_storage_value_of data = Raises e →
            (get_page_content up self id w).1 = Raises e)
       ∧ (∀ title body e,
            title_of data = Returns title →
            body_storage_value_of data = Returns body →
            version_when_of data = Raises e →
            (get_page_content up self id w).1 = Raises e))
  ∧ (∀ r e,
       answer = Returns r → passes (status_code r) → json r = Raises e →
       (get_page_content up self id w).1 = Raises e)
  ∧ (∀ children,
       (get_child_pages up self id w).1 = Returns children
       ↔ ∃ r data, listing = Returns r ∧ passes (status_code r)
              ∧ json r = Returns data
              ∧ results_of data = Returns children)
  ∧ (∀ r data e,
       listing = Returns r → passes (status_code r) →
       json r = Returns data → results_of data = Raises e →
       (get_child_pages up self id w).1 = Raises e).
Proof.
  cbn zeta. split; [apply get_page_content_calls|].
  unfold get_page_content, get_child_pages.
  unfold item_title, item_body_storage_value, item_version_when, item_results.
  cbv zeta. rewrite !bind_run. unfold send. cbv beta.
  split; [|split; [|split; [|split; [|split]]]].
  - intros title body when. split.
    + destruct (requests_get up _ (page_url self id) _) as [r|e]; [|done].
      rewrite bind_run.
      destruct (passes_or_fails (status_code r)) as [P|P].
      * rewrite raise_for_status_passes by done. rewrite bind_run.
        unfold local. destruct (json r) as [data|e] eqn:J; [|done].
        cbn. destruct (title_of data) as [t|e] eqn:T; [|done].
        cbn. destruct (body_storage_value_of data) as [b|e] eqn:B; [|done].
        cbn. destruct (version_when_of data) as [d|e] eqn:D; [|done].
        cbn. intros [= -> -> ->]. eauto 10.
      * destruct (raise_for_status_fails r (sent (HttpGet (page_url self id)
                                                    page_params) w) P)
          as [m E].
        unfold sent in E. rewrite E. done.
    + intros (r & data & -> & P & J & T & B & D).
      rewrite bind_run, raise_for_status_passes by done.
      rewrite bind_run. unfold local. rewrite J. cbn. by rewrite T, B, D.
  - intros r -> P. rewrite bind_run.
    destruct (raise_for_status_fails r (sent (HttpGet (page_url self id)
                                                page_params) w) P) as [m E].
    unfold sent in E. rewrite E. by exists m.
  - intros r data -> P J. rewrite bind_run, raise_for_status_passes by done.
    rewrite bind_run. unfold local. rewrite J. cbn.
    split; [|split].
    + intros e T. by rewrite T.
    + intros title e T B. by rewrite T, B.
    + intros title body e T B D. by rewrite T, B, D.
  - intros r e -> P J. rewrite bind_run, raise_for_status_passes by done.
    rewrite bind_run. unfold local. by rewrite J.
  - intros children. split.
    + destruct (requests_get up _ (child_url self id) _) as [r|e]; [|done].
      rewrite bind_run.
      destruct (passes_or_fails (status_code r)) as [P|P].
      * rewrite raise_for_status_passes by done. rewrite bind_run.
        unfold local. destruct (json r) as [data|e] eqn:J; [|done].
        cbn. destruct (results_of data) as [l|e] eqn:R; [|done].
        cbn. intros [= ->]. eauto 10.
      * destruct (raise_for_status_fails r (sent (HttpGet (child_url self id)
                                                    []) w) P) as [m E].
        unfold sent in E. rewrite E. done.
    + intros (r & data & -> & P & J & R).
      rewrite bind_run, raise_for_status_passes by done.
      rewrite bind_run. unfold local. rewrite J. cbn. by rewrite R.
  - intros r data e -> P J R.
    rewrite bind_run, raise_for_status_passes by done.
    rewrite bind_run. unfold local. rewrite J. cbn. by rewrite R.
Qed.

(** Guides cannot be fetched: the service answers 500 with no page. *)
Lemma page_reader_outcomes_witness :
  ∃ message,
    (get_page_content Sample.guides_down Sample.docs "110" boot).1
    = Raises (Exn "HTTPError" message).
Proof.
  destruct (page_reader_outcomes Sample.guides_down Sample.docs "110" boot)
    as (_ & _ & F & _).
  eapply F; [reflexivity | cbn; lia].
Defined.

(** ** What a sync sends, and where *)

Lemma sends_ret {A} (P : call → Prop) (a : A) : sends P (mret a : Py A).
Proof. intros w. exists []. by rewrite app_nil_r. Qed.

Lemma sends_raise {A} (P : call → Prop) (e : exn) : sends P (raise e : Py A).
Proof. intros w. exists []. by rewrite app_nil_r. Qed.

Lemma sends_local {A} (P : call → Prop) (o : outcome A) : sends P (local o).
Proof. intros w. exists []. by rewrite app_nil_r. Qed.

Lemma sends_print (P : call → Prop) (line : string) : sends P (print line).
Proof. intros w. exists []. by rewrite app_nil_r. Qed.

Lemma sends_send {A} (P : call → Prop) (c : call)
    (answer : list call → outcome A) :
  P c → sends P (send c answer).
Proof. intros H w. exists [c]. split; [done|]. by constructor. Qed.

Lemma sends_bind {A B} (P : call → Prop) (m : Py A) (k : A → Py B) :
  sends P m → (∀ a, sends P (k a)) → sends P (m ≫= k).
Proof.
  intros M K w. rewrite bind_run. destruct (M w) as (d & E & F).
  destruct (m w) as [[a|e] w']; cbn in E.
  - destruct (K a w') as (d' & E' & F'). exists (d ++ d').
    rewrite E', E, app_assoc. split; [done|]. by apply Forall_app.
  - by exists d.
Qed.

Lemma sends_try {A} (P : call → Prop) (body : Py A) (handler : exn → Py A) :
  sends P body → (∀ e, sends P (handler e)) → sends P (try_except body handler).
Proof.
  intros M K w. unfold try_except. destruct (M w) as (d & E & F).
  destruct (body w) as [[a|e] w']; cbn in E.
  - by exists d.
  - destruct (K e w') as (d' & E' & F'). exists (d ++ d').
    rewrite E', E, app_assoc. split; [done|]. by apply Forall_app.
Qed.

Lemma sends_for_each {A} (P : call → Prop) (items : list A)
    (body : A → Py unit) :
  (∀ x, sends P (body x)) → sends P (for_each items body).
Proof.
  intros B. induction items as [|x items IH]; [apply sends_ret|].
  cbn [for_each]. apply sends_bind; [apply B | intros _; apply IH].
Qed.

Lemma sends_weaken {A} (P Q : call → Prop) (m : Py A) :
  (∀ c, P c → Q c) → sends P m → sends Q m.
Proof.
  intros I M w. destruct (M w) as (d & E & F). exists d. split; [done|].
  by apply (Forall_impl P).
Qed.

Lemma sends_raise_for_status (P : call → Prop) (r : response) :
  sends P (raise_for_status r).
Proof.
  unfold raise_for_status. repeat case_match;
    (apply sends_raise || apply sends_ret).
Qed.

Lemma sends_get_page_content (up : upstream) (self : session) (id : string) :
  sends (λ c, c = HttpGet (page_url self id) page_params)
    (get_page_content up self id).
Proof.
  intros w. rewrite get_page_content_calls. eexists. split; [done|].
  by repeat constructor.
Qed.

Lemma sends_get_child_pages (up : upstream) (self : session) (id : string) :
  sends (λ c, c = HttpGet (child_url self id) []) (get_child_pages up self id).
Proof.
  intros w. rewrite get_child_pages_calls. eexists. split; [done|].
  by repeat constructor.
Qed.

Lemma sends_build_full_path (up : upstream) (self : session) (id : string) :
  sends (λ c, c = GetPageAncestors id) (build_full_path up self id).
Proof.
  intros w. rewrite build_full_path_calls. eexists. split; [done|].
  by repeat constructor.
Qed.

Lemma sends_upload (up : upstream) (self : session) (content name : string)
    (metadata : gmap string string) :
  sends (λ c, c = UploadBlob (container_name self) name content
              ∨ c = SetBlobMetadata (container_name self) name metadata)
    (upload_to_azure_blob up self content name metadata).
Proof.
  unfold upload_to_azure_blob, get_blob_client.
  apply sends_try; [|intros; apply sends_print].
  apply sends_bind; [case_match; (apply sends_raise || apply sends_ret)|].
  intros _. apply sends_bind; [apply sends_send; by left|].
  intros _. apply sends_bind; [apply sends_send; by right|].
  intros _. apply sends_print.
Qed.

Lemma sends_process_page_full (up : upstream) (depth : nat) (self : session)
    (page_id path : string) :
  sends (λ c, full_sync_call c ∧ targets (container_name self) c)
    (process_page_full up depth self page_id path).
Proof.
  revert page_id path. induction depth as [|depth IH]; intros page_id path;
    rewrite process_page_full_steps;
    (apply sends_try; [|intros; apply sends_print]);
    (apply sends_bind;
     [eapply sends_weaken; [|apply sends_get_page_content]; by intros c ->|]);
    intros [[title content] created];
    (apply sends_bind;
     [eapply sends_weaken; [|apply sends_upload]; by intros c [-> | ->]|]);
    intros _;
    (apply sends_bind;
     [eapply sends_weaken; [|apply sends_get_child_pages]; by intros c ->|]);
    intros children; apply sends_for_each; intros child; cbn [descend];
    [apply sends_raise | apply IH].
Qed.

Lemma sends_incremental_step (up : upstream) (self : session) (id : string) :
  sends (λ c, incremental_call c ∧ targets (container_name self) c)
    (incremental_step up self id).
Proof.
  unfold incremental_step.
  apply sends_bind;
    [eapply sends_weaken; [|apply sends_get_page_content]; by intros c ->|].
  intros [[title body] when].
  apply sends_bind;
    [eapply sends_weaken; [|apply sends_build_full_path]; by intros c ->|].
  intros path.
  eapply sends_weaken; [|apply sends_upload]. by intros c [-> | ->].
Qed.

(** X7. A full sync is made of page requests and writes to the container of
    its session and of nothing else: it never searches and never asks for
    ancestors.  An incremental sync sends one search, first, and then only
    page requests with parameters, requests for ancestors and writes to the
    container of its session: it never lists the children of a page.
    Neither ever creates a container or writes to another one. *)
Theorem sync_calls_are_confined (up : upstream) (self : session) (w : world) :
  (∀ depth page_id path,
     Forall (λ c, full_sync_call c ∧ targets (container_name self) c)
       (calls_since w (process_page_full up depth self page_id path w).2))
  ∧ ∃ rest,
      calls_since w (process_page_incremental up self w).2
      = Cql (incremental_query up self w) "ancestors" :: rest
      ∧ Forall (λ c, incremental_call c ∧ targets (container_name self) c) rest.
Proof.
  split.
  - intros depth page_id path.
    destruct (sends_process_page_full up depth self page_id path w)
      as (d & E & F).
    by rewrite (calls_since_app _ _ d E).
  - rewrite incremental_run.
    destruct (cql up (history w) _ _) as [results|e].
    + destruct (sends_for_each _ (ref_id <$> results) (incremental_step up self)
                  (sends_incremental_step up self) (searched up self w))
        as (d & E & F).
      exists d. split; [|done]. apply calls_since_app.
      destruct (for_each _ _ _) as [[[]|e] w']; cbn in E |- *;
        rewrite E; cbn; by rewrite <- app_assoc.
    + exists []. split; [|done]. by apply calls_since_app.
Qed.

Lemma sends_datetime_now (up : upstream) (P : call → Prop) :
  sends P (datetime_now up).
Proof. intros w. exists []. by rewrite app_nil_r. Qed.

Lemma sends_logging (P : call → Prop) (level message : string) :
  sends P (logging level message).
Proof. intros w. exists []. by rewrite app_nil_r. Qed.

Lemma sends_process_page_incremental (up : upstream) (self : session) :
  sends (targets (container_name self)) (process_page_incremental up self).
Proof.
  unfold process_page_incremental.
  apply sends_try; [|intros; apply sends_print].
  apply sends_bind; [apply sends_datetime_now|]. intros now.
  apply sends_bind; [apply sends_datetime_now|]. intros today.
  apply sends_bind; [by apply sends_send|]. intros results.
  apply sends_for_each. intros id.
  eapply sends_weaken; [|apply sends_incremental_step]. by intros c [_ T].
Qed.

Lemma sends_ConfluenceSync (up : upstream) (v : pyval) :
  sends (targets (if eq_str v "SIA" then "public" else "private"))
    (ConfluenceSync up v).
Proof.
  intros w. destruct (construction_calls up v w) as (d & E & _ & _ & S).
  exists d. split; [done|].
  destruct S as [->|[->|[id ->]]]; by repeat constructor.
Qed.

Lemma sends_dispatch (up : upstream) (v t : pyval) :
  sends (targets (if eq_str v "SIA" then "public" else "private"))
    (dispatch up v t).
Proof.
  intros w. unfold dispatch. case_match; [apply sends_ret|].
  unfold try_except. rewrite bind_run.
  destruct (sends_ConfluenceSync up v w) as (d & E & F).
  destruct (ConfluenceSync up v w) as [[self|e] w1] eqn:C; cbn [snd] in E.
  - destruct (ConfluenceSync_constructed up v self w w1 C) as [K Sp].
    unfold constructed in K. rewrite Sp in K.
    assert (R : ∀ (m : Py http_response),
              sends (targets (container_name self)) m →
              ∃ delta,
                history (let (o, w') := m w1 in
                         match o with
                         | Returns a => (Returns a, w')
                         | Raises e0 =>
                             (logging "ERROR"
                                ("An error occurred: " +:+ exn_str e0) ;;
                              mret internal_error) w'
                         end).2 = history w ++ delta
                ∧ Forall (targets (if eq_str v "SIA" then "public"
                                   else "private")) delta).
    { intros m M. destruct (M w1) as (d1 & E1 & F1). exists (d ++ d1).
      rewrite K in F1. split; [|by apply Forall_app].
      destruct (m w1) as [[a|e0] w2]; cbn [snd] in E1 |- *;
        [|rewrite bind_run; cbn [logging mret Py_ret snd history]];
        by rewrite E1, E, app_assoc. }
    apply R. destruct (eq_str t "full"); [|destruct (eq_str t "incremental")].
    + apply sends_bind; [|intros; apply sends_ret].
      eapply sends_weaken; [|apply sends_process_page_full]. by intros c [_ T].
    + apply sends_bind; [|intros; apply sends_ret].
      apply sends_process_page_incremental.
    + apply sends_ret.
  - exists d. by rewrite bind_run.
Qed.

(** X8. Whatever a request asks for and whatever the services answer, every
    call to the blob store made while it is served names one container:
    [public] when the space is the string [SIA], [private] for every other
    space.  Pages of other spaces are never written to the public container,
    and pages of [SIA] never to the private one. *)
Theorem request_writes_one_container (up : upstream) (w : world) :
  (∀ params,
     Forall (targets (if eq_str (params_get params "space") "SIA"
                      then "public" else "private"))
       (calls_since w (HttpTrigger_main up params w).2))
  ∧ (∀ get_json v t,
       read_parameters get_json = Returns (v, t) →
       Forall (targets (if eq_str v "SIA" then "public" else "private"))
         (calls_since w (ConfluenceSync_main up get_json w).2)).
Proof.
  split.
  - intros params. rewrite HttpTrigger_main_dispatch.
    destruct (sends_dispatch up (params_get params "space")
                (params_get params "type") (entered w)) as (d & E & F).
    by rewrite (calls_since_app w _ d E).
  - intros get_json v t R. rewrite ConfluenceSync_main_dispatch, R.
    destruct (sends_dispatch up v t
                (logged "INFO" (py_str t) (logged "INFO" (py_str v) (entered w))))
      as (d & E & F).
    by rewrite (calls_since_app w _ d E).
Qed.

(** A full sync of the space [sia], in lower case, writes to [private]. *)
Lemma request_writes_one_container_witness :
  Forall (targets "private")
    (calls_since boot
       (ConfluenceSync_main Sample.healthy
          (Returns (JsonObject {[ "space" := PyStr "sia";
                                  "type" := PyStr "full" ]})) boot).2).
Proof.
  destruct (request_writes_one_container Sample.healthy boot) as [_ J].
  apply (J _ (PyStr "sia") (PyStr "full")). reflexivity.
Defined.

(** ** The two entry points side by side *)

Lemma alike_refl (w : world) : alike w w.
Proof. done. Qed.

Lemma blind_ret {A} (a : A) : journal_blind (mret a : Py A).
Proof. by intros w1 w2 H. Qed.

Lemma blind_raise {A} (e : exn) : journal_blind (raise e : Py A).
Proof. by intros w1 w2 H. Qed.

Lemma blind_local {A} (o : outcome A) : journal_blind (local o).
Proof. by intros w1 w2 H. Qed.

Lemma blind_print (line : string) : journal_blind (print line).
Proof. intros w1 w2 (H & C & O). repeat split; cbn; congruence. Qed.

Lemma blind_logging (level message : string) :
  journal_blind (logging level message).
Proof. intros w1 w2 (H & C & O). repeat split; cbn; congruence. Qed.

Lemma blind_send {A} (c : call) (answer : list call → outcome A) :
  journal_blind (send c answer).
Proof. intros w1 w2 (H & C & O). repeat split; cbn; congruence. Qed.

Lemma blind_datetime_now (up : upstream) : journal_blind (datetime_now up).
Proof. intros w1 w2 (H & C & O). repeat split; cbn; congruence. Qed.

Lemma blind_bind {A B} (m : Py A) (k : A → Py B) :
  journal_blind m → (∀ a, journal_blind (k a)) → journal_blind (m ≫= k).
Proof.
  intros M K w1 w2 H. rewrite !bind_run. destruct (M w1 w2 H) as [O W].
  destruct (m w1) as [[a1|e1] v1], (m w2) as [[a2|e2] v2];
    cbn in O, W; simplify_eq; [by apply K | done].
Qed.

Lemma blind_try {A} (body : Py A) (handler : exn → Py A) :
  journal_blind body → (∀ e, journal_blind (handler e)) →
  journal_blind (try_except body handler).
Proof.
  intros M K w1 w2 H. unfold try_except. destruct (M w1 w2 H) as [O W].
  destruct (body w1) as [[a1|e1] v1], (body w2) as [[a2|e2] v2];
    cbn in O, W; simplify_eq; [done | by apply K].
Qed.

Lemma blind_for_each {A} (items : list A) (body : A → Py unit) :
  (∀ x, journal_blind (body x)) → journal_blind (for_each items body).
Proof.
  intros B. induction items as [|x items IH]; [apply blind_ret|].
  cbn [for_each]. apply blind_bind; [apply B | intros _; apply IH].
Qed.

(** Composite code is blind to the log when its parts are. *)
Ltac blind :=
  repeat first
    [ apply blind_ret | apply blind_raise | apply blind_local
    | apply blind_print | apply blind_logging | apply blind_send
    | apply blind_datetime_now | apply blind_for_each
    | apply blind_bind | apply blind_try
    | match goal with
      | |- ∀ _ : string * string * string, _ => intros [[? ?] ?]
      | |- ∀ _, _ => intro
      | |- journal_blind (match ?x with _ => _ end) => destruct x
      | |- journal_blind (if ?b then _ else _) => destruct b
      end ].

Lemma blind_get_page_content (up : upstream) (self : session) (id : string) :
  journal_blind (get_page_content up self id).
Proof.
  unfold get_page_content, raise_for_status, item_title,
    item_body_storage_value, item_version_when. cbv zeta. blind.
Qed.

Lemma blind_get_child_pages (up : upstream) (self : session) (id : string) :
  journal_blind (get_child_pages up self id).
Proof. unfold get_child_pages, raise_for_status, item_results. cbv zeta. blind. Qed.

Lemma blind_upload (up : upstream) (self : session) (content name : string)
    (metadata : gmap string string) :
  journal_blind (upload_to_azure_blob up self content name metadata).
Proof. unfold upload_to_azure_blob, get_blob_client. blind. Qed.

Lemma blind_process_page_full (up : upstream) (depth : nat) (self : session)
    (page_id path : string) :
  journal_blind (process_page_full up depth self page_id path).
Proof.
  revert page_id path. induction depth as [|depth IH]; intros page_id path;
    rewrite process_page_full_steps; unfold page_steps;
    (apply blind_try; [|blind]);
    (apply blind_bind; [apply blind_get_page_content|]);
    intros [[title content] created];
    (apply blind_bind; [apply blind_upload|]); intros _;
    (apply blind_bind; [apply blind_get_child_pages|]); intros children;
    apply blind_for_each; intros child; cbn [descend];
    [apply blind_raise | apply IH].
Qed.

Lemma blind_process_page_incremental (up : upstream) (self : session) :
  journal_blind (process_page_incremental up self).
Proof.
  unfold process_page_incremental. apply blind_try; [|blind].
  do 3 (apply blind_bind; [blind|intro]). apply blind_for_each. intros id.
  unfold incremental_step.
  apply blind_bind; [apply blind_get_page_content|].
  intros [[title body] when].
  apply blind_bind; [unfold build_full_path; blind|]. intros path.
  apply blind_upload.
Qed.

Lemma blind_ConfluenceSync (up : upstream) (v : pyval) :
  journal_blind (ConfluenceSync up v).
Proof.
  unfold ConfluenceSync, _create_container, get_root_page_id, first_item.
  cbv zeta. blind.
Qed.

Lemma blind_dispatch (up : upstream) (v t : pyval) :
  journal_blind (dispatch up v t).
Proof.
  unfold dispatch. destruct (negb (truthy v) || negb (truthy t)); [blind|].
  apply blind_try; [|blind].
  apply blind_bind; [apply blind_ConfluenceSync|]. intros self.
  destruct (eq_str t "full"); [|destruct (eq_str t "incremental")].
  - apply blind_bind; [apply blind_process_page_full | blind].
  - apply blind_bind; [apply blind_process_page_incremental | blind].
  - blind.
Qed.

(** X9. The two entry points differ only in where they read [space] and
    [type]: given the same two strings, one in the query string and one in a
    JSON object, they return the same response, having sent the same calls
    and printed the same lines; only the log differs, by the two records in
    which the JSON entry point notes its parameters. *)
Theorem entry_points_agree (up : upstream) (params : gmap string string)
    (members : gmap string pyval) (s t : string) (w : world) :
  params !! "space" = Some s → params !! "type" = Some t →
  members !! "space" = Some (PyStr s) → members !! "type" = Some (PyStr t) →
  let by_query := HttpTrigger_main up params w in
  let by_body := ConfluenceSync_main up (Returns (JsonObject members)) w in
  by_query.1 = by_body.1
  ∧ history by_query.2 = history by_body.2
  ∧ stdout by_query.2 = stdout by_body.2.
Proof.
  intros Ps Pt Ms Mt. cbn zeta.
  rewrite HttpTrigger_main_dispatch, ConfluenceSync_main_dispatch.
  unfold params_get, read_parameters. rewrite Ps, Pt, Ms, Mt.
  destruct (blind_dispatch up (PyStr s) (PyStr t) (entered w)
              (logged "INFO" (py_str (PyStr t))
                 (logged "INFO" (py_str (PyStr s)) (entered w))))
    as (O & H & _ & S); done.
Qed.

Lemma entry_points_agree_witness :
  let by_query := HttpTrigger_main Sample.healthy
                    {[ "space" := "DOCS"; "type" := "full" ]} boot in
  let by_body := ConfluenceSync_main Sample.healthy
                   (Returns (JsonObject {[ "space" := PyStr "DOCS";
                                           "type" := PyStr "full" ]})) boot in
  by_query.1 = by_body.1
  ∧ history by_query.2 = history by_body.2
  ∧ stdout by_query.2 = stdout by_body.2.
Proof.
  apply (entry_points_agree Sample.healthy _ _ "DOCS" "full" boot);
    reflexivity.
Defined.

(** ** Blob names, further *)

Lemma replace_backslash_app (a b : string) :
  Path.replace_backslash (a +:+ b)
  = Path.replace_backslash a +:+ Path.replace_backslash b.
Proof.
  induction a as [|c a IH]; [reflexivity|].
  change (String c a +:+ b) with (String c (a +:+ b)).
  cbn [Path.replace_backslash]. by rewrite IH.
Qed.

Lemma replace_backslash_clean (s : string) :
  Path.mentions Path.backslash (Path.replace_backslash s) = false.
Proof.
  induction s as [|c s IH]; [reflexivity|].
  cbn [Path.replace_backslash Path.mentions]. rewrite IH.
  destruct (decide (c = Path.backslash)) as [->|N]; [reflexivity|].
  by rewrite !(bool_decide_eq_false_2 _ N).
Qed.

Lemma join_keeps_last (a b : string) : ends_with b (Path.join a b).
Proof.
  unfold Path.join, ends_with. repeat case_match.
  - by exists EmptyString.
  - by exists a.
  - exists (a +:+ "/"). by rewrite append_assoc.
Qed.

(** X10. Whatever the prefix and the title, the name under which a page is
    stored is not empty, ends in [.html] and holds no backslash. *)
Theorem blob_names_are_html_paths (path title : string) :
  Path.is_empty (blob_name_of path title) = false
  ∧ Path.mentions Path.backslash (blob_name_of path title) = false
  ∧ ends_with ".html" (blob_name_of path title).
Proof.
  split; [apply blob_name_not_empty|]. split; [apply replace_backslash_clean|].
  unfold blob_name_of.
  destruct (join_keeps_last path (title +:+ ".html")) as [stem ->].
  exists (Path.replace_backslash (stem +:+ title)).
  by rewrite <- append_assoc, replace_backslash_app.
Qed.

Lemma startswith_sep_app (a b : string) :
  Path.is_empty a = false →
  Path.startswith_sep (a +:+ b) = Path.startswith_sep a.
Proof. by destruct a. Qed.

Lemma join_join (path a x : string) :
  plain_title a = true → Path.startswith_sep x = false →
  Path.join (Path.join path a) x = Path.join path (a +:+ "/" +:+ x).
Proof.
  intros P X. destruct (plain_title_parts a P) as (E & S & T).
  unfold Path.join at 2 3. rewrite startswith_sep_app, S by done.
  assert (J : ∀ prefix, Path.is_empty (prefix +:+ a) = false
                        ∧ Path.endswith_sep (prefix +:+ a) = false).
  { intros prefix. rewrite endswith_sep_app by done. split; [|done].
    destruct prefix; [done|reflexivity]. }
  destruct (Path.is_empty path || Path.endswith_sep path).
  - unfold Path.join. destruct (J path) as [-> ->]. rewrite X.
    cbn [orb]. by rewrite !append_assoc.
  - unfold Path.join. destruct (J (path +:+ "/")) as [N D].
    rewrite append_assoc in N, D. rewrite N, D, X.
    cbn [orb]. by rewrite !append_assoc.
Qed.

(** X11. Titles are not escaped, so the mapping from pages to names is not
    one to one: a page titled [a/b] is stored under the very name of a page
    titled [b] that lies below a page titled [a] at the same place, and
    whichever is written last overwrites the other. *)
Theorem slash_in_title_collides (path a b : string) :
  plain_title a = true → Path.startswith_sep b = false →
  blob_name_of (Path.join path a) b = blob_name_of path (a +:+ "/" +:+ b).
Proof.
  intros P B. unfold blob_name_of. rewrite !append_assoc.
  rewrite join_join; [done|done|]. destruct b; [done|exact B].
Qed.

Lemma slash_in_title_collides_witness :
  blob_name_of (Path.join "Home" "Teams") "Core"
  = blob_name_of "Home" "Teams/Core"
  ∧ blob_name_of "Home" "Teams/Core" = "Home/Teams/Core.html".
Proof.
  split; [|reflexivity].
  apply (slash_in_title_collides "Home" "Teams" "Core"); reflexivity.
Defined.

(** ** Trees, further *)

Lemma elem_of_concat_map {A B} (f : A → list B) (items : list A) (y : B) :
  y ∈ List.concat (map f items) → ∃ x, x ∈ items ∧ y ∈ f x.
Proof.
  rewrite list_elem_of_In, in_concat. intros (l & [x [<- I]]%in_map_iff & Y).
  exists x. by rewrite !list_elem_of_In.
Qed.

(** The ancestors of a page of a tree begin with what lies above the tree,
    and then, unless the page is the root of the tree, with that root. *)
Lemma site_ancestors (t : page_tree) (above : list page_ref) (p : wiki_page) :
  p ∈ tree_site above t →
  (wp_id p = tree_id t ∧ wp_ancestors p = above)
  ∨ ∃ rest, wp_ancestors p = above ++ tree_ref t :: rest.
Proof.
  revert above.
  induction t as [id title body when children IH] using page_tree_nested_ind.
  intros above. cbn [tree_site]. intros [->|I]%elem_of_cons; [by left|].
  right. apply elem_of_concat_map in I as (c & C & I).
  rewrite Forall_forall in IH.
  destruct (IH c C _ I) as [[_ ->]|[rest ->]].
  - by exists [].
  - exists (tree_ref c :: rest). by rewrite <- app_assoc.
Qed.

Lemma get_root_page_id_in_tree (up : upstream) (self : session)
    (t : page_tree) (p : wiki_page) (others : list page_ref) (w : world) :
  p ∈ tree_site [] t →
  get_all_pages_from_space up (history w) (space self) 1
  = Returns (wp_ref p :: others) →
  get_page_ancestors up (history w ++ [GetAllPagesFromSpace (space self) 1])
    (wp_id p)
  = Returns (wp_ancestors p) →
  get_root_page_id up self w
  = (Returns (tree_id t),
     sent (GetPageAncestors (wp_id p))
       (sent (GetAllPagesFromSpace (space self) 1) w)).
Proof.
  intros I L A. unfold get_root_page_id. rewrite bind_run. unfold send at 1.
  rewrite L, bind_run. cbn [first_item mret Py_ret]. rewrite bind_run.
  unfold send. cbn [history ref_id wp_ref]. rewrite A.
  destruct (site_ancestors t [] p I) as [[<- ->]|[rest ->]]; reflexivity.
Qed.

(** X12. When the pages of a space form one tree and the wiki service
    reports for each page the ancestors it has in that tree,
    [get_root_page_id] returns the root of the tree, whichever page of the
    space the service happens to list first. *)
Theorem root_does_not_depend_on_first_page (up : upstream) (self : session)
    (t : page_tree) (p : wiki_page) (others : list page_ref) (w : world) :
  p ∈ tree_site [] t →
  get_all_pages_from_space up (history w) (space self) 1
  = Returns (wp_ref p :: others) →
  get_page_ancestors up (history w ++ [GetAllPagesFromSpace (space self) 1])
    (wp_id p)
  = Returns (wp_ancestors p) →
  (get_root_page_id up self w).1 = Returns (tree_id t).
Proof.
  intros I L A. by rewrite (get_root_page_id_in_tree up self t p others w).
Qed.

(** Whether the service lists FAQ or Setup first, the root is Home. *)
Lemma root_does_not_depend_on_first_page_witness :
  (get_root_page_id
     (Sample.surroundings Sample.handbook [] [PageRef "120" "FAQ"] []
        Sample.today Sample.store_ok) Sample.docs boot).1 = Returns "100"
  ∧ (get_root_page_id
       (Sample.surroundings Sample.handbook [] [PageRef "111" "Setup"] []
          Sample.today Sample.store_ok) Sample.docs boot).1 = Returns "100".
Proof.
  split.
  - apply (root_does_not_depend_on_first_page _ Sample.docs Sample.handbook
             (WikiPage "120" "FAQ" "<p>FAQ</p>" Sample.stamp 0
                [PageRef "100" "Home"]) [] boot);
      [vm_compute; set_solver | reflexivity | reflexivity].
  - apply (root_does_not_depend_on_first_page _ Sample.docs Sample.handbook
             (WikiPage "111" "Setup" "<p>Setup</p>" Sample.stamp 0
                [PageRef "100" "Home"; PageRef "110" "Guides"]) [] boot);
      [vm_compute; set_solver | reflexivity | reflexivity].
Defined.

(** ** The two modes on the same tree *)





(** X14. A full sync can be repeated: on a tree the wiki service still
    holds, a second run started where the first ended fetches the same pages
    in the same order and uploads the same objects under the same names, so
    the store ends as the first run left it. *)
Theorem full_sync_twice (up : upstream) (self : session) (depth : nat)
    (t : page_tree) (w : world) :
  constructed self → serves up self t → (height t ≤ S depth)%nat →
  let first := process_page_full up depth self (tree_id t) EmptyString w in
  let second :=
    process_page_full up depth self (tree_id t) EmptyString first.2 in
  uploads_in (calls_since first.2 second.2)
  = uploads_in (calls_since w first.2)
  ∧ content_fetches (calls_since first.2 second.2)
    = content_fetches (calls_since w first.2).
Proof.
  intros C S H. cbn zeta.
  destruct (full_sync_served up self depth C t EmptyString S H w)
    as (v & d & -> & E & U & F).
  cbn [snd].
  destruct (full_sync_served up self depth C t EmptyString S H v)
    as (v' & d' & -> & E' & U' & F').
  cbn [snd].
  by rewrite (calls_since_app w v d E), (calls_since_app v v' d' E'),
    U, U', F, F'.
Qed.

Lemma full_sync_twice_witness :
  let first := process_page_full Sample.healthy 8 Sample.docs
                 (tree_id Sample.handbook) EmptyString boot in
  let second := process_page_full Sample.healthy 8 Sample.docs
                  (tree_id Sample.handbook) EmptyString first.2 in
  uploads_in (calls_since first.2 second.2)
  = uploads_in (calls_since boot first.2)
  ∧ content_fetches (calls_since first.2 second.2)
    = content_fetches (calls_since boot first.2).
Proof.
  apply (full_sync_twice Sample.healthy Sample.docs 8 Sample.handbook boot).
  - reflexivity.
  - sample_serves.
  - cbn. lia.
Defined.

(** ** A request for a full sync, from end to end *)

Lemma ConfluenceSync_in_tree (up : upstream) (v : pyval) (t : page_tree)
    (p : wiki_page) (others : list page_ref) (w : world) :
  clients_build up → p ∈ tree_site [] t →
  (∀ h, get_all_pages_from_space up h v 1 = Returns (wp_ref p :: others)) →
  (∀ h, get_page_ancestors up h (wp_id p) = Returns (wp_ancestors p)) →
  ∃ out,
    ConfluenceSync up v w
    = (Returns (session_for up v (tree_id t)),
       World (history w
              ++ [CreateContainer (if eq_str v "SIA" then "public" else "private");
                  GetAllPagesFromSpace v 1; GetPageAncestors (wp_id p)])
         (clock_reads w) out (journal w)).
Proof.
  intros [B1 B2] I L A. unfold ConfluenceSync.
  rewrite bind_run. unfold local at 1. rewrite B1.
  rewrite bind_run. unfold local at 1. rewrite B2. rewrite bind_run.
  match goal with
  | |- context [_create_container up ?s w] =>
      destruct (create_container_runs up s w) as [out ->];
      rewrite bind_run;
      match goal with
      | |- context [get_root_page_id up s ?w1] =>
          rewrite (get_root_page_id_in_tree up s t p others w1 I (L _) (A _))
      end
  end.
  exists out. unfold sent, session_for. cbn. rewrite <- ?app_assoc. reflexivity.
Qed.

Lemma dispatch_full_run (up : upstream) (v : pyval) (self : session)
    (w w1 : world) :
  truthy v = true →
  ConfluenceSync up v w = (Returns self, w1) →
  dispatch up v (PyStr "full") w
  = (Returns (HttpResponse
                ("Full sync completed for space: " +:+ py_str v +:+ ".") 200),
     (process_page_full up (stack_room up) self (root_page_id self)
        EmptyString w1).2).
Proof.
  intros Hv Hc. unfold dispatch. rewrite Hv. cbn [negb orb truthy Path.is_empty].
  unfold try_except. rewrite bind_run, Hc. cbn [eq_str].
  rewrite bool_decide_eq_true_2 by done. rewrite bind_run.
  pose proof (process_page_full_returns up (stack_room up) self
                (root_page_id self) EmptyString w1) as R.
  destruct (process_page_full _ _ _ _ _ _) as [[[]|e] w2]; done.
Qed.

Lemma dispatch_mirrors_tree (up : upstream) (v : pyval)
    (t : page_tree) (p : wiki_page) (others : list page_ref) (w w0 : world) :
  history w0 = history w →
  truthy v = true → clients_build up → p ∈ tree_site [] t →
  (∀ h, get_all_pages_from_space up h v 1 = Returns (wp_ref p :: others)) →
  (∀ h, get_page_ancestors up h (wp_id p) = Returns (wp_ancestors p)) →
  serves up (session_for up v (tree_id t)) t →
  all_titles plain_title t = true →
  (height t ≤ S (stack_room up))%nat →
  (dispatch up v (PyStr "full") w0).1
  = Returns (HttpResponse
               ("Full sync completed for space: " +:+ py_str v +:+ ".") 200)
  ∧ uploads_in (calls_since w (dispatch up v (PyStr "full") w0).2)
    = map normalised (expected_blobs [] t).
Proof.
  intros W Hv B I L A S P H.
  destruct (ConfluenceSync_in_tree up v t p others w0 B I L A) as [out C].
  rewrite (dispatch_full_run up v _ w0 _ Hv C). split; [reflexivity|].
  cbn [snd root_page_id session_for].
  assert (K : constructed (session_for up v (tree_id t))) by reflexivity.
  destruct (full_sync_served up (session_for up v (tree_id t)) (stack_room up)
              K t EmptyString S H
              (World (history w0
                      ++ [CreateContainer (if eq_str v "SIA" then "public"
                                           else "private");
                          GetAllPagesFromSpace v 1;
                          GetPageAncestors (wp_id p)])
                 (clock_reads w0) out (journal w0)))
    as (w2 & d & -> & E & U & _).
  cbn [snd history] in E |- *. rewrite W in E.
  rewrite (calls_since_app w w2 _ ltac:(rewrite E, <- app_assoc; reflexivity)).
  rewrite uploads_in_app, U.
  change EmptyString with (Path.slash_join []).
  by rewrite (written_blobs_plain t []).
Qed.

(** X15. From end to end: a request for a full sync of a space whose pages
    form a tree with plain titles is answered 200 by either entry point,
    whichever page of the space the wiki service lists first, and the
    objects uploaded while it is served are exactly one per page of the
    tree, each under the titles of its ancestors joined by ['/'], then
    ['<title>.html'], backslashes written as slashes.  It is assumed that
    the two clients can be built, that the wiki service holds the tree and
    reports for the listed page the ancestors it has in the tree, and that
    the stack has room for the levels of the tree. *)
Theorem full_sync_request_mirrors_tree (up : upstream) (v : pyval)
    (t : page_tree) (p : wiki_page) (others : list page_ref) (w : world) :
  truthy v = true → clients_build up → p ∈ tree_site [] t →
  (∀ h, get_all_pages_from_space up h v 1 = Returns (wp_ref p :: others)) →
  (∀ h, get_page_ancestors up h (wp_id p) = Returns (wp_ancestors p)) →
  serves up (session_for up v (tree_id t)) t →
  all_titles plain_title t = true →
  (height t ≤ S (stack_room up))%nat →
  let success :=
    Returns (HttpResponse
               ("Full sync completed for space: " +:+ py_str v +:+ ".") 200) in
  (∀ params,
     params_get params "space" = v → params !! "type" = Some "full" →
     (HttpTrigger_main up params w).1 = success
     ∧ uploads_in (calls_since w (HttpTrigger_main up params w).2)
       = map normalised (expected_blobs [] t))
  ∧ (∀ members,
       members !! "space" = Some v → members !! "type" = Some (PyStr "full") →
       (ConfluenceSync_main up (Returns (JsonObject members)) w).1 = success
       ∧ uploads_in
           (calls_since w
              (ConfluenceSync_main up (Returns (JsonObject members)) w).2)
         = map normalised (expected_blobs [] t)).
Proof.
  intros Hv B I L A S P H. cbn zeta. split.
  - intros params Ps Pt. rewrite HttpTrigger_main_dispatch, Ps.
    unfold params_get at 1 2. rewrite Pt.
    by apply (dispatch_mirrors_tree up v t p others w (entered w)).
  - intros members Ms Mt. rewrite ConfluenceSync_main_dispatch.
    unfold read_parameters. rewrite Ms, Mt.
    by apply (dispatch_mirrors_tree up v t p others w).
Qed.

(** The handbook, asked for in the query string; the wiki lists Setup
    first. *)
Lemma full_sync_request_mirrors_tree_witness :
  let run := HttpTrigger_main Sample.healthy
               {[ "space" := "DOCS"; "type" := "full" ]} boot in
  run.1 = Returns (HttpResponse "Full sync completed for space: DOCS." 200)
  ∧ uploads_in (calls_since boot run.2)
    = [("Home.html", "<p>Welcome</p>"); ("Home/Guides.html", "<p>Guides</p>");
       ("Home/Guides/Setup.html", "<p>Setup</p>");
       ("Home/FAQ.html", "<p>FAQ</p>")].
Proof.
  cbn zeta.
  destruct (full_sync_request_mirrors_tree Sample.healthy (PyStr "DOCS")
              Sample.handbook
              (WikiPage "111" "Setup" "<p>Setup</p>" Sample.stamp 0
                 [PageRef "100" "Home"; PageRef "110" "Guides"]) [] boot)
    as [Q _].
  - reflexivity.
  - split; reflexivity.
  - vm_compute. set_solver.
  - reflexivity.
  - reflexivity.
  - sample_serves.
  - reflexivity.
  - cbn. lia.
  - apply (Q {[ "space" := "DOCS"; "type" := "full" ]}); reflexivity.
Defined.

(** ** The path of an incremental upload *)

(** X16. For a page the wiki service knows, whose title and whose
    ancestors' titles are plain, a step of the incremental sync returns and
    uploads exactly one object: the body of the page, under the titles of
    its ancestors, root first, joined by ['/'], then ['<title>.html'],
    backslashes written as slashes.  A page without ancestors is stored at
    ['<title>.html']. *)
Theorem incremental_step_mirrors_ancestors (up : upstream) (self : session)
    (p : wiki_page) (w : world) :
  constructed self → page_known up self p →
  Forall (λ a, plain_title a = true) (ref_title <$> wp_ancestors p) →
  plain_title (wp_title p) = true →
  let run := incremental_step up self (wp_id p) w in
  run.1 = Returns ()
  ∧ uploads_in (calls_since w run.2)
    = [normalised
         (spec_blob_path (ref_title <$> wp_ancestors p) (wp_title p),
          wp_body p)].
Proof.
  intros C K F P. cbn zeta.
  destruct (incremental_step_known up self p w C K)
    as (w' & d & -> & E & U & _).
  cbn [fst snd]. rewrite (calls_since_app w w' d E), U.
  split; [reflexivity|]. unfold incremental_blob, normalised. cbn [fst snd].
  by rewrite blob_name_plain.
Qed.

(** Setup lies below Home and Guides. *)
Lemma incremental_step_mirrors_ancestors_witness :
  uploads_in
    (calls_since boot (incremental_step Sample.healthy Sample.docs "111" boot).2)
  = [("Home/Guides/Setup.html", "<p>Setup</p>")].
Proof.
  apply (incremental_step_mirrors_ancestors Sample.healthy Sample.docs
           (WikiPage "111" "Setup" "<p>Setup</p>" Sample.stamp 738959
              [PageRef "100" "Home"; PageRef "110" "Guides"]) boot).
  - reflexivity.
  - split; intros h; [|reflexivity].
    eexists. split; [reflexivity|]. split; [left; reflexivity|reflexivity].
  - by repeat constructor.
  - reflexivity.
Defined.
